(** * dungeonDice: dice balance, roll resolution, combat turns and enemy AI

    A shallow embedding of the core of the dungeonDice engine
    (src/core/dice.py, src/core/character.py, src/game/combat.py,
    src/enemies/ai.py, and the combat turn of src/game/game_instance.py),
    the properties its specification states, and further properties
    of the code.

    Conventions of the embedding.
    - Python [int] is [Z]; lists are [list]; [dict] and [set] are
      stdpp's [gmap] and [gset].
    - Python [float] is modelled by exact rationals [Q], which is an
      idealisation.  [int(x * 1.5)], [int(x * 0.8)], the percentages
      of max_health and the comparisons of a quotient [a / b] with
      [0.3] and [0.6] agree with the floats of the code on the integers
      a game reaches (magnitudes far below 2^50), so [int(x * 1.5)] is
      the truncation of the rational [3x/2].  Two computations can
      differ from the floats by rounding: the damage
      [int(damage * random.uniform(0.8, 1.2))] of [enemy_turn], when
      the exact product is an integer (damage 40 and the draw 15/16
      give 47 here and 46 in floats), and the sums [player% + 0.3] and
      [player% - 0.3] of the tactical behaviour, when the comparison
      is a tie (0.6 + 0.3 is below 0.9 in floats).  What is stated in
      general of these two functions fixes neither the value of the
      damage beyond its bounds nor the branch the tactical behaviour
      takes, and the examples are not at such inputs.
    - Exceptions are the [Raise] case of [result]; mutation is explicit
      state passing: a method returns the new object next to its value.
    - The process-wide [random] module is an explicit source [Rng] that
      is threaded through every call that draws from it. *)

From Stdlib Require Import ZArith QArith Qminmax Qround String Ascii List Lia
  DecimalString DecimalPos DecimalZ.
From stdpp Require Import gmap strings list.

Local Open Scope Z_scope.

(** ** Python primitives *)

Inductive exn := ZeroDivisionError | IndexError | KeyError | TypeError.

Inductive result (A : Type) : Type :=
| Ok (a : A)
| Raise (e : exn).
Arguments Ok {A} a.
Arguments Raise {A} e.

#[global] Instance result_ret : MRet result := fun A a => Ok a.
#[global] Instance result_bind : MBind result := fun A B f m =>
  match m with
  | Ok a => f a
  | Raise e => Raise e
  end.

Module Py.

(** [int(x)] on a float: truncation toward zero. *)
Definition int (q : Q) : Z := Z.quot (Qnum q) (Zpos (Qden q)).

(** [a < b] on floats. *)
Definition lt (a b : Q) : bool := (Qnum a * QDen b <? Qnum b * QDen a)%Z.

(** [a > b] on floats. *)
Definition gt (a b : Q) : bool := lt b a.

(** [a / b] on ints: true division, raising on a zero divisor. *)
Definition truediv (a b : Z) : result Q :=
  if b =? 0 then Raise ZeroDivisionError
  else Ok (inject_Z a / inject_Z b)%Q.

(** [min(a, b)]: the first argument unless the second is strictly smaller. *)
Definition min (a b : Q) : Q := if lt b a then b else a.

(** [max(a, b)]: the first argument unless the second is strictly greater. *)
Definition max (a b : Q) : Q := if lt a b then b else a.

(** [str(n)] and [{n}] inside an f-string, for an int. *)
Definition str (n : Z) : string := NilZero.string_of_int (Z.to_int n).

(** [sub in s] on strings. *)
Fixpoint contains (sub s : string) : bool :=
  if String.prefix sub s then true
  else match s with
       | EmptyString => false
       | String _ s' => contains sub s'
       end.

(** [len(xs)]. *)
Definition len {A} (xs : list A) : Z := Z.of_nat (length xs).

(** [xs[i]] for an index already checked to be in range by the caller;
    out of range raises. *)
Definition getitem {A} (xs : list A) (i : Z) : result A :=
  if (0 <=? i) && (i <? len xs) then
    match xs !! Z.to_nat i with
    | Some x => Ok x
    | None => Raise IndexError
    end
  else Raise IndexError.

(** [s.lower()] on ASCII letters. *)
Definition lower_ascii (c : ascii) : ascii :=
  let n := nat_of_ascii c in
  if ((65 <=? n) && (n <=? 90))%nat then ascii_of_nat (n + 32) else c.

Fixpoint lower (s : string) : string :=
  match s with
  | EmptyString => EmptyString
  | String c s' => String (lower_ascii c) (lower s')
  end.

End Py.

(** ** The random source

    [rng_float t] is what [random.random()] returns when it is the
    [t]-th draw, [rng_below t n] what the [t]-th draw returns when it is
    an index below [n] (reduced modulo [n], so every source is usable). *)

Record Rng := {
  rng_float : nat -> Q;
  rng_below : nat -> nat -> nat;
  rng_tick : nat
}.

Module random.

Definition advance (g : Rng) : Rng :=
  {| rng_float := rng_float g; rng_below := rng_below g;
     rng_tick := S (rng_tick g) |}.

(** [random.random()] *)
Definition random (g : Rng) : Q * Rng :=
  (rng_float g (rng_tick g), advance g).

(** The index [random.choice] draws for a sequence of [n] items. *)
Definition index (n : nat) (g : Rng) : nat :=
  (rng_below g (rng_tick g) n `mod` n)%nat.

(** [random.choice(seq)]; an empty sequence raises IndexError. *)
Definition choice {A} (seq : list A) (g : Rng) : result (A * Rng) :=
  match seq !! index (length seq) g with
  | Some x => Ok (x, advance g)
  | None => Raise IndexError
  end.

(** [random.uniform(a, b)] is [a + (b - a) * random()]. *)
Definition uniform (a b : Q) (g : Rng) : Q * Rng :=
  let '(u, g) := random g in ((a + (b - a) * u)%Q, g).

End random.

(** ** Enumerations (src/core/enums.py) *)

Inductive DiceType := CHARACTER | COMBAT | ENCOUNTER | SPECIAL | FATE.

Inductive FaceCategory := TRAIT | FC_COMBAT | EFFECT | UTILITY | META.

Inductive ImbalanceEffect :=
  NONE | UNSTABLE | OVERLOADED | CURSED | BLESSED | CHAOTIC | SYNCHRONIZED.

Inductive Rarity := COMMON | UNCOMMON | RARE | EPIC | LEGENDARY.

Inductive EnemyType :=
  GOBLIN | SKELETON | ORC | ZOMBIE | GHOST | SLIME | MINOTAUR | DRAGON.

#[global] Instance DiceType_eq_dec : EqDecision DiceType.
Proof. solve_decision. Defined.
#[global] Instance FaceCategory_eq_dec : EqDecision FaceCategory.
Proof. solve_decision. Defined.
#[global] Instance ImbalanceEffect_eq_dec : EqDecision ImbalanceEffect.
Proof. solve_decision. Defined.
#[global] Instance EnemyType_eq_dec : EqDecision EnemyType.
Proof. solve_decision. Defined.

(** [member.name] of an enum member. *)
Definition DiceType_name (t : DiceType) : string :=
  match t with
  | CHARACTER => "CHARACTER" | COMBAT => "COMBAT" | ENCOUNTER => "ENCOUNTER"
  | SPECIAL => "SPECIAL" | FATE => "FATE"
  end.

Definition FaceCategory_name (c : FaceCategory) : string :=
  match c with
  | TRAIT => "TRAIT" | FC_COMBAT => "COMBAT" | EFFECT => "EFFECT"
  | UTILITY => "UTILITY" | META => "META"
  end.

(** [str(member)], as an f-string formats it: the class and member name. *)
Definition DiceType_str (t : DiceType) : string :=
  "DiceType." +:+ DiceType_name t.

(** ** DiceFace (src/core/dice.py)

    The optional [effect_function] callable is never called by the code
    modelled here and is left out. *)

Module DiceFace.

Record t := {
  name : string;
  value : Z;
  category : FaceCategory;
  effect_description : string;
  rarity : Rarity;
  cost : gmap string Z;
  synergies : list string
}.

(** [DiceFace(name, value, category, effect_description)] with the
    defaults of the other fields. *)
Definition create (name : string) (value : Z) (category : FaceCategory)
    (effect_description : string) : t :=
  {| name := name; value := value; category := category;
     effect_description := effect_description; rarity := COMMON;
     cost := ∅; synergies := [] |}.

End DiceFace.

(** ** Dice (src/core/dice.py) *)

Module Dice.

Record t := {
  name : string;
  dice_type : DiceType;
  size : Z;
  rarity : Rarity;
  description : string;
  faces : list DiceFace.t;
  level : Z;
  xp : Z;
  xp_to_next_level : Z;
  cooldown : Z;
  balance_value : Z;
  imbalance_effect : ImbalanceEffect;
  imbalance_severity : Q;
  modifiers : gmap string Q
}.

(** Assignments to the mutable attributes. *)
Definition set_faces (d : t) (fs : list DiceFace.t) : t :=
  {| name := name d; dice_type := dice_type d; size := size d;
     rarity := rarity d; description := description d; faces := fs;
     level := level d; xp := xp d; xp_to_next_level := xp_to_next_level d;
     cooldown := cooldown d; balance_value := balance_value d;
     imbalance_effect := imbalance_effect d;
     imbalance_severity := imbalance_severity d; modifiers := modifiers d |}.

Definition set_progress (d : t) (lvl x nxt : Z) : t :=
  {| name := name d; dice_type := dice_type d; size := size d;
     rarity := rarity d; description := description d; faces := faces d;
     level := lvl; xp := x; xp_to_next_level := nxt;
     cooldown := cooldown d; balance_value := balance_value d;
     imbalance_effect := imbalance_effect d;
     imbalance_severity := imbalance_severity d; modifiers := modifiers d |}.

Definition set_cooldown (d : t) (c : Z) : t :=
  {| name := name d; dice_type := dice_type d; size := size d;
     rarity := rarity d; description := description d; faces := faces d;
     level := level d; xp := xp d; xp_to_next_level := xp_to_next_level d;
     cooldown := c; balance_value := balance_value d;
     imbalance_effect := imbalance_effect d;
     imbalance_severity := imbalance_severity d; modifiers := modifiers d |}.

Definition set_balance (d : t) (bv : Z) (eff : ImbalanceEffect) (sev : Q) : t :=
  {| name := name d; dice_type := dice_type d; size := size d;
     rarity := rarity d; description := description d; faces := faces d;
     level := level d; xp := xp d; xp_to_next_level := xp_to_next_level d;
     cooldown := cooldown d; balance_value := bv;
     imbalance_effect := eff;
     imbalance_severity := sev; modifiers := modifiers d |}.

(** [sum(face.value for face in self.faces)] *)
Definition sum_values (fs : list DiceFace.t) : Z :=
  foldr (fun f acc => DiceFace.value f + acc) 0 fs.

(** [_calculate_balance] *)
Definition _calculate_balance (d : t) : result t :=
  let bv := sum_values (faces d) in
  if bv =? 0 then
    Ok (set_balance d bv NONE 0%Q)
  else if bv <? 0 then
    q ← Py.truediv (Z.abs bv) (size d * 2);
    Ok (set_balance d bv UNSTABLE (Py.min 1%Q q))
  else
    q ← Py.truediv bv (size d * 2);
    Ok (set_balance d bv OVERLOADED (Py.min 1%Q q)).

(** [__post_init__] *)
Definition __post_init__ (d : t) : result t :=
  match faces d with
  | [] => Ok d
  | _ :: _ => _calculate_balance d
  end.

(** [Dice(name, dice_type, size, faces=faces)] with the defaults of the
    other fields; the dataclass runs [__post_init__] on the new object. *)
Definition create (name : string) (dice_type : DiceType) (size : Z)
    (faces : list DiceFace.t) : result t :=
  __post_init__
    {| name := name; dice_type := dice_type; size := size; rarity := COMMON;
       description := ""; faces := faces; level := 1; xp := 0;
       xp_to_next_level := 100; cooldown := 0; balance_value := 0;
       imbalance_effect := NONE; imbalance_severity := 0%Q;
       modifiers := ∅ |}.

(** [add_face] *)
Definition add_face (d : t) (face : DiceFace.t) : result (t * bool) :=
  if Py.len (faces d) >=? size d then Ok (d, false)
  else
    d' ← _calculate_balance (set_faces d (faces d ++ [face]));
    Ok (d', true).

(** [remove_face] *)
Definition remove_face (d : t) (index : Z) : result (t * option DiceFace.t) :=
  if (0 <=? index) && (index <? Py.len (faces d)) then
    face ← Py.getitem (faces d) index;
    d' ← _calculate_balance (set_faces d (delete (Z.to_nat index) (faces d)));
    Ok (d', Some face)
  else Ok (d, None).

(** [replace_face] *)
Definition replace_face (d : t) (index : Z) (new_face : DiceFace.t)
  : result (t * option DiceFace.t) :=
  if (0 <=? index) && (index <? Py.len (faces d)) then
    old_face ← Py.getitem (faces d) index;
    d' ← _calculate_balance
           (set_faces d (<[Z.to_nat index := new_face]> (faces d)));
    Ok (d', Some old_face)
  else Ok (d, None).

(** [level_up] *)
Definition level_up (d : t) : t :=
  let lvl := level d + 1 in
  let x := xp d - xp_to_next_level d in
  let nxt := Py.int (inject_Z (xp_to_next_level d) * (3 # 2))%Q in
  set_progress d lvl x nxt.

(** [add_xp] *)
Definition add_xp (d : t) (amount : Z) : t * bool :=
  let d := set_progress d (level d) (xp d + amount) (xp_to_next_level d) in
  if xp d >=? xp_to_next_level d then (level_up d, true)
  else (d, false).

(** The value [roll] returns: [(face, message, effect_list)]. *)
Definition roll_value : Type := option DiceFace.t * string * list string.

(** [roll] *)
Definition roll (d : t) (g : Rng) : result (t * roll_value * Rng) :=
  match faces d with
  | [] => Ok (d, (None, "Die has no faces!", []), g)
  | _ :: _ =>
    if cooldown d >? 0 then
      let d := set_cooldown d (cooldown d - 1) in
      Ok (d, (None,
              name d +:+ " is on cooldown for " +:+ Py.str (cooldown d + 1)
                +:+ " more turns.",
              []), g)
    else
      let standard (g : Rng) : result (t * roll_value * Rng) :=
        '(result, g) ← random.choice (faces d) g;
        let '(d, _) := add_xp d 10 in
        Ok (d, (Some result, "Normal roll.", []), g) in
      match imbalance_effect d with
      | UNSTABLE =>
        let '(r, g) := random.random g in
        if Py.lt r (imbalance_severity d) then
          '(roll1, g) ← random.choice (faces d) g;
          '(roll2, g) ← random.choice (faces d) g;
          let result :=
            if DiceFace.value roll1 <? DiceFace.value roll2
            then roll1 else roll2 in
          let message :=
            "UNSTABLE: Rolled " +:+ DiceFace.name roll1 +:+ " and "
              +:+ DiceFace.name roll2 +:+ ", took worse result "
              +:+ DiceFace.name result +:+ "." in
          Ok (d, (Some result, message, ["Unstable: Double Roll"]), g)
        else standard g
      | _ => standard g
      end
  end.

End Dice.

(** ** DiceSet (src/core/dice.py) *)

Module DiceSet.

Record t := {
  character_dice : list Dice.t;
  combat_dice : list Dice.t;
  encounter_dice : list Dice.t;
  special_dice : list Dice.t;
  fate_dice : list Dice.t
}.

(** [DiceSet()] *)
Definition create : t :=
  {| character_dice := []; combat_dice := []; encounter_dice := [];
     special_dice := []; fate_dice := [] |}.

(** [get_dice_list] *)
Definition get_dice_list (s : t) (dice_type : DiceType) : list Dice.t :=
  match dice_type with
  | CHARACTER => character_dice s
  | COMBAT => combat_dice s
  | ENCOUNTER => encounter_dice s
  | SPECIAL => special_dice s
  | FATE => fate_dice s
  end.

(** The list [get_dice_list] returns is the stored one: a die mutated
    through it is mutated in the set. *)
Definition set_dice_list (s : t) (dice_type : DiceType) (l : list Dice.t) : t :=
  match dice_type with
  | CHARACTER =>
    {| character_dice := l; combat_dice := combat_dice s;
       encounter_dice := encounter_dice s; special_dice := special_dice s;
       fate_dice := fate_dice s |}
  | COMBAT =>
    {| character_dice := character_dice s; combat_dice := l;
       encounter_dice := encounter_dice s; special_dice := special_dice s;
       fate_dice := fate_dice s |}
  | ENCOUNTER =>
    {| character_dice := character_dice s; combat_dice := combat_dice s;
       encounter_dice := l; special_dice := special_dice s;
       fate_dice := fate_dice s |}
  | SPECIAL =>
    {| character_dice := character_dice s; combat_dice := combat_dice s;
       encounter_dice := encounter_dice s; special_dice := l;
       fate_dice := fate_dice s |}
  | FATE =>
    {| character_dice := character_dice s; combat_dice := combat_dice s;
       encounter_dice := encounter_dice s; special_dice := special_dice s;
       fate_dice := l |}
  end.

(** [add_dice]: the die joins the list of its type.  Every member of
    DiceType has its branch, so the final [return False] is never
    reached. *)
Definition add_dice (s : t) (dice : Dice.t) : t * bool :=
  match Dice.dice_type dice with
  | CHARACTER => (set_dice_list s CHARACTER (character_dice s ++ [dice]), true)
  | COMBAT => (set_dice_list s COMBAT (combat_dice s ++ [dice]), true)
  | ENCOUNTER => (set_dice_list s ENCOUNTER (encounter_dice s ++ [dice]), true)
  | SPECIAL => (set_dice_list s SPECIAL (special_dice s ++ [dice]), true)
  | FATE => (set_dice_list s FATE (fate_dice s ++ [dice]), true)
  end.

End DiceSet.

(** ** CharacterStats (src/core/character.py) *)

Module CharacterStats.

Record t := {
  health : Z;
  max_health : Z;
  mana : Z;
  max_mana : Z;
  physical_damage : Z;
  magic_damage : Z;
  speed : Z;
  dodge : Q;
  crit_chance : Q;
  crit_damage : Q;
  resistances : gmap string Q;
  status_effects : gmap string Z;
  passive_bonuses : gmap string Q
}.

Definition set_health (s : t) (h mh : Z) : t :=
  {| health := h; max_health := mh; mana := mana s; max_mana := max_mana s;
     physical_damage := physical_damage s; magic_damage := magic_damage s;
     speed := speed s; dodge := dodge s; crit_chance := crit_chance s;
     crit_damage := crit_damage s; resistances := resistances s;
     status_effects := status_effects s;
     passive_bonuses := passive_bonuses s |}.

Definition set_mana (s : t) (m mm : Z) : t :=
  {| health := health s; max_health := max_health s; mana := m;
     max_mana := mm;
     physical_damage := physical_damage s; magic_damage := magic_damage s;
     speed := speed s; dodge := dodge s; crit_chance := crit_chance s;
     crit_damage := crit_damage s; resistances := resistances s;
     status_effects := status_effects s;
     passive_bonuses := passive_bonuses s |}.

Definition set_damage (s : t) (pd md : Z) : t :=
  {| health := health s; max_health := max_health s; mana := mana s;
     max_mana := max_mana s; physical_damage := pd; magic_damage := md;
     speed := speed s; dodge := dodge s; crit_chance := crit_chance s;
     crit_damage := crit_damage s; resistances := resistances s;
     status_effects := status_effects s;
     passive_bonuses := passive_bonuses s |}.

Definition set_speed (s : t) (sp : Z) (dg : Q) : t :=
  {| health := health s; max_health := max_health s; mana := mana s;
     max_mana := max_mana s; physical_damage := physical_damage s;
     magic_damage := magic_damage s;
     speed := sp; dodge := dg; crit_chance := crit_chance s;
     crit_damage := crit_damage s; resistances := resistances s;
     status_effects := status_effects s;
     passive_bonuses := passive_bonuses s |}.

Definition set_crit (s : t) (cc cd : Q) : t :=
  {| health := health s; max_health := max_health s; mana := mana s;
     max_mana := max_mana s; physical_damage := physical_damage s;
     magic_damage := magic_damage s;
     speed := speed s; dodge := dodge s; crit_chance := cc;
     crit_damage := cd; resistances := resistances s;
     status_effects := status_effects s;
     passive_bonuses := passive_bonuses s |}.

Definition set_passive_bonuses (s : t) (pb : gmap string Q) : t :=
  {| health := health s; max_health := max_health s; mana := mana s;
     max_mana := max_mana s; physical_damage := physical_damage s;
     magic_damage := magic_damage s;
     speed := speed s; dodge := dodge s; crit_chance := crit_chance s;
     crit_damage := crit_damage s; resistances := resistances s;
     status_effects := status_effects s;
     passive_bonuses := pb |}.

(** [CharacterStats()] with the defaults of every field. *)
Definition create : t :=
  {| health := 100; max_health := 100; mana := 50; max_mana := 50;
     physical_damage := 10; magic_damage := 10; speed := 5;
     dodge := (1 # 10)%Q; crit_chance := (5 # 100)%Q;
     crit_damage := (3 # 2)%Q;
     resistances :=
       <["physical" := 0%Q]> (<["magic" := 0%Q]> (<["fire" := 0%Q]>
       (<["ice" := 0%Q]> (<["poison" := 0%Q]> ∅))));
     status_effects := ∅; passive_bonuses := ∅ |}.

(** ['increased' if value > 0 else 'decreased'] *)
Definition direction (value : Z) : string :=
  if value >? 0 then "increased" else "decreased".

Section Reflection.

(** [hasattr(self, n)] for the names [n] that are not dataclass
    fields: methods and inherited attributes.  Their values cannot
    be added to an int. *)
Variable other_attribute : string -> bool.

(** The fallback of [apply_trait]: [getattr]/[setattr] on the
    lower-cased trait name, or a passive bonus. *)
Definition apply_generic_trait (s : t) (name : string) (value : Z)
  : result (t * string) :=
  let stat_name := Py.lower name in
  let changed :=
    name +:+ " " +:+ direction value +:+ " by " +:+ Py.str (Z.abs value) in
  if String.eqb stat_name "health" then
    Ok (set_health s (health s + value) (max_health s), changed)
  else if String.eqb stat_name "max_health" then
    Ok (set_health s (health s) (max_health s + value), changed)
  else if String.eqb stat_name "mana" then
    Ok (set_mana s (mana s + value) (max_mana s), changed)
  else if String.eqb stat_name "max_mana" then
    Ok (set_mana s (mana s) (max_mana s + value), changed)
  else if String.eqb stat_name "physical_damage" then
    Ok (set_damage s (physical_damage s + value) (magic_damage s), changed)
  else if String.eqb stat_name "magic_damage" then
    Ok (set_damage s (physical_damage s) (magic_damage s + value), changed)
  else if String.eqb stat_name "speed" then
    Ok (set_speed s (speed s + value) (dodge s), changed)
  else if String.eqb stat_name "dodge" then
    Ok (set_speed s (speed s) (dodge s + inject_Z value)%Q, changed)
  else if String.eqb stat_name "crit_chance" then
    Ok (set_crit s (crit_chance s + inject_Z value)%Q (crit_damage s),
        changed)
  else if String.eqb stat_name "crit_damage" then
    Ok (set_crit s (crit_chance s) (crit_damage s + inject_Z value)%Q,
        changed)
  else if String.eqb stat_name "resistances"
          || String.eqb stat_name "status_effects"
          || String.eqb stat_name "passive_bonuses"
          || other_attribute stat_name then
    Raise TypeError
  else
    Ok (set_passive_bonuses s (<[name := inject_Z value]> (passive_bonuses s)),
        "Added " +:+ name +:+ " (" +:+ Py.str value
          +:+ ") as a passive bonus").

(** [apply_trait] *)
Definition apply_trait (s : t) (name : string) (value : Z)
  : result (t * string) :=
  if String.eqb name "Strength" then
    Ok (set_damage s (physical_damage s + value) (magic_damage s),
        "Physical damage " +:+ direction value +:+ " by "
          +:+ Py.str (Z.abs value))
  else if String.eqb name "Intelligence" then
    Ok (set_damage s (physical_damage s) (magic_damage s + value),
        "Magic damage " +:+ direction value +:+ " by "
          +:+ Py.str (Z.abs value))
  else if String.eqb name "Vitality" then
    let percent := value * 10 in
    let health_change :=
      Py.int (inject_Z (max_health s * percent) / inject_Z 100)%Q in
    Ok (set_health s (health s + health_change)
                     (max_health s + health_change),
        "Max health " +:+ direction value +:+ " by "
          +:+ Py.str (Z.abs percent) +:+ "%")
  else if String.eqb name "Agility" then
    Ok (set_speed s (speed s + value)
                    (dodge s + inject_Z value * (2 # 100))%Q,
        "Speed " +:+ direction value +:+ " by " +:+ Py.str (Z.abs value))
  else if String.eqb name "Weakness" then
    Ok (set_damage s (Z.max 1 (physical_damage s + value)) (magic_damage s),
        "Physical damage decreased by " +:+ Py.str (Z.abs value))
  else if String.eqb name "Frailty" then
    let percent := value * 10 in
    let health_change :=
      Py.int (inject_Z (max_health s * percent) / inject_Z 100)%Q in
    let mh := Z.max 1 (max_health s + health_change) in
    Ok (set_health s (Z.min (health s) mh) mh,
        "Max health decreased by " +:+ Py.str (Z.abs percent) +:+ "%")
  else if String.eqb name "Slowness" then
    let dg := (dodge s + inject_Z value * (2 # 100))%Q in
    Ok (set_speed s (Z.max 1 (speed s + value))
                    (Py.max 0%Q dg),
        "Speed decreased by " +:+ Py.str (Z.abs value))
  else if String.eqb name "Stupidity" then
    Ok (set_damage s (physical_damage s) (Z.max 1 (magic_damage s + value)),
        "Magic damage decreased by " +:+ Py.str (Z.abs value))
  else apply_generic_trait s name value.

End Reflection.

(** [is_alive] *)
Definition is_alive (s : t) : bool := health s >? 0.

Definition set_status_effects (s : t) (se : gmap string Z) : t :=
  {| health := health s; max_health := max_health s; mana := mana s;
     max_mana := max_mana s; physical_damage := physical_damage s;
     magic_damage := magic_damage s;
     speed := speed s; dodge := dodge s; crit_chance := crit_chance s;
     crit_damage := crit_damage s; resistances := resistances s;
     status_effects := se;
     passive_bonuses := passive_bonuses s |}.

(** [apply_status_effect] *)
Definition apply_status_effect (s : t) (effect_name : string) (duration : Z)
  : t :=
  match status_effects s !! effect_name with
  | Some current =>
    set_status_effects s
      (<[effect_name := Z.max current duration]> (status_effects s))
  | None =>
    set_status_effects s (<[effect_name := duration]> (status_effects s))
  end.

(** The damage and the message of one turn of an effect, for the three
    effects that hurt: [max(1, int(self.max_health * rate))]. *)
Definition effect_damage (s : t) (effect : string) : option (Z * string) :=
  if String.eqb effect "Bleeding" then
    let damage := Z.max 1 (Py.int (inject_Z (max_health s) * (5 # 100))%Q) in
    Some (damage, "Suffered " +:+ Py.str damage +:+ " bleeding damage")
  else if String.eqb effect "Poisoned" then
    let damage := Z.max 1 (Py.int (inject_Z (max_health s) * (3 # 100))%Q) in
    Some (damage, "Suffered " +:+ Py.str damage +:+ " poison damage")
  else if String.eqb effect "Burning" then
    let damage := Z.max 1 (Py.int (inject_Z (max_health s) * (7 # 100))%Q) in
    Some (damage, "Suffered " +:+ Py.str damage +:+ " burning damage")
  else None.

(** The body of the loop of [process_status_effects] for the item
    [(effect, turns)]; the state of the loop is the stats, the messages
    and [effects_to_remove]. *)
Definition process_effect (effect : string) (turns : Z)
    (st : t * list string * list string) : t * list string * list string :=
  let '(s, messages, effects_to_remove) := st in
  let '(s, messages) :=
    match effect_damage s effect with
    | Some (damage, message) =>
      (set_health s (health s - damage) (max_health s), messages ++ [message])
    | None => (s, messages)
    end in
  let s := set_status_effects s (<[effect := turns - 1]> (status_effects s)) in
  if turns - 1 <=? 0 then
    (s, messages ++ [effect +:+ " effect has worn off"],
     effects_to_remove ++ [effect])
  else (s, messages, effects_to_remove).

(** [process_status_effects].  A Python dict iterates in the order its
    keys were inserted, which a [gmap] does not record: [order] is that
    order, the keys of [status_effects] as [list(self.status_effects)]
    gives them. *)
Definition process_status_effects (s : t) (order : list string)
  : t * list string :=
  let '(s, messages, effects_to_remove) :=
    foldl (fun st effect =>
             match status_effects st.1.1 !! effect with
             | Some turns => process_effect effect turns st
             | None => st
             end)
          (s, [], []) order in
  (set_status_effects s
     (foldl (fun m effect => delete effect m) (status_effects s)
            effects_to_remove),
   messages).

End CharacterStats.

(** ** Character (src/core/character.py) *)

Module Character.

Record t := {
  name : string;
  stats : CharacterStats.t;
  dice_set : DiceSet.t;
  level : Z;
  xp : Z;
  xp_to_next_level : Z;
  active_faces : list string;
  character_class : string
}.

Definition set_stats (c : t) (s : CharacterStats.t) : t :=
  {| name := name c; stats := s; dice_set := dice_set c; level := level c;
     xp := xp c; xp_to_next_level := xp_to_next_level c;
     active_faces := active_faces c;
     character_class := character_class c |}.

Definition set_dice_set (c : t) (ds : DiceSet.t) : t :=
  {| name := name c; stats := stats c; dice_set := ds; level := level c;
     xp := xp c; xp_to_next_level := xp_to_next_level c;
     active_faces := active_faces c;
     character_class := character_class c |}.

Definition set_progress (c : t) (lvl x nxt : Z) : t :=
  {| name := name c; stats := stats c; dice_set := dice_set c; level := lvl;
     xp := x; xp_to_next_level := nxt;
     active_faces := active_faces c;
     character_class := character_class c |}.

Definition set_active_faces (c : t) (af : list string) : t :=
  {| name := name c; stats := stats c; dice_set := dice_set c;
     level := level c;
     xp := xp c; xp_to_next_level := xp_to_next_level c;
     active_faces := af;
     character_class := character_class c |}.

(** [Character(name, dice_set=dice_set)] with the defaults of the other
    fields. *)
Definition create (name : string) (dice_set : DiceSet.t) : t :=
  {| name := name; stats := CharacterStats.create; dice_set := dice_set;
     level := 1; xp := 0; xp_to_next_level := 100; active_faces := [];
     character_class := "Adventurer" |}.

(** [level_up]: the new character and the message it returns. *)
Definition level_up (c : t) : t * string :=
  let lvl := level c + 1 in
  let x := xp c - xp_to_next_level c in
  let nxt := Py.int (inject_Z (xp_to_next_level c) * (3 # 2))%Q in
  let c := set_progress c lvl x nxt in
  let health_increase := level c * 5 in
  let s := stats c in
  let s := CharacterStats.set_health s
             (CharacterStats.health s + health_increase)
             (CharacterStats.max_health s + health_increase) in
  let mm := CharacterStats.max_mana s + level c * 2 in
  let s := CharacterStats.set_mana s mm mm in
  let s := CharacterStats.set_damage s
             (CharacterStats.physical_damage s + 1)
             (CharacterStats.magic_damage s + 1) in
  let s :=
    if (level c) `mod` 3 =? 0
    then CharacterStats.set_speed s (CharacterStats.speed s + 1)
                                    (CharacterStats.dodge s)
    else s in
  (set_stats c s,
   "Reached level " +:+ Py.str (level c) +:+ "! Health +"
     +:+ Py.str health_increase +:+ ", damage +1").

(** [add_xp] *)
Definition add_xp (c : t) (amount : Z) : t * bool :=
  let c := set_progress c (level c) (xp c + amount) (xp_to_next_level c) in
  if xp c >=? xp_to_next_level c then (fst (level_up c), true)
  else (c, false).

(** The dict [roll_die] returns for a face. *)
Record roll_result := {
  rr_name : string;
  rr_value : Z;
  rr_category : string;
  rr_description : string;
  rr_effects : list string
}.

Section Reflection.

Variable other_attribute : string -> bool.

(** [roll_die] *)
Definition roll_die (c : t) (dice_type : DiceType) (index : Z) (g : Rng)
  : result (t * (option roll_result * string) * Rng) :=
  let dice_list := DiceSet.get_dice_list (dice_set c) dice_type in
  if (index <? 0) || (index >=? Py.len dice_list) then
    Ok (c, (None, "Invalid die selection"), g)
  else
    die ← Py.getitem dice_list index;
    '(die, (result, message, effects), g) ← Dice.roll die g;
    let c :=
      set_dice_set c
        (DiceSet.set_dice_list (dice_set c) dice_type
           (<[Z.to_nat index := die]> dice_list)) in
    match result with
    | Some result =>
      '(s, effect_message) ←
        match DiceFace.category result with
        | TRAIT =>
          CharacterStats.apply_trait other_attribute (stats c)
            (DiceFace.name result) (DiceFace.value result)
        | _ => Ok (stats c, "")
        end;
      let c := set_stats c s in
      let af := active_faces c ++ [DiceFace.name result] in
      let af :=
        if Py.len af >? 10 then drop (length af - 10) af else af in
      let c := set_active_faces c af in
      Ok (c,
          (Some {| rr_name := DiceFace.name result;
                   rr_value := DiceFace.value result;
                   rr_category :=
                     FaceCategory_name (DiceFace.category result);
                   rr_description := DiceFace.effect_description result;
                   rr_effects := effects |},
           message +:+ " " +:+ effect_message),
          g)
    | None => Ok (c, (None, message), g)
    end.

End Reflection.

End Character.

(** ** Enemy (src/game/dungeon.py) *)

Module Enemy.

Record t := {
  name : string;
  enemy_type : EnemyType;
  level : Z;
  health : Z;
  max_health : Z;
  damage : Z;
  gold_reward : Z;
  xp_reward : Z
}.

Definition set_health (e : t) (h : Z) : t :=
  {| name := name e; enemy_type := enemy_type e; level := level e;
     health := h; max_health := max_health e; damage := damage e;
     gold_reward := gold_reward e; xp_reward := xp_reward e |}.

(** [is_alive] *)
Definition is_alive (e : t) : bool := health e >? 0.

End Enemy.

(** ** CombatSystem (src/game/combat.py)

    The system owns the combat log; the player and the enemies are
    objects of the caller that a turn mutates in place.  A method takes
    the log and the objects it is handed and returns them as it leaves
    them. *)

Module CombatSystem.

Record CombatResult := {
  success : bool;
  message : string;
  damage_dealt : Z;
  healing_done : Z;
  status_applied : option string;
  target_defeated : bool
}.

(** [CombatLog.add_entry] *)
Definition add_entry (log : list string) (entry : string) : list string :=
  log ++ [entry].

(** [entries[start:]]: a negative start counts from the end, and a start
    outside the list is moved to its nearer end. *)
Definition slice_from {A} (entries : list A) (start : Z) : list A :=
  let n := Py.len entries in
  let start := if start <? 0 then Z.max 0 (start + n) else Z.min start n in
  drop (Z.to_nat start) entries.

(** [CombatLog.get_last_entries]: [self.entries[-count:]] *)
Definition get_last_entries (log : list string) (count : Z) : list string :=
  slice_from log (- count).

(** [CombatLog.clear] *)
Definition clear (log : list string) : list string := [].

(** [start_combat] *)
Definition start_combat (log : list string) (player : Character.t)
    (enemies : list Enemy.t) : list string :=
  let log := clear log in
  let log :=
    add_entry log
      ("Combat started against " +:+ Py.str (Py.len enemies) +:+ " enemies!") in
  foldl (fun log enemy =>
           add_entry log
             ("- " +:+ Enemy.name enemy +:+ " (Level "
                +:+ Py.str (Enemy.level enemy) +:+ ") with "
                +:+ Py.str (Enemy.health enemy) +:+ " health"))
        log enemies.

(** [_handle_combat_face] *)
Definition _handle_combat_face (log : list string) (player : Character.t)
    (target : Enemy.t) (face_name : string) (face_value : Z) (g : Rng)
  : list string * Enemy.t * CombatResult * Rng :=
  let base_damage := CharacterStats.physical_damage (Character.stats player) in
  let damage_multiplier :=
    if Py.contains "Heavy" face_name then (3 # 2)%Q
    else if Py.contains "Quick" face_name then (4 # 5)%Q
    else 1%Q in
  let damage :=
    Py.int (inject_Z base_damage * damage_multiplier)%Q + face_value in
  let '(r, g) := random.random g in
  let is_critical :=
    Py.lt r (CharacterStats.crit_chance (Character.stats player)) in
  let damage :=
    if is_critical
    then Py.int (inject_Z damage
                 * CharacterStats.crit_damage (Character.stats player))%Q
    else damage in
  let target := Enemy.set_health target (Enemy.health target - damage) in
  let target_defeated := Enemy.health target <=? 0 in
  let target := if target_defeated then Enemy.set_health target 0 else target in
  let message :=
    if is_critical
    then "CRITICAL HIT! " +:+ face_name +:+ " deals " +:+ Py.str damage
           +:+ " damage to " +:+ Enemy.name target +:+ "!"
    else face_name +:+ " deals " +:+ Py.str damage +:+ " damage to "
           +:+ Enemy.name target +:+ "!" in
  let message :=
    if target_defeated
    then message +:+ " " +:+ Enemy.name target +:+ " is defeated!"
    else message in
  (add_entry log message, target,
   {| success := true; message := message; damage_dealt := damage;
      healing_done := 0; status_applied := None;
      target_defeated := target_defeated |},
   g).

(** [_handle_healing] *)
Definition _handle_healing (log : list string) (player : Character.t)
    (face_name : string) (face_value : Z)
  : list string * Character.t * CombatResult :=
  let heal_amount :=
    if Py.contains "Major" face_name then 30 + face_value * 2
    else 15 + face_value in
  let s := Character.stats player in
  let old_health := CharacterStats.health s in
  let s := CharacterStats.set_health s
             (Z.min (CharacterStats.health s + heal_amount)
                    (CharacterStats.max_health s))
             (CharacterStats.max_health s) in
  let player := Character.set_stats player s in
  let actual_heal := CharacterStats.health s - old_health in
  let message :=
    face_name +:+ " restores " +:+ Py.str actual_heal +:+ " health" in
  (add_entry log message, player,
   {| success := true; message := message; damage_dealt := 0;
      healing_done := actual_heal; status_applied := None;
      target_defeated := false |}).

(** [_handle_status_effect] *)
Definition _handle_status_effect (log : list string) (target : Enemy.t)
    (effect : string) (duration : Z) (face_name : string)
  : list string * Enemy.t * CombatResult :=
  let message :=
    face_name +:+ " applies " +:+ effect +:+ " to " +:+ Enemy.name target
      +:+ " for " +:+ Py.str duration +:+ " turns" in
  (add_entry log message, target,
   {| success := true; message := message; damage_dealt := 0;
      healing_done := 0; status_applied := Some effect;
      target_defeated := false |}).

(** [_handle_effect_face] *)
Definition _handle_effect_face (log : list string) (player : Character.t)
    (target : Enemy.t) (face_name : string) (face_value : Z)
  : list string * Character.t * Enemy.t * CombatResult :=
  if Py.contains "Heal" face_name then
    let '(log, player, r) := _handle_healing log player face_name face_value in
    (log, player, target, r)
  else if Py.contains "Bleed" face_name then
    let '(log, target, r) :=
      _handle_status_effect log target "Bleeding" 3 face_name in
    (log, player, target, r)
  else if Py.contains "Poison" face_name then
    let '(log, target, r) :=
      _handle_status_effect log target "Poisoned" 3 face_name in
    (log, player, target, r)
  else if Py.contains "Stun" face_name then
    let '(log, target, r) :=
      _handle_status_effect log target "Stunned" 1 face_name in
    (log, player, target, r)
  else
    (add_entry log ("Player used " +:+ face_name +:+ " effect"),
     player, target,
     {| success := true; message := "Used " +:+ face_name +:+ " effect";
        damage_dealt := 0; healing_done := 0; status_applied := None;
        target_defeated := false |}).

(** [_process_player_action] *)
Definition _process_player_action (log : list string) (player : Character.t)
    (target : Enemy.t) (roll_result : Character.roll_result) (g : Rng)
  : list string * Character.t * Enemy.t * CombatResult * Rng :=
  let face_name := Character.rr_name roll_result in
  let face_category := Character.rr_category roll_result in
  let face_value := Character.rr_value roll_result in
  if String.eqb face_category "COMBAT" then
    let '(log, target, r, g) :=
      _handle_combat_face log player target face_name face_value g in
    (log, player, target, r, g)
  else if String.eqb face_category "EFFECT" then
    let '(log, player, target, r) :=
      _handle_effect_face log player target face_name face_value in
    (log, player, target, r, g)
  else
    (add_entry log ("Player used " +:+ face_name +:+ ": "
                      +:+ Character.rr_description roll_result),
     player, target,
     {| success := true; message := "Used " +:+ face_name;
        damage_dealt := 0; healing_done := 0; status_applied := None;
        target_defeated := false |},
     g).

(** Everything a turn can read or write. *)
Record world := {
  log : list string;
  player : Character.t;
  enemies : list Enemy.t;
  rng : Rng
}.

Section Reflection.

Variable other_attribute : string -> bool.

(** [player_turn] *)
Definition player_turn (w : world) (dice_type : DiceType)
    (dice_index target_index : Z) : result (world * CombatResult) :=
  match enemies w with
  | [] =>
    Ok (w, {| success := false; message := "Invalid target!";
              damage_dealt := 0; healing_done := 0;
              status_applied := None; target_defeated := false |})
  | _ :: _ =>
    if (target_index <? 0) || (target_index >=? Py.len (enemies w)) then
      Ok (w, {| success := false; message := "Invalid target!";
                damage_dealt := 0; healing_done := 0;
                status_applied := None; target_defeated := false |})
    else
      '(player, (roll_result, message), g) ←
        Character.roll_die other_attribute (player w) dice_type
          dice_index (rng w);
      match roll_result with
      | None =>
        Ok ({| log := add_entry (log w)
                        ("Player rolled but got no result: " +:+ message);
               player := player; enemies := enemies w; rng := g |},
            {| success := false; message := message;
               damage_dealt := 0; healing_done := 0;
               status_applied := None; target_defeated := false |})
      | Some roll_result =>
        target ← Py.getitem (enemies w) target_index;
        let '(log, player, target, r, g) :=
          _process_player_action (log w) player target roll_result g in
        Ok ({| log := log; player := player;
               enemies := <[Z.to_nat target_index := target]> (enemies w);
               rng := g |}, r)
      end
  end.

End Reflection.

(** [enemy_turn].  The damage is computed in exact rationals; in
    floats the product can round to the integer below. *)
Definition enemy_turn (log : list string) (enemy : Enemy.t)
    (player : Character.t) (g : Rng)
  : list string * Character.t * CombatResult * Rng :=
  let damage := Enemy.damage enemy in
  let '(u, g) := random.uniform (4 # 5) (6 # 5) g in
  let damage := Py.int (inject_Z damage * u)%Q in
  let '(r, g) := random.random g in
  if Py.lt r (CharacterStats.dodge (Character.stats player)) then
    let message :=
      Enemy.name enemy +:+ " attacks but " +:+ Character.name player
        +:+ " dodges!" in
    (add_entry log message, player,
     {| success := false; message := message; damage_dealt := 0;
        healing_done := 0; status_applied := None;
        target_defeated := false |}, g)
  else
    let s := Character.stats player in
    let s := CharacterStats.set_health s (CharacterStats.health s - damage)
               (CharacterStats.max_health s) in
    let player_defeated := CharacterStats.health s <=? 0 in
    let s := if player_defeated
             then CharacterStats.set_health s 0 (CharacterStats.max_health s)
             else s in
    let message :=
      if player_defeated
      then Enemy.name enemy +:+ " attacks for " +:+ Py.str damage
             +:+ " damage! " +:+ Character.name player +:+ " is defeated!"
      else Enemy.name enemy +:+ " attacks for " +:+ Py.str damage
             +:+ " damage!" in
    (add_entry log message, Character.set_stats player s,
     {| success := true; message := message; damage_dealt := damage;
        healing_done := 0; status_applied := None;
        target_defeated := player_defeated |}, g).

(** [process_combat_rewards] *)
Definition process_combat_rewards (log : list string) (player : Character.t)
    (defeated_enemies : list Enemy.t)
  : list string * Character.t * (Z * Z) :=
  let total_gold :=
    foldl (fun acc e => acc + Enemy.gold_reward e) 0 defeated_enemies in
  let total_xp :=
    foldl (fun acc e => acc + Enemy.xp_reward e) 0 defeated_enemies in
  let '(player, _) := Character.add_xp player total_xp in
  (add_entry log ("Combat rewards: " +:+ Py.str total_gold +:+ " gold and "
                    +:+ Py.str total_xp +:+ " XP"),
   player, (total_gold, total_xp)).

End CombatSystem.

(** ** Enemy AI (src/enemies/ai.py)

    A behaviour receives the dice an enemy may roll as
    [(dice_type, dice_index, dice_info)] tuples; [dice_info['faces']] is
    a list of dicts with the keys ['name'], ['value'] and ['category']. *)

Record face_info := {
  fi_name : string;
  fi_value : Z;
  fi_category : string
}.

Record dice_info := { di_faces : list face_info }.

Definition enemy_die : Type := DiceType * Z * dice_info.

Definition action : Type := DiceType * Z.

Module RandomBehavior.

(** [decide_action] *)
Definition decide_action (enemy : Enemy.t) (player : Character.t)
    (enemy_dice : list enemy_die) (g : Rng) : result (action * Rng) :=
  match enemy_dice with
  | [] => Ok ((COMBAT, 0), g)
  | _ :: _ =>
    '(selected, g) ← random.choice enemy_dice g;
    Ok ((selected.1.1, selected.1.2), g)
  end.

End RandomBehavior.

Module AggressiveBehavior.

(** [sum(face['value'] for face in attack_faces if face['value'] > 0)] *)
Definition attack_score (attack_faces : list face_info) : Z :=
  foldr (fun f acc => if fi_value f >? 0 then fi_value f + acc else acc)
        0 attack_faces.

(** One step of the stable sort by descending score: the new item goes
    behind every item whose score is not smaller. *)
Fixpoint insert_desc (x : DiceType * Z * Z) (l : list (DiceType * Z * Z))
  : list (DiceType * Z * Z) :=
  match l with
  | [] => [x]
  | y :: l' => if y.2 <? x.2 then x :: y :: l' else y :: insert_desc x l'
  end.

(** [attack_dice.sort(key=lambda x: x[2], reverse=True)] *)
Definition sort_desc (l : list (DiceType * Z * Z)) : list (DiceType * Z * Z) :=
  foldl (fun acc x => insert_desc x acc) [] l.

(** The loop that collects the scored combat dice. *)
Fixpoint attack_dice (enemy_dice : list enemy_die) : list (DiceType * Z * Z) :=
  match enemy_dice with
  | [] => []
  | (dice_type, dice_index, info) :: rest =>
    match dice_type with
    | COMBAT =>
      let attack_faces :=
        filter (fun f => String.eqb (fi_category f) "COMBAT"
                         && Py.contains "Attack" (fi_name f) = true)
               (di_faces info) in
      match attack_faces with
      | [] => attack_dice rest
      | _ :: _ =>
        (dice_type, dice_index, attack_score attack_faces) :: attack_dice rest
      end
    | _ => attack_dice rest
    end
  end.

(** [decide_action] *)
Definition decide_action (enemy : Enemy.t) (player : Character.t)
    (enemy_dice : list enemy_die) (g : Rng) : result (action * Rng) :=
  match enemy_dice with
  | [] => Ok ((COMBAT, 0), g)
  | _ :: _ =>
    match sort_desc (attack_dice enemy_dice) with
    | best :: _ => Ok ((best.1.1, best.1.2), g)
    | [] =>
      match filter (fun d : enemy_die => d.1.1 = COMBAT) enemy_dice with
      | d :: _ => Ok ((d.1.1, d.1.2), g)
      | [] =>
        '(selected, g) ← random.choice enemy_dice g;
        Ok ((selected.1.1, selected.1.2), g)
      end
    end
  end.

End AggressiveBehavior.

Module DefensiveBehavior.

(** The search for a die with a healing or defensive face. *)
Fixpoint find_healing (enemy_dice : list enemy_die) : option action :=
  match enemy_dice with
  | [] => None
  | (dice_type, dice_index, info) :: rest =>
    match filter (fun f => Py.contains "Heal" (fi_name f)
                           || Py.contains "Defense" (fi_name f)
                           || Py.contains "Block" (fi_name f) = true)
                 (di_faces info) with
    | _ :: _ => Some (dice_type, dice_index)
    | [] => find_healing rest
    end
  end.

(** [decide_action] *)
Definition decide_action (enemy : Enemy.t) (player : Character.t)
    (enemy_dice : list enemy_die) (g : Rng) : result (action * Rng) :=
  match enemy_dice with
  | [] => Ok ((COMBAT, 0), g)
  | _ :: _ =>
    health_percentage ←
      Py.truediv (Enemy.health enemy) (Enemy.max_health enemy);
    let aggressive :=
      AggressiveBehavior.decide_action enemy player enemy_dice g in
    if Py.lt health_percentage (3 # 10) then
      match find_healing enemy_dice with
      | Some a => Ok (a, g)
      | None => aggressive
      end
    else if Py.lt health_percentage (6 # 10) then
      match filter (fun d : enemy_die => d.1.1 = COMBAT) enemy_dice with
      | d :: _ => Ok ((d.1.1, d.1.2), g)
      | [] => aggressive
      end
    else aggressive
  end.

End DefensiveBehavior.

Module TacticalBehavior.

(** The dice that have a face of the EFFECT category. *)
Fixpoint status_dice (enemy_dice : list enemy_die) : list action :=
  match enemy_dice with
  | [] => []
  | (dice_type, dice_index, info) :: rest =>
    match filter (fun f => String.eqb (fi_category f) "EFFECT" = true)
                 (di_faces info) with
    | _ :: _ => (dice_type, dice_index) :: status_dice rest
    | [] => status_dice rest
    end
  end.

(** [decide_action].  The two comparisons are made in exact
    rationals; in floats the sums [+ 0.3] and [- 0.3] are rounded, which
    decides a tie the other way. *)
Definition decide_action (enemy : Enemy.t) (player : Character.t)
    (enemy_dice : list enemy_die) (g : Rng) : result (action * Rng) :=
  match enemy_dice with
  | [] => Ok ((COMBAT, 0), g)
  | _ :: _ =>
    enemy_health_percentage ←
      Py.truediv (Enemy.health enemy) (Enemy.max_health enemy);
    player_health_percentage ←
      Py.truediv (CharacterStats.health (Character.stats player))
                 (CharacterStats.max_health (Character.stats player));
    if Py.gt enemy_health_percentage (player_health_percentage + (3 # 10))%Q
    then AggressiveBehavior.decide_action enemy player enemy_dice g
    else if Py.lt enemy_health_percentage
                  (player_health_percentage - (3 # 10))%Q
    then DefensiveBehavior.decide_action enemy player enemy_dice g
    else
      let mixed (g : Rng) : result (action * Rng) :=
        '(a, g) ← AggressiveBehavior.decide_action enemy player enemy_dice g;
        '(d, g) ← DefensiveBehavior.decide_action enemy player enemy_dice g;
        random.choice [a; d] g in
      match status_dice enemy_dice with
      | [] => mixed g
      | sd =>
        let '(r, g) := random.random g in
        if Py.lt r (6 # 10) then random.choice sd g else mixed g
      end
  end.

End TacticalBehavior.

Module BossBehavior.

(** The attributes of a BossBehavior instance. *)
Record t := {
  turn_count : Z;
  phase : Z;
  phase_abilities_used : gset string
}.

(** [__init__] *)
Definition __init__ : t :=
  {| turn_count := 0; phase := 1; phase_abilities_used := ∅ |}.

(** [f"{dice_type}_{dice_index}_ultimate"] *)
Definition ultimate_key (dice_type : DiceType) (dice_index : Z) : string :=
  DiceType_str dice_type +:+ "_" +:+ Py.str dice_index +:+ "_ultimate".

(** The inner loop of phase 3 over the faces of one die: does a face
    named Ultimate of value at least 4 meet an unused key? *)
Fixpoint scan_faces (used : gset string) (key : string)
    (faces : list face_info) : bool :=
  match faces with
  | [] => false
  | face :: rest =>
    if Py.contains "Ultimate" (fi_name face) && (fi_value face >=? 4) then
      if decide (key ∈ used) then scan_faces used key rest else true
    else scan_faces used key rest
  end.

(** The outer loop of phase 3 over the available dice. *)
Fixpoint scan_ultimate (used : gset string) (enemy_dice : list enemy_die)
  : option action :=
  match enemy_dice with
  | [] => None
  | (dice_type, dice_index, info) :: rest =>
    if scan_faces used (ultimate_key dice_type dice_index) (di_faces info)
    then Some (dice_type, dice_index)
    else scan_ultimate used rest
  end.

(** The loop of phase 2 over the available dice. *)
Fixpoint find_heal (enemy_dice : list enemy_die) : option action :=
  match enemy_dice with
  | [] => None
  | (dice_type, dice_index, info) :: rest =>
    match filter (fun f => Py.contains "Heal" (fi_name f) = true)
                 (di_faces info) with
    | _ :: _ => Some (dice_type, dice_index)
    | [] => find_heal rest
    end
  end.

(** The loop of every third turn over the available dice. *)
Fixpoint find_special (enemy_dice : list enemy_die) : option action :=
  match enemy_dice with
  | [] => None
  | (dice_type, dice_index, _) :: rest =>
    match dice_type with
    | SPECIAL => Some (dice_type, dice_index)
    | _ => find_special rest
    end
  end.

(** The tail of [decide_action]: the special attack of every third
    turn, then the tactical default. *)
Definition special_or_tactical (self : t) (enemy : Enemy.t)
    (player : Character.t) (enemy_dice : list enemy_die) (g : Rng)
  : result (t * action * Rng) :=
  let tactical :=
    '(a, g) ← TacticalBehavior.decide_action enemy player enemy_dice g;
    Ok (self, a, g) in
  if turn_count self `mod` 3 =? 0 then
    match find_special enemy_dice with
    | Some a => Ok (self, a, g)
    | None => tactical
    end
  else tactical.

(** [decide_action] *)
Definition decide_action (self : t) (enemy : Enemy.t) (player : Character.t)
    (enemy_dice : list enemy_die) (g : Rng) : result (t * action * Rng) :=
  match enemy_dice with
  | [] => Ok (self, (COMBAT, 0), g)
  | _ :: _ =>
    let self :=
      {| turn_count := turn_count self + 1; phase := phase self;
         phase_abilities_used := phase_abilities_used self |} in
    health_percentage ←
      Py.truediv (Enemy.health enemy) (Enemy.max_health enemy);
    let new_phase :=
      if Py.lt health_percentage (3 # 10) then 3
      else if Py.lt health_percentage (6 # 10) then 2
      else 1 in
    let self :=
      if negb (new_phase =? phase self) then
        {| turn_count := turn_count self; phase := new_phase;
           phase_abilities_used := ∅ |}
      else self in
    if phase self =? 3 then
      match scan_ultimate (phase_abilities_used self) enemy_dice with
      | Some (dice_type, dice_index) =>
        Ok ({| turn_count := turn_count self; phase := phase self;
               phase_abilities_used :=
                 phase_abilities_used self
                   ∪ {[ultimate_key dice_type dice_index]} |},
            (dice_type, dice_index), g)
      | None => special_or_tactical self enemy player enemy_dice g
      end
    else if phase self =? 2 then
      if decide ("phase2_heal" ∈ phase_abilities_used self) then
        special_or_tactical self enemy player enemy_dice g
      else
        match find_heal enemy_dice with
        | Some a =>
          Ok ({| turn_count := turn_count self; phase := phase self;
                 phase_abilities_used :=
                   phase_abilities_used self ∪ {["phase2_heal"]} |},
              a, g)
        | None => special_or_tactical self enemy player enemy_dice g
        end
    else special_or_tactical self enemy player enemy_dice g
  end.

End BossBehavior.

#[global] Instance EnemyType_countable : Countable EnemyType.
Proof.
  refine (inj_countable'
    (fun t => match t with
              | GOBLIN => 0 | SKELETON => 1 | ORC => 2 | ZOMBIE => 3
              | GHOST => 4 | SLIME => 5 | MINOTAUR => 6 | DRAGON => 7
              end%nat)
    (fun n => match n with
              | 0 => GOBLIN | 1 => SKELETON | 2 => ORC | 3 => ZOMBIE
              | 4 => GHOST | 5 => SLIME | 6 => MINOTAUR | _ => DRAGON
              end%nat) _).
  intros []; reflexivity.
Defined.

Module EnemyAI.

(** A behaviour object.  The subclass tells which [decide_action]
    runs; only a BossBehavior has attributes.  A custom behaviour
    wraps the decision function it was created with. *)
Inductive AIBehavior :=
| Random
| Aggressive
| Defensive
| Tactical
| Boss (self : BossBehavior.t)
| Custom (decision_function :
            Enemy.t -> Character.t -> list enemy_die -> result action).

(** The registry holds references: [behaviors] maps a key to the
    identity of an object, [objects] is the store of the objects. *)
Record t := {
  behaviors : gmap string nat;
  enemy_type_behaviors : gmap EnemyType string;
  custom_behaviors : gmap string string;
  objects : gmap nat AIBehavior;
  next_id : nat
}.

(** [__init__] *)
Definition __init__ : t :=
  {| behaviors :=
       <["boss" := 4%nat]> (<["tactical" := 3%nat]> (<["defensive" := 2%nat]>
       (<["aggressive" := 1%nat]> (<["random" := 0%nat]> ∅))));
     enemy_type_behaviors :=
       <[DRAGON := "boss"]> (<[MINOTAUR := "aggressive"]>
       (<[SLIME := "defensive"]> (<[GHOST := "tactical"]>
       (<[ZOMBIE := "defensive"]> (<[ORC := "aggressive"]>
       (<[SKELETON := "random"]> (<[GOBLIN := "aggressive"]> ∅)))))));
     custom_behaviors := ∅;
     objects :=
       <[4%nat := Boss BossBehavior.__init__]> (<[3%nat := Tactical]>
       (<[2%nat := Defensive]> (<[1%nat := Aggressive]>
       (<[0%nat := Random]> ∅))));
     next_id := 5 |}.

(** [self.behaviors[key]] *)
Definition behaviors_getitem (ai : t) (key : string) : result nat :=
  match behaviors ai !! key with
  | Some r => Ok r
  | None => Raise KeyError
  end.

(** The boss naming pattern of [get_behavior]. *)
Definition boss_name (name : string) : bool :=
  Py.contains "Boss" name || Py.contains "Lord" name
  || Py.contains "King" name
  || existsb (fun n => Py.contains n name)
       ["Grubnosh"; "Bonecrusher"; "Grimfang"; "Flamescale"].

(** [get_behavior]: the identity of the behaviour object. *)
Definition get_behavior (ai : t) (enemy : Enemy.t) : result nat :=
  match custom_behaviors ai !! Enemy.name enemy with
  | Some behavior_key => behaviors_getitem ai behavior_key
  | None =>
    if boss_name (Enemy.name enemy) then behaviors_getitem ai "boss"
    else
      let behavior_key :=
        default "random" (enemy_type_behaviors ai !! Enemy.enemy_type enemy) in
      behaviors_getitem ai behavior_key
  end.

Definition set_objects (ai : t) (o : gmap nat AIBehavior) : t :=
  {| behaviors := behaviors ai;
     enemy_type_behaviors := enemy_type_behaviors ai;
     custom_behaviors := custom_behaviors ai;
     objects := o; next_id := next_id ai |}.

(** [decide_action]: the method of the object [get_behavior] returns
    runs on that object, and what it assigns to [self] stays there. *)
Definition decide_action (ai : t) (enemy : Enemy.t) (player : Character.t)
    (enemy_dice : list enemy_die) (g : Rng) : result (t * action * Rng) :=
  r ← get_behavior ai enemy;
  match objects ai !! r with
  | None => Raise KeyError
  | Some Random =>
    '(a, g) ← RandomBehavior.decide_action enemy player enemy_dice g;
    Ok (ai, a, g)
  | Some Aggressive =>
    '(a, g) ← AggressiveBehavior.decide_action enemy player enemy_dice g;
    Ok (ai, a, g)
  | Some Defensive =>
    '(a, g) ← DefensiveBehavior.decide_action enemy player enemy_dice g;
    Ok (ai, a, g)
  | Some Tactical =>
    '(a, g) ← TacticalBehavior.decide_action enemy player enemy_dice g;
    Ok (ai, a, g)
  | Some (Boss self) =>
    '(self, a, g) ← BossBehavior.decide_action self enemy player enemy_dice g;
    Ok (set_objects ai (<[r := Boss self]> (objects ai)), a, g)
  | Some (Custom decision_function) =>
    a ← decision_function enemy player enemy_dice;
    Ok (ai, a, g)
  end.

(** [set_custom_behavior] *)
Definition set_custom_behavior (ai : t) (enemy_name behavior_key : string)
  : t * bool :=
  match behaviors ai !! behavior_key with
  | None => (ai, false)
  | Some _ =>
    ({| behaviors := behaviors ai;
        enemy_type_behaviors := enemy_type_behaviors ai;
        custom_behaviors :=
          <[enemy_name := behavior_key]> (custom_behaviors ai);
        objects := objects ai; next_id := next_id ai |}, true)
  end.

(** [register_behavior] with a behaviour object the caller has just
    created: the object gets a fresh identity. *)
Definition register_behavior (ai : t) (key : string) (behavior : AIBehavior)
  : t :=
  {| behaviors := <[key := next_id ai]> (behaviors ai);
     enemy_type_behaviors := enemy_type_behaviors ai;
     custom_behaviors := custom_behaviors ai;
     objects := <[next_id ai := behavior]> (objects ai);
     next_id := S (next_id ai) |}.

(** [set_enemy_type_behavior] *)
Definition set_enemy_type_behavior (ai : t) (enemy_type : EnemyType)
    (behavior_key : string) : t * bool :=
  match behaviors ai !! behavior_key with
  | None => (ai, false)
  | Some _ =>
    ({| behaviors := behaviors ai;
        enemy_type_behaviors :=
          <[enemy_type := behavior_key]> (enemy_type_behaviors ai);
        custom_behaviors := custom_behaviors ai;
        objects := objects ai; next_id := next_id ai |}, true)
  end.

End EnemyAI.

(** ** GameInstance: the combat turn (src/game/game_instance.py)

    [handle_combat_turn] reads and writes the player, the gold of the
    inventory, the enemies in combat and the two flags of the game
    state, and the log of its combat system; the rest of the state
    (floors, items) is not touched by it and is left out. *)

Module GameInstance.

Record GameState := {
  player : Character.t;
  gold : Z;
  in_combat : bool;
  combat_enemies : list Enemy.t;
  game_over : bool
}.

Record t := {
  state : option GameState;
  log : list string
}.

(** One entry of ["enemy_turns"]. *)
Record enemy_report := {
  enemy_name : string;
  er_message : string;
  er_damage_dealt : Z
}.

(** The dict [handle_combat_turn] returns, by its keys: the error; the
    victory (["success": True, "combat_over": True]); the defeat
    (["success": True, "combat_over": True, "player_defeated": True]);
    the turn after which combat goes on. *)
Inductive report :=
| Error (error : string)
| CombatOver (message : string) (gold_reward xp_reward : Z)
| PlayerDefeated (message : string) (enemy_turns : list enemy_report)
| TurnDone (success : bool) (message : string) (damage_dealt healing_done : Z)
    (enemy_turns : list enemy_report) (combat_log : list string).

(** The loop over the enemies in combat: each attacks in turn, and the
    loop returns at the first attack that defeats the player.  The
    boolean tells whether it did. *)
Fixpoint enemy_turns (log : list string) (player : Character.t)
    (enemies : list Enemy.t) (g : Rng) (enemy_results : list enemy_report)
  : list string * Character.t * list enemy_report * bool * Rng :=
  match enemies with
  | [] => (log, player, enemy_results, false, g)
  | enemy :: rest =>
    let '(log, player, enemy_result, g) :=
      CombatSystem.enemy_turn log enemy player g in
    let enemy_results :=
      enemy_results
        ++ [{| enemy_name := Enemy.name enemy;
               er_message := CombatSystem.message enemy_result;
               er_damage_dealt := CombatSystem.damage_dealt enemy_result |}] in
    if CombatSystem.target_defeated enemy_result
    then (log, player, enemy_results, true, g)
    else enemy_turns log player rest g enemy_results
  end.

Section Reflection.

Variable other_attribute : string -> bool.

(** [handle_combat_turn] *)
Definition handle_combat_turn (self : t) (dice_type : DiceType)
    (dice_index target_index : Z) (g : Rng) : result (t * report * Rng) :=
  match state self with
  | None => Ok (self, Error "Not in combat", g)
  | Some st =>
    if negb (in_combat st) then Ok (self, Error "Not in combat", g)
    else
      '(w, outcome) ←
        CombatSystem.player_turn other_attribute
          {| CombatSystem.log := log self; CombatSystem.player := player st;
             CombatSystem.enemies := combat_enemies st;
             CombatSystem.rng := g |}
          dice_type dice_index target_index;
      let log := CombatSystem.log w in
      let player := CombatSystem.player w in
      let enemies := CombatSystem.enemies w in
      let g := CombatSystem.rng w in
      let finish (player : Character.t) (gold : Z) (enemies : list Enemy.t)
        : result (t * report * Rng) :=
        let '(log, player, enemy_results, defeated, g) :=
          enemy_turns log player enemies g [] in
        if defeated then
          Ok ({| state := Some {| player := player; gold := gold;
                                  in_combat := false;
                                  combat_enemies := enemies;
                                  game_over := true |};
                 log := log |},
              PlayerDefeated (CombatSystem.message outcome) enemy_results, g)
        else
          Ok ({| state := Some {| player := player; gold := gold;
                                  in_combat := in_combat st;
                                  combat_enemies := enemies;
                                  game_over := game_over st |};
                 log := log |},
              TurnDone (CombatSystem.success outcome)
                (CombatSystem.message outcome)
                (CombatSystem.damage_dealt outcome)
                (CombatSystem.healing_done outcome)
                enemy_results (CombatSystem.get_last_entries log 5), g) in
      if CombatSystem.target_defeated outcome then
        defeated_enemy ← Py.getitem enemies target_index;
        let enemies := delete (Z.to_nat target_index) enemies in
        let gold := gold st + Enemy.gold_reward defeated_enemy in
        let '(player, _) :=
          Character.add_xp player (Enemy.xp_reward defeated_enemy) in
        match enemies with
        | [] =>
          Ok ({| state := Some {| player := player; gold := gold;
                                  in_combat := false;
                                  combat_enemies := enemies;
                                  game_over := game_over st |};
                 log := log |},
              CombatOver (CombatSystem.message outcome)
                (Enemy.gold_reward defeated_enemy)
                (Enemy.xp_reward defeated_enemy), g)
        | _ :: _ => finish player gold enemies
        end
      else finish player (gold st) enemies
  end.

End Reflection.

End GameInstance.

(** * Specification

    The properties below are stated with these definitions: the
    outcomes the specification describes, written independently of the
    code, and the concrete dice, fighters and random sources used as
    examples. *)

(** A die with one face that has two turns of cooldown left. *)
Definition cooldown_die : Dice.t :=
  {| Dice.name := "Warrior's Blade"; Dice.dice_type := COMBAT; Dice.size := 6;
     Dice.rarity := COMMON; Dice.description := "";
     Dice.faces := [DiceFace.create "Strike" 1 FC_COMBAT "A basic attack"];
     Dice.level := 1; Dice.xp := 40; Dice.xp_to_next_level := 100;
     Dice.cooldown := 2; Dice.balance_value := 1;
     Dice.imbalance_effect := OVERLOADED;
     Dice.imbalance_severity := (1 # 12)%Q; Dice.modifiers := ∅ |}.

(** A source whose every float is 1/2 and every index 0. *)
Definition fixed_rng : Rng :=
  {| rng_float := fun _ => (1 # 2)%Q; rng_below := fun _ _ => 0%nat;
     rng_tick := 0 |}.

(** One leveling step as the code applies it: a single test of the
    threshold after the award. *)
Definition level_step (progress : Z * Z * Z) (amount : Z) : Z * Z * Z :=
  let '(lvl, x, nxt) := progress in
  if x + amount >=? nxt then (lvl + 1, x + amount - nxt, Z.quot (3 * nxt) 2)
  else (lvl, x + amount, nxt).

(** Level, xp and threshold of a die and of a character. *)
Definition Dice_progress (d : Dice.t) : Z * Z * Z :=
  (Dice.level d, Dice.xp d, Dice.xp_to_next_level d).

Definition Character_progress (c : Character.t) : Z * Z * Z :=
  (Character.level c, Character.xp c, Character.xp_to_next_level c).

(** The outcome the specification gives an award: the xp left is below
    the threshold. *)
Definition xp_in_range (progress : Z * Z * Z) : Prop :=
  let '(_, x, nxt) := progress in 0 <= x < nxt.

(** A fresh die, as in the example of an award of 250: threshold 100. *)
Definition fresh_die : Dice.t :=
  {| Dice.name := "d6"; Dice.dice_type := COMBAT; Dice.size := 6;
     Dice.rarity := COMMON; Dice.description := ""; Dice.faces := [];
     Dice.level := 1; Dice.xp := 0; Dice.xp_to_next_level := 100;
     Dice.cooldown := 0; Dice.balance_value := 0;
     Dice.imbalance_effect := NONE; Dice.imbalance_severity := 0%Q;
     Dice.modifiers := ∅ |}.

(** [Character("Hero")] *)
Definition fresh_character : Character.t :=
  Character.create "Hero" DiceSet.create.

(** The message of a double roll: both candidates and the chosen face. *)
Definition double_roll_message (roll1 roll2 result : DiceFace.t) : string :=
  "UNSTABLE: Rolled " +:+ DiceFace.name roll1 +:+ " and "
    +:+ DiceFace.name roll2 +:+ ", took worse result "
    +:+ DiceFace.name result +:+ ".".

(** The lower of two drawn faces, the first drawn winning a tie. *)
Definition lower_or_first (roll1 roll2 : DiceFace.t) : DiceFace.t :=
  if DiceFace.value roll2 <? DiceFace.value roll1 then roll2 else roll1.

(** The lower of two drawn faces, the second drawn winning a tie. *)
Definition lower_or_second (roll1 roll2 : DiceFace.t) : DiceFace.t :=
  if DiceFace.value roll1 <? DiceFace.value roll2 then roll1 else roll2.

(** A double roll of [d] from the source [g]: after the severity check,
    two draws from the full face list (the same index may come twice),
    resolved by [pick]; the die itself, hence its xp and level, is
    unchanged. *)
Definition double_roll (pick : DiceFace.t -> DiceFace.t -> DiceFace.t)
    (d : Dice.t) (g : Rng) : Prop :=
  let g1 := random.advance g in
  let g2 := random.advance g1 in
  let g3 := random.advance g2 in
  exists roll1 roll2,
    Dice.faces d !! random.index (length (Dice.faces d)) g1 = Some roll1
    /\ Dice.faces d !! random.index (length (Dice.faces d)) g2 = Some roll2
    /\ Dice.roll d g =
         Ok (d,
             (Some (pick roll1 roll2),
              double_roll_message roll1 roll2 (pick roll1 roll2),
              ["Unstable: Double Roll"]),
             g3).

(** Two faces of equal value. *)
Definition dull_edge : DiceFace.t :=
  DiceFace.create "Dull Edge" (-1) FC_COMBAT "A weak attack".
Definition cracked_edge : DiceFace.t :=
  DiceFace.create "Cracked Edge" (-1) FC_COMBAT "A brittle attack".

(** [Dice("Worn Blade", COMBAT, 2, faces=[dull_edge, cracked_edge])]:
    balance -2, UNSTABLE with severity 1/2. *)
Definition tie_die : Dice.t :=
  {| Dice.name := "Worn Blade"; Dice.dice_type := COMBAT; Dice.size := 2;
     Dice.rarity := COMMON; Dice.description := "";
     Dice.faces := [dull_edge; cracked_edge];
     Dice.level := 1; Dice.xp := 0; Dice.xp_to_next_level := 100;
     Dice.cooldown := 0; Dice.balance_value := -2;
     Dice.imbalance_effect := UNSTABLE;
     Dice.imbalance_severity := Py.min 1%Q (inject_Z 2 / inject_Z 4)%Q;
     Dice.modifiers := ∅ |}.

(** A source whose first float is 0 and which then draws the indices
    0 and 1. *)
Definition tie_rng : Rng :=
  {| rng_float := fun _ => 0%Q; rng_below := fun t _ => (t - 1)%nat;
     rng_tick := 0 |}.

(** The three operations that edit the faces of a die, and their runs. *)
Inductive face_op :=
| AddFace (face : DiceFace.t)
| RemoveFace (index : Z)
| ReplaceFace (index : Z) (new_face : DiceFace.t).

Definition apply_op (d : Dice.t) (op : face_op) : result Dice.t :=
  match op with
  | AddFace face => '(d, _) ← Dice.add_face d face; Ok d
  | RemoveFace index => '(d, _) ← Dice.remove_face d index; Ok d
  | ReplaceFace index new_face =>
    '(d, _) ← Dice.replace_face d index new_face; Ok d
  end.

Fixpoint apply_ops (d : Dice.t) (ops : list face_op) : result Dice.t :=
  match ops with
  | [] => Ok d
  | op :: rest => d ← apply_op d op; apply_ops d rest
  end.

(** The faces of a die of the given size after an operation on them:
    add_face appends below capacity, remove_face and replace_face act
    on an index in range, and otherwise the faces stay. *)
Definition faces_after (size : Z) (faces : list DiceFace.t) (op : face_op)
  : list DiceFace.t :=
  match op with
  | AddFace face =>
    if decide (Py.len faces < size) then faces ++ [face] else faces
  | RemoveFace index =>
    if decide (0 <= index < Py.len faces)
    then delete (Z.to_nat index) faces else faces
  | ReplaceFace index new_face =>
    if decide (0 <= index < Py.len faces)
    then <[Z.to_nat index := new_face]> faces else faces
  end.

(** The sum of the values of the faces, in the words of the
    specification: the values of the faces, added up from 0. *)
Definition value_sum (faces : list DiceFace.t) : Z :=
  foldl Z.add 0 (DiceFace.value <$> faces).

(** The imbalance the specification assigns to a balance value and a size. *)
Definition imbalance_of (balance_value size : Z) : ImbalanceEffect * Q :=
  if decide (balance_value = 0) then (NONE, 0%Q)
  else if decide (balance_value < 0) then
    (UNSTABLE, Qmin 1 (inject_Z (Z.abs balance_value) / inject_Z (2 * size)))
  else
    (OVERLOADED, Qmin 1 (inject_Z balance_value / inject_Z (2 * size))).

(** The balance of the die can be computed: the code divides by
    2 * size whenever the balance is not 0, so a size of 0 is only safe
    on a die without faces (which a die of size 0 that respects
    len(faces) <= size always is). *)
Definition divides_safely (size : Z) (faces : list DiceFace.t) : Prop :=
  size <> 0 \/ faces = [].

(** The balance fields of a die agree with its faces and size. *)
Definition balanced (d : Dice.t) : Prop :=
  Dice.balance_value d = value_sum (Dice.faces d)
  /\ Dice.imbalance_effect d
     = (imbalance_of (Dice.balance_value d) (Dice.size d)).1
  /\ (Dice.imbalance_severity d
      == (imbalance_of (Dice.balance_value d) (Dice.size d)).2)%Q.

(** The example of the specification: faces valued 2, 1, 1, -1, -2, -1 on
    a die of size 6 give NONE; replacing one -1 by -3 gives balance -2,
    UNSTABLE, severity 2/12. *)
Definition example_faces : list DiceFace.t :=
  map (fun v => DiceFace.create "Face" v TRAIT "") [2; 1; 1; -1; -2; -1].

(** The result of a turn against an invalid target. *)
Definition invalid_target : CombatSystem.CombatResult :=
  {| CombatSystem.success := false;
     CombatSystem.message := "Invalid target!";
     CombatSystem.damage_dealt := 0; CombatSystem.healing_done := 0;
     CombatSystem.status_applied := None;
     CombatSystem.target_defeated := false |}.

(** The multiplier a face name selects. *)
Definition damage_multiplier (face_name : string) : Q :=
  if Py.contains "Heavy" face_name then (3 # 2)%Q
  else if Py.contains "Quick" face_name then (4 # 5)%Q
  else 1%Q.

(** Health left after a hit that is subtracted without a bound. *)
Definition unclamped (health damage : Z) : Z := health - damage.

(** Health left after a hit, as the code leaves it: 0 once the
    difference is not positive. *)
Definition clamped (health damage : Z) : Z :=
  if health - damage <=? 0 then 0 else health - damage.

(** The outcome of a turn that resolved the COMBAT face [rr] against
    [target], with [round] turning a float into an int and [hit]
    giving the health left.  [g1] is the random source after the roll;
    its next float decides the critical hit. *)
Definition combat_face_outcome (other_attribute : string -> bool)
    (round : Q -> Z) (hit : Z -> Z -> Z)
    (w : CombatSystem.world) (dice_type : DiceType)
    (dice_index target_index : Z) (target : Enemy.t)
    (rr : Character.roll_result) (g1 : Rng) : Prop :=
  let stats := Character.stats (CombatSystem.player w) in
  let base :=
    round (inject_Z (CharacterStats.physical_damage stats)
           * damage_multiplier (Character.rr_name rr))%Q
    + Character.rr_value rr in
  let critical :=
    Py.lt (rng_float g1 (rng_tick g1)) (CharacterStats.crit_chance stats) in
  let damage :=
    if critical
    then round (inject_Z base * CharacterStats.crit_damage stats)%Q
    else base in
  exists w' r,
    CombatSystem.player_turn other_attribute w dice_type dice_index
      target_index
    = Ok (w', r)
    /\ CombatSystem.success r = true
    /\ CombatSystem.damage_dealt r = damage
    /\ CombatSystem.enemies w' =
         <[Z.to_nat target_index :=
             Enemy.set_health target (hit (Enemy.health target) damage)]>
           (CombatSystem.enemies w).

(** The outcome of a turn that announces the status [effect] for
    [duration] turns: a successful result flagged with the status, a
    message naming the duration, and nothing changed on the target or
    any other enemy, nor on the player's stats. *)
Definition status_outcome (other_attribute : string -> bool)
    (effect : string) (duration : Z)
    (w : CombatSystem.world) (dice_type : DiceType)
    (dice_index target_index : Z) (target : Enemy.t)
    (rr : Character.roll_result) : Prop :=
  exists w' r,
    CombatSystem.player_turn other_attribute w dice_type dice_index
      target_index
    = Ok (w', r)
    /\ CombatSystem.success r = true
    /\ CombatSystem.status_applied r = Some effect
    /\ CombatSystem.message r
       = Character.rr_name rr +:+ " applies " +:+ effect +:+ " to "
           +:+ Enemy.name target +:+ " for " +:+ Py.str duration
           +:+ " turns"
    /\ CombatSystem.damage_dealt r = 0
    /\ CombatSystem.healing_done r = 0
    /\ CombatSystem.enemies w' = CombatSystem.enemies w
    /\ Character.stats (CombatSystem.player w')
       = Character.stats (CombatSystem.player w).

(** The status each keyword stands for, with its duration. *)
Definition status_keywords : list (string * (string * Z)) :=
  [("Bleed", ("Bleeding", 3)); ("Poison", ("Poisoned", 3));
   ("Stun", ("Stunned", 1))].

(** The status the code announces for a face name: none for a healing
    name, else the first keyword the name contains, in the order
    Bleed, Poison, Stun. *)
Definition status_of_name (face_name : string) : option (string * Z) :=
  if Py.contains "Heal" face_name then None
  else
    snd <$> List.find (fun kw => Py.contains kw.1 face_name) status_keywords.

(** No attribute besides the dataclass fields. *)
Definition fields_only : string -> bool := fun _ => false.

(** The die a successful construction returns. *)
Definition die_of (r : result Dice.t) : Dice.t :=
  match r with
  | Ok d => d
  | Raise _ => fresh_die
  end.

(** The die of the specification's example, of size 6, and the face of
    value -3 that replaces one of its faces of value -1. *)
Definition example_die : Dice.t :=
  die_of (Dice.create "d6" CHARACTER 6 example_faces).

Definition minus_three : DiceFace.t := DiceFace.create "Face" (-3) TRAIT "".

(** Faces of the game's starting dice, and one that both heals and
    names a status. *)
Definition heavy_strike : DiceFace.t :=
  DiceFace.create "Heavy Strike" 2 FC_COMBAT
    "A powerful attack that deals extra damage".
Definition minor_heal : DiceFace.t :=
  DiceFace.create "Minor Heal" 1 EFFECT "Restore a small amount of health".
Definition poison_blade : DiceFace.t :=
  DiceFace.create "Poison Blade" 0 EFFECT "Apply poison to the target".
Definition heal_poison : DiceFace.t :=
  DiceFace.create "Heal Poison" 1 EFFECT "Cleanse poison and mend wounds".

(** A goblin with 10 health. *)
Definition goblin : Enemy.t :=
  {| Enemy.name := "Goblin"; Enemy.enemy_type := GOBLIN; Enemy.level := 1;
     Enemy.health := 10; Enemy.max_health := 10; Enemy.damage := 3;
     Enemy.gold_reward := 5; Enemy.xp_reward := 10 |}.

(** A hero with default stats whose only combat die has the one face
    [face], facing the goblin; every float the source draws is 1/2 and
    every index 0. *)
Definition duel (face : DiceFace.t) : CombatSystem.world :=
  {| CombatSystem.log := [];
     CombatSystem.player :=
       Character.create "Hero"
         (DiceSet.set_dice_list DiceSet.create COMBAT
            [die_of (Dice.create "Blade" COMBAT 6 [face])]);
     CombatSystem.enemies := [goblin];
     CombatSystem.rng := fixed_rng |}.

(** What [roll_die] reports for the single face of the duel's die. *)
Definition rolled (face : DiceFace.t) : Character.roll_result :=
  {| Character.rr_name := DiceFace.name face;
     Character.rr_value := DiceFace.value face;
     Character.rr_category := FaceCategory_name (DiceFace.category face);
     Character.rr_description := DiceFace.effect_description face;
     Character.rr_effects := [] |}.

(** A face that the ultimate rule looks for. *)
Definition ultimate_face (f : face_info) : bool :=
  Py.contains "Ultimate" (fi_name f) && (4 <=? fi_value f).

(** The name under which the ultimate of a die is recorded as used: the
    type and the index of the die and the word "ultimate", joined by
    underscores, as in "DiceType.SPECIAL_0_ultimate".  It names the
    die: two dice share it only if they share type and index. *)
Definition ability_key (a : action) : string :=
  String.concat "_" [DiceType_str a.1; Py.str a.2; "ultimate"].

(** A die the ultimate rule may still select: it has an ultimate face
    and its key is not among the abilities used this phase. *)
Definition eligible (used : gset string) (d : enemy_die) : bool :=
  existsb ultimate_face (di_faces d.2)
  && bool_decide (ability_key d.1 ∉ used).

(** The first die of type SPECIAL in the order of the list. *)
Definition first_special (enemy_dice : list enemy_die) : option action :=
  fst <$> List.find (fun d : enemy_die => bool_decide (d.1.1 = SPECIAL))
            enemy_dice.

(** The die of the special attack of a turn: the first SPECIAL die, on
    a turn whose count is a multiple of 3. *)
Definition special_attack (turn_count : Z) (enemy_dice : list enemy_die)
  : option action :=
  if decide (turn_count `mod` 3 = 0) then first_special enemy_dice else None.

(** The first eligible die in the order of the list. *)
Definition first_eligible (used : gset string) (enemy_dice : list enemy_die)
  : option action :=
  fst <$> List.find (eligible used) enemy_dice.

(** The enemy's health fraction is below 0.3: the boss is in phase 3. *)
Definition desperate (enemy : Enemy.t) : Prop :=
  Enemy.max_health enemy <> 0
  /\ (inject_Z (Enemy.health enemy) / inject_Z (Enemy.max_health enemy)
      < 3 # 10)%Q.

(** The abilities that count as used during a call made in phase 3: the
    recorded ones when the boss was already in phase 3, none when the
    call enters the phase. *)
Definition used_in_phase3 (self : BossBehavior.t) : gset string :=
  if BossBehavior.phase self =? 3 then BossBehavior.phase_abilities_used self
  else ∅.

(** Any number of further calls, each made while the enemy is in
    phase 3. *)
Inductive phase3_calls : BossBehavior.t -> BossBehavior.t -> Prop :=
| phase3_done (self : BossBehavior.t) : phase3_calls self self
| phase3_call (self self' self'' : BossBehavior.t) (enemy : Enemy.t)
    (player : Character.t) (enemy_dice : list enemy_die) (g g' : Rng)
    (a : action) :
    desperate enemy ->
    BossBehavior.decide_action self enemy player enemy_dice g
      = Ok (self', a, g') ->
    phase3_calls self' self'' ->
    phase3_calls self self''.

(** A dying dragon with an unused ultimate die among its dice. *)
Definition dying_dragon : Enemy.t :=
  {| Enemy.name := "Flamescale"; Enemy.enemy_type := DRAGON; Enemy.level := 10;
     Enemy.health := 25; Enemy.max_health := 100; Enemy.damage := 20;
     Enemy.gold_reward := 100; Enemy.xp_reward := 200 |}.

(** The dragon's dice: claws, and a special die with an ultimate face. *)
Definition claw_die : enemy_die :=
  (COMBAT, 0,
   {| di_faces := [{| fi_name := "Claw Attack"; fi_value := 2;
                      fi_category := "COMBAT" |}] |}).

Definition inferno_die : enemy_die :=
  (SPECIAL, 0,
   {| di_faces := [{| fi_name := "Ultimate Inferno"; fi_value := 5;
                      fi_category := "COMBAT" |}] |}).

(** The key "boss" holds the object [r], a BossBehavior in state [self]. *)
Definition registered_boss (ai : EnemyAI.t) (r : nat) (self : BossBehavior.t)
  : Prop :=
  EnemyAI.behaviors ai !! "boss" = Some r
  /\ EnemyAI.objects ai !! r = Some (EnemyAI.Boss self).

(** The three ways [get_behavior] classifies an enemy as a boss: a name
    override to "boss"; else the boss naming pattern; else the default
    of its type ("boss" for DRAGON unless the table was reassigned). *)
Definition is_boss (ai : EnemyAI.t) (enemy : Enemy.t) : Prop :=
  EnemyAI.custom_behaviors ai !! Enemy.name enemy = Some "boss"
  \/ (EnemyAI.custom_behaviors ai !! Enemy.name enemy = None
      /\ EnemyAI.boss_name (Enemy.name enemy) = true)
  \/ (EnemyAI.custom_behaviors ai !! Enemy.name enemy = None
      /\ EnemyAI.boss_name (Enemy.name enemy) = false
      /\ EnemyAI.enemy_type_behaviors ai !! Enemy.enemy_type enemy
         = Some "boss").

(** An orc that is a boss by its name. *)
Definition grimfang : Enemy.t :=
  {| Enemy.name := "Grimfang"; Enemy.enemy_type := ORC; Enemy.level := 5;
     Enemy.health := 80; Enemy.max_health := 80; Enemy.damage := 12;
     Enemy.gold_reward := 50; Enemy.xp_reward := 100 |}.

(** ** Definitions for the further properties *)

(** [n] rolls of a die in a row: the die, the values returned and the
    random source after them. *)
Fixpoint rolls (n : nat) (d : Dice.t) (g : Rng)
  : result (Dice.t * list Dice.roll_value * Rng) :=
  match n with
  | O => Ok (d, [], g)
  | S n =>
    '(d, v, g) ← Dice.roll d g;
    '(d, vs, g) ← rolls n d g;
    Ok (d, v :: vs, g)
  end.

(** [n] awards of no xp to a die, one after the other. *)
Definition idle_awards (n : nat) (d : Dice.t) : Dice.t :=
  Nat.iter n (fun d => (Dice.add_xp d 0).1) d.

(** The share of max_health, in percent, that one turn of an effect
    costs: 5 for Bleeding, 3 for Poisoned, 7 for Burning.  Any other
    effect costs nothing. *)
Definition damage_percent : list (string * Z) :=
  [("Bleeding", 5); ("Poisoned", 3); ("Burning", 7)].

(** The health one turn of an effect costs: for an effect that hurts,
    its share of max_health cut to an integer toward zero, and at
    least 1; nothing for the others. *)
Definition turn_damage (s : CharacterStats.t) (effect : string) : Z :=
  match List.find (fun e => String.eqb e.1 effect) damage_percent with
  | Some (_, percent) =>
    Z.max 1 (Z.quot (CharacterStats.max_health s * percent) 100)
  | None => 0
  end.

(** The status effects after one turn: every effect has one turn less,
    and an effect with no turn left is gone. *)
Definition effects_after_turn (effects : gmap string Z) : gmap string Z :=
  omap (fun turns => if turns - 1 <=? 0 then None else Some (turns - 1))
       effects.

(** [order] lists every key of the dict once. *)
Definition keys_in_order (effects : gmap string Z) (order : list string)
  : Prop :=
  NoDup order /\ forall effect, effect ∈ order <-> is_Some (effects !! effect).

(** Stats with two turns of Bleeding and one of Stunned, applied in
    that order. *)
Definition bleeding_stats : CharacterStats.t :=
  CharacterStats.apply_status_effect
    (CharacterStats.apply_status_effect CharacterStats.create "Bleeding" 2)
    "Stunned" 1.

(** The result of a turn whose roll gave no face. *)
Definition failed_roll (message : string) : CombatSystem.CombatResult :=
  {| CombatSystem.success := false; CombatSystem.message := message;
     CombatSystem.damage_dealt := 0; CombatSystem.healing_done := 0;
     CombatSystem.status_applied := None;
     CombatSystem.target_defeated := false |}.

(** The world after a turn whose roll gave no face: one more line in
    the log. *)
Definition logged_failure (w : CombatSystem.world) (message : string)
  : CombatSystem.world :=
  {| CombatSystem.log :=
       CombatSystem.log w
       ++ ["Player rolled but got no result: " +:+ message];
     CombatSystem.player := CombatSystem.player w;
     CombatSystem.enemies := CombatSystem.enemies w;
     CombatSystem.rng := CombatSystem.rng w |}.

(** A duel in which the hero's only die has no face and is on cooldown. *)
Definition duel_without_faces : CombatSystem.world :=
  {| CombatSystem.log := [];
     CombatSystem.player :=
       Character.create "Hero"
         (DiceSet.set_dice_list DiceSet.create COMBAT
            [Dice.set_cooldown fresh_die 3]);
     CombatSystem.enemies := [goblin];
     CombatSystem.rng := fixed_rng |}.


(** The line [start_combat] writes for one enemy. *)
Definition enemy_line (enemy : Enemy.t) : string :=
  "- " +:+ Enemy.name enemy +:+ " (Level " +:+ Py.str (Enemy.level enemy)
    +:+ ") with " +:+ Py.str (Enemy.health enemy) +:+ " health".

(** The sum of one reward over the defeated enemies. *)
Definition total (reward : Enemy.t -> Z) (enemies : list Enemy.t) : Z :=
  foldr (fun e acc => reward e + acc) 0 enemies.

(** An orc that hits for 10. *)
Definition orc : Enemy.t :=
  {| Enemy.name := "Orc"; Enemy.enemy_type := ORC; Enemy.level := 2;
     Enemy.health := 30; Enemy.max_health := 30; Enemy.damage := 10;
     Enemy.gold_reward := 12; Enemy.xp_reward := 25 |}.

(** A face the aggressive behaviour counts as an attack: a face of the
    COMBAT category whose name contains "Attack". *)
Definition attack_face (f : face_info) : bool :=
  bool_decide (fi_category f = "COMBAT") && Py.contains "Attack" (fi_name f).

(** A die the aggressive behaviour considers first: a COMBAT die with
    an attack face. *)
Definition attack_candidate (d : enemy_die) : bool :=
  bool_decide (d.1.1 = COMBAT) && existsb attack_face (di_faces d.2).

(** The attack score of a die: the sum of the positive values of its
    attack faces. *)
Definition attack_power (d : enemy_die) : Z :=
  foldl Z.add 0
    (List.filter (Z.ltb 0)
       (fi_value <$> List.filter attack_face (di_faces d.2))).

(** The action rolls one of the dice on offer. *)
Definition offered (enemy_dice : list enemy_die) (a : action) : Prop :=
  a ∈ enemy_dice.*1.

(** A die with two attack faces worth 7 together, at index 1. *)
Definition axe_die : enemy_die :=
  (COMBAT, 1,
   {| di_faces := [{| fi_name := "Axe Attack"; fi_value := 3;
                      fi_category := "COMBAT" |};
                   {| fi_name := "Wild Attack"; fi_value := 4;
                      fi_category := "COMBAT" |}] |}).

(** A behaviour of one of the five classes of the module, as opposed to
    one made by [create_custom_behavior]. *)
Definition built_in (behavior : EnemyAI.AIBehavior) : bool :=
  match behavior with
  | EnemyAI.Custom _ => false
  | _ => true
  end.

(** The calls that configure the registry. *)
Inductive registry_call :=
| SetCustomBehavior (enemy_name behavior_key : string)
| RegisterBehavior (key : string) (behavior : EnemyAI.AIBehavior)
| SetEnemyTypeBehavior (enemy_type : EnemyType) (behavior_key : string).

(** The registry after one call. *)
Definition configure (ai : EnemyAI.t) (call : registry_call) : EnemyAI.t :=
  match call with
  | SetCustomBehavior enemy_name behavior_key =>
    (EnemyAI.set_custom_behavior ai enemy_name behavior_key).1
  | RegisterBehavior key behavior => EnemyAI.register_behavior ai key behavior
  | SetEnemyTypeBehavior enemy_type behavior_key =>
    (EnemyAI.set_enemy_type_behavior ai enemy_type behavior_key).1
  end.

(** Every key the tables of the registry can yield is a key of
    [behaviors], and every behaviour it holds is an object. *)
Definition resolves (ai : EnemyAI.t) : Prop :=
  (forall name key,
     EnemyAI.custom_behaviors ai !! name = Some key ->
     is_Some (EnemyAI.behaviors ai !! key))
  /\ (forall enemy_type key,
        EnemyAI.enemy_type_behaviors ai !! enemy_type = Some key ->
        is_Some (EnemyAI.behaviors ai !! key))
  /\ is_Some (EnemyAI.behaviors ai !! "boss")
  /\ is_Some (EnemyAI.behaviors ai !! "random")
  /\ (forall key r,
        EnemyAI.behaviors ai !! key = Some r ->
        is_Some (EnemyAI.objects ai !! r)).

(** A face that heals, for a boss: its name contains "Heal"; and the
    first die of the list that has one. *)
Definition heal_face (f : face_info) : bool :=
  Py.contains "Heal" (fi_name f).

Definition first_healer (enemy_dice : list enemy_die) : option action :=
  fst <$> List.find (fun d : enemy_die => existsb heal_face (di_faces d.2))
            enemy_dice.

(** The phase that belongs to the enemy's health: 3 below 30%, 2 below
    60%, else 1. *)
Definition health_phase (enemy : Enemy.t) : Z :=
  let health_percentage :=
    (inject_Z (Enemy.health enemy) / inject_Z (Enemy.max_health enemy))%Q in
  if Py.lt health_percentage (3 # 10) then 3
  else if Py.lt health_percentage (6 # 10) then 2
  else 1.

(** A dragon at 45% of its health, and a die with a healing face. *)
Definition wounded_dragon : Enemy.t :=
  {| Enemy.name := "Flamescale"; Enemy.enemy_type := DRAGON; Enemy.level := 10;
     Enemy.health := 45; Enemy.max_health := 100; Enemy.damage := 20;
     Enemy.gold_reward := 100; Enemy.xp_reward := 200 |}.

Definition mending_die : enemy_die :=
  (SPECIAL, 1,
   {| di_faces := [{| fi_name := "Healing Flames"; fi_value := 3;
                      fi_category := "EFFECT" |}] |}).

(** The game state when the hero, with 40 gold, has just met the given
    enemies, and the game around it. *)
Definition encounter (hero : Character.t) (enemies : list Enemy.t)
  : GameInstance.t :=
  {| GameInstance.state :=
       Some {| GameInstance.player := hero; GameInstance.gold := 40;
               GameInstance.in_combat := true;
               GameInstance.combat_enemies := enemies;
               GameInstance.game_over := false |};
     GameInstance.log := CombatSystem.start_combat [] hero enemies |}.

(** The world a combat turn of the game hands to the combat system. *)
Definition world_of (self : GameInstance.t) (st : GameInstance.GameState)
    (g : Rng) : CombatSystem.world :=
  {| CombatSystem.log := GameInstance.log self;
     CombatSystem.player := GameInstance.player st;
     CombatSystem.enemies := GameInstance.combat_enemies st;
     CombatSystem.rng := g |}.

(** The second half of [handle_combat_turn], run when combat goes on
    after the player's action: the enemies' attacks and the report. *)
Definition enemy_round (st : GameInstance.GameState)
    (outcome : CombatSystem.CombatResult) (log : list string)
    (player : Character.t) (gold : Z) (enemies : list Enemy.t) (g : Rng)
  : result (GameInstance.t * GameInstance.report * Rng) :=
  let '(log, player, enemy_results, defeated, g) :=
    GameInstance.enemy_turns log player enemies g [] in
  if defeated then
    Ok ({| GameInstance.state :=
             Some {| GameInstance.player := player;
                     GameInstance.gold := gold;
                     GameInstance.in_combat := false;
                     GameInstance.combat_enemies := enemies;
                     GameInstance.game_over := true |};
           GameInstance.log := log |},
        GameInstance.PlayerDefeated (CombatSystem.message outcome)
          enemy_results, g)
  else
    Ok ({| GameInstance.state :=
             Some {| GameInstance.player := player;
                     GameInstance.gold := gold;
                     GameInstance.in_combat := GameInstance.in_combat st;
                     GameInstance.combat_enemies := enemies;
                     GameInstance.game_over := GameInstance.game_over st |};
           GameInstance.log := log |},
        GameInstance.TurnDone (CombatSystem.success outcome)
          (CombatSystem.message outcome)
          (CombatSystem.damage_dealt outcome)
          (CombatSystem.healing_done outcome)
          enemy_results (CombatSystem.get_last_entries log 5), g).

(** What a report of a combat turn says about the state after it. *)
Definition report_holds (st st' : GameInstance.GameState)
    (w : CombatSystem.world) (self' : GameInstance.t) (g' : Rng)
    (rep : GameInstance.report) : Prop :=
  match rep with
  | GameInstance.Error _ => False
  | GameInstance.CombatOver _ gold_reward xp_reward =>
    GameInstance.combat_enemies st' = []
    /\ GameInstance.in_combat st' = false
    /\ GameInstance.game_over st' = GameInstance.game_over st
    /\ GameInstance.gold st' = GameInstance.gold st + gold_reward
    /\ GameInstance.log self' = CombatSystem.log w
    /\ g' = CombatSystem.rng w
  | GameInstance.PlayerDefeated _ _ =>
    GameInstance.combat_enemies st' <> []
    /\ GameInstance.in_combat st' = false
    /\ GameInstance.game_over st' = true
    /\ CharacterStats.health (Character.stats (GameInstance.player st')) = 0
  | GameInstance.TurnDone _ _ _ _ enemy_turns _ =>
    GameInstance.combat_enemies st' <> []
    /\ GameInstance.in_combat st' = true
    /\ GameInstance.game_over st' = GameInstance.game_over st
    /\ map GameInstance.enemy_name enemy_turns
       = map Enemy.name (GameInstance.combat_enemies st')
  end.
(** * Properties *)

(** ** Python primitives *)

Lemma Py_lt_spec (a b : Q) : Py.lt a b = true <-> (a < b)%Q.
Proof. unfold Py.lt, Qlt. apply Z.ltb_lt. Qed.

Lemma Py_lt_false (a b : Q) : Py.lt a b = false <-> (b <= a)%Q.
Proof. unfold Py.lt, Qle. apply Z.ltb_ge. Qed.

(** [min(1.0, q)] of the code is the minimum of the rationals. *)
Lemma Py_min_Qmin (a b : Q) : (Py.min a b == Qmin a b)%Q.
Proof.
  unfold Py.min. destruct (Py.lt b a) eqn:E.
  - apply Py_lt_spec in E. symmetry. apply Q.min_r. apply Qlt_le_weak, E.
  - apply Py_lt_false in E. symmetry. apply Q.min_l. exact E.
Qed.

(** On a non-negative float, [int] is the floor. *)
Lemma Py_int_floor (q : Q) : (0 <= q)%Q -> Py.int q = Qfloor q.
Proof.
  destruct q as [n d]. unfold Qle, Py.int, Qfloor. simpl. intros H.
  apply Z.quot_div_nonneg; lia.
Qed.

(** [int(t * 1.5)] on an int. *)
Lemma Py_int_three_halves (t : Z) :
  Py.int (inject_Z t * (3 # 2))%Q = Z.quot (3 * t) 2.
Proof. unfold Py.int. simpl. f_equal. lia. Qed.

(** [random.choice] never fails on a non-empty sequence, and returns the
    item at the index the source draws. *)
Lemma choice_nonempty {A} (seq : list A) (g : Rng) :
  seq <> [] ->
  exists x, seq !! random.index (length seq) g = Some x
            /\ random.choice seq g = Ok (x, random.advance g).
Proof.
  intros Hne. unfold random.choice.
  destruct (seq !! random.index (length seq) g) as [x|] eqn:E.
  - exists x. split; reflexivity.
  - apply lookup_ge_None in E. unfold random.index in E.
    assert (length seq <> 0%nat) by (destruct seq; simpl; congruence).
    pose proof (Nat.mod_upper_bound
                  (rng_below g (rng_tick g) (length seq)) (length seq)).
    lia.
Qed.

(** ** Dice: cooldown *)

(** C6. Rolling a die that has a face and a cooldown [k > 0] lowers the
    cooldown to [k - 1], returns no face with a message that reports
    [k] (the value before the decrement) as the turns remaining, and
    leaves xp, level and the random source untouched. *)
Theorem roll_on_cooldown (d : Dice.t) (g : Rng) (k : Z) :
  Dice.faces d <> [] ->
  Dice.cooldown d = k ->
  0 < k ->
  exists d',
    Dice.roll d g =
      Ok (d',
          (None,
           Dice.name d +:+ " is on cooldown for " +:+ Py.str k
             +:+ " more turns.",
           []),
          g)
    /\ Dice.cooldown d' = k - 1
    /\ Dice.xp d' = Dice.xp d
    /\ Dice.level d' = Dice.level d
    /\ Dice.xp_to_next_level d' = Dice.xp_to_next_level d
    /\ Dice.faces d' = Dice.faces d.
Proof.
  intros Hfaces Hk Hpos.
  exists (Dice.set_cooldown d (k - 1)).
  unfold Dice.roll.
  destruct (Dice.faces d) as [|f fs] eqn:Ef; [congruence|].
  assert (Hgt : (Dice.cooldown d >? 0) = true) by (apply Z.gtb_lt; lia).
  rewrite Hgt, Hk. simpl.
  replace (k - 1 + 1) with k by lia.
  repeat split; auto.
Qed.

Lemma roll_on_cooldown_witness :
  exists d',
    Dice.roll cooldown_die fixed_rng =
      Ok (d', (None, "Warrior's Blade is on cooldown for 2 more turns.", []),
          fixed_rng)
    /\ Dice.cooldown d' = 1
    /\ Dice.xp d' = 40
    /\ Dice.level d' = 1
    /\ Dice.xp_to_next_level d' = 100
    /\ Dice.faces d' = Dice.faces cooldown_die.
Proof.
  apply (roll_on_cooldown cooldown_die fixed_rng 2).
  - discriminate.
  - reflexivity.
  - lia.
Defined.

(** ** Leveling *)

Lemma Dice_add_xp_step (d : Dice.t) (amount : Z) :
  Dice_progress (Dice.add_xp d amount).1 = level_step (Dice_progress d) amount
  /\ (Dice.add_xp d amount).2
     = (Dice.xp d + amount >=? Dice.xp_to_next_level d).
Proof.
  unfold Dice.add_xp, Dice_progress, level_step. simpl.
  destruct (Dice.xp d + amount >=? Dice.xp_to_next_level d); simpl.
  - rewrite Py_int_three_halves. auto.
  - auto.
Qed.


Lemma level_step_range (lvl x nxt amount : Z) :
  0 <= x + amount ->
  x + amount < nxt + Z.quot (3 * nxt) 2 ->
  xp_in_range (level_step (lvl, x, nxt) amount).
Proof.
  intros H0 H1. unfold level_step, xp_in_range.
  destruct (x + amount >=? nxt) eqn:E.
  - apply Z.geb_le in E. lia.
  - rewrite Z.geb_leb in E. apply Z.leb_gt in E. lia.
Qed.




(** ** Dice: the unstable double roll *)

Example tie_die_created :
  Dice.create "Worn Blade" COMBAT 2 [dull_edge; cracked_edge] = Ok tie_die.
Proof. reflexivity. Qed.

(** C2, as stated, fails: on a tie the first drawn face is not the one
    returned.  The draws are Dull Edge then Cracked Edge, both of value
    -1, and the roll returns Cracked Edge. *)
Lemma double_roll_tie_returns_second :
  ~ double_roll lower_or_first tie_die tie_rng.
Proof.
  unfold double_roll. intros (roll1 & roll2 & H1 & H2 & H3).
  vm_compute in H1. vm_compute in H2.
  injection H1 as <-. injection H2 as <-.
  vm_compute in H3. discriminate H3.
Qed.

(** C2, amended. On a die with imbalance_effect UNSTABLE, a face and no
    cooldown, when the severity check triggers, [roll] draws two faces
    from the full face list with two separate draws, returns the first
    drawn when its value is strictly lower and otherwise the second
    drawn (so a tie goes to the second), tags the result with
    "Unstable: Double Roll", names both candidates and the chosen face
    in the message, and leaves the die, so its xp and level, unchanged. *)
Theorem unstable_double_roll (d : Dice.t) (g : Rng) :
  Dice.imbalance_effect d = UNSTABLE ->
  Dice.faces d <> [] ->
  Dice.cooldown d <= 0 ->
  Py.lt (rng_float g (rng_tick g)) (Dice.imbalance_severity d) = true ->
  double_roll lower_or_second d g.
Proof.
  intros Heff Hfaces Hcd Hsev. unfold double_roll.
  destruct (choice_nonempty (Dice.faces d) (random.advance g) Hfaces)
    as (roll1 & Hi1 & Hc1).
  destruct (choice_nonempty (Dice.faces d)
              (random.advance (random.advance g)) Hfaces)
    as (roll2 & Hi2 & Hc2).
  exists roll1, roll2. split; [exact Hi1|]. split; [exact Hi2|].
  unfold Dice.roll.
  destruct (Dice.faces d) as [|f fs] eqn:Ef; [congruence|].
  assert (Hgt : (Dice.cooldown d >? 0) = false).
  { rewrite Z.gtb_ltb. apply Z.ltb_ge. lia. }
  rewrite Hgt, Heff. unfold random.random. rewrite Hsev.
  rewrite Hc1. simpl. rewrite Hc2. simpl.
  reflexivity.
Qed.

Lemma unstable_double_roll_witness :
  double_roll lower_or_second tie_die tie_rng.
Proof.
  apply unstable_double_roll.
  - reflexivity.
  - discriminate.
  - vm_compute. discriminate.
  - reflexivity.
Defined.

(** ** Dice: the balance invariant *)

(** The sum the code computes is the sum of the specification. *)
Lemma sum_values_value_sum (faces : list DiceFace.t) :
  Dice.sum_values faces = value_sum faces.
Proof.
  unfold Dice.sum_values, value_sum.
  assert (H : forall acc,
    foldl Z.add acc (DiceFace.value <$> faces)
    = acc + foldr (fun f acc => DiceFace.value f + acc) 0 faces).
  { induction faces as [|f fs IH]; intros acc; simpl; [lia|].
    rewrite IH. lia. }
  rewrite H. lia.
Qed.

Lemma in_range_decide (index n : Z) :
  (0 <=? index) && (index <? n) = bool_decide (0 <= index < n).
Proof.
  destruct (decide (0 <= index < n)) as [H|H].
  - rewrite bool_decide_eq_true_2 by exact H.
    apply andb_true_intro. split; [apply Z.leb_le|apply Z.ltb_lt]; lia.
  - rewrite bool_decide_eq_false_2 by exact H.
    apply andb_false_iff.
    destruct (decide (0 <= index)); [right; apply Z.ltb_ge|left; apply Z.leb_gt];
      lia.
Qed.

Lemma calculate_balance_balanced (d : Dice.t) :
  Dice.size d <> 0 ->
  exists d',
    Dice._calculate_balance d = Ok d'
    /\ Dice.faces d' = Dice.faces d
    /\ Dice.size d' = Dice.size d
    /\ balanced d'.
Proof.
  intros Hsize. unfold Dice._calculate_balance, Py.truediv.
  assert (Hs2 : (Dice.size d * 2 =? 0) = false) by (apply Z.eqb_neq; lia).
  rewrite Hs2.
  rewrite (sum_values_value_sum (Dice.faces d)).
  destruct (value_sum (Dice.faces d) =? 0) eqn:E0.
  - apply Z.eqb_eq in E0. eexists. split; [reflexivity|].
    unfold balanced, imbalance_of. simpl. rewrite E0.
    repeat split; auto; reflexivity.
  - apply Z.eqb_neq in E0.
    destruct (value_sum (Dice.faces d) <? 0) eqn:E1; simpl.
    + apply Z.ltb_lt in E1. eexists. split; [reflexivity|].
      unfold balanced, imbalance_of. simpl.
      destruct (decide _); [contradiction|].
      destruct (decide _); [|contradiction]. simpl.
      repeat split; auto.
      rewrite (Z.mul_comm 2). apply Py_min_Qmin.
    + apply Z.ltb_ge in E1. eexists. split; [reflexivity|].
      unfold balanced, imbalance_of. simpl.
      destruct (decide _); [contradiction|].
      destruct (decide _); [lia|]. simpl.
      repeat split; auto.
      rewrite (Z.mul_comm 2). apply Py_min_Qmin.
Qed.

(** On a die of size 0 without faces every operation is refused. *)
Lemma apply_op_refused (d : Dice.t) (op : face_op) :
  Dice.size d = 0 -> Dice.faces d = [] -> apply_op d op = Ok d.
Proof.
  intros Hs Hf.
  assert (Hrange : forall index,
    (0 <=? index) && (index <? Py.len (Dice.faces d)) = false).
  { intros index. rewrite Hf. change (Py.len (@nil DiceFace.t)) with 0.
    destruct (0 <=? index) eqn:E; [|reflexivity].
    apply Z.leb_le in E. apply Z.ltb_ge. exact E. }
  destruct op as [face | index | index new_face]; simpl.
  - unfold Dice.add_face. rewrite Hf, Hs. reflexivity.
  - unfold Dice.remove_face. rewrite Hrange. reflexivity.
  - unfold Dice.replace_face. rewrite Hrange. reflexivity.
Qed.

Lemma faces_after_refused (op : face_op) : faces_after 0 [] op = [].
Proof.
  destruct op as [face | index | index new_face]; unfold faces_after;
    case_decide as H; try reflexivity;
    exfalso; unfold Py.len in H; simpl in H; lia.
Qed.

Lemma apply_op_balanced (d : Dice.t) (op : face_op) :
  divides_safely (Dice.size d) (Dice.faces d) -> balanced d ->
  exists d',
    apply_op d op = Ok d'
    /\ Dice.size d' = Dice.size d
    /\ Dice.faces d' = faces_after (Dice.size d) (Dice.faces d) op
    /\ divides_safely (Dice.size d') (Dice.faces d')
    /\ balanced d'.
Proof.
  intros Hsafe Hbal.
  destruct (decide (Dice.size d = 0)) as [Hzero|Hsize].
  { destruct Hsafe as [Hne|Hempty]; [contradiction|].
    assert (Hfa : faces_after (Dice.size d) (Dice.faces d) op = Dice.faces d).
    { rewrite Hzero, Hempty. apply faces_after_refused. }
    exists d. rewrite (apply_op_refused d op Hzero Hempty), Hfa.
    split; [reflexivity|]. split; [reflexivity|]. split; [reflexivity|].
    split; [right; exact Hempty|exact Hbal]. }
  assert (Hkeep : forall d', Dice.size d' = Dice.size d ->
                             divides_safely (Dice.size d') (Dice.faces d')).
  { intros d' Hs. left. congruence. }
  destruct op as [face | index | index new_face]; simpl.
  - unfold Dice.add_face. rewrite Z.geb_leb.
    destruct (decide (Py.len (Dice.faces d) < Dice.size d)) as [Hlt|Hge].
    + assert (E : (Dice.size d <=? Py.len (Dice.faces d)) = false)
        by (apply Z.leb_gt; exact Hlt).
      rewrite E.
      destruct (calculate_balance_balanced
                  (Dice.set_faces d (Dice.faces d ++ [face])) Hsize)
        as (d' & -> & Hf & Hs & Hb).
      exists d'. simpl in Hf, Hs. repeat split; auto; apply Hb.
    + assert (E : (Dice.size d <=? Py.len (Dice.faces d)) = true)
        by (apply Z.leb_le; lia).
      rewrite E. exists d. repeat split; auto; apply Hbal.
  - unfold Dice.remove_face, Py.getitem. rewrite in_range_decide.
    destruct (decide (0 <= index < Py.len (Dice.faces d))) as [Hin|Hout].
    + rewrite bool_decide_eq_true_2 by exact Hin.
      destruct (Dice.faces d !! Z.to_nat index) as [face|] eqn:El.
      * simpl.
        destruct (calculate_balance_balanced
                    (Dice.set_faces d (delete (Z.to_nat index) (Dice.faces d)))
                    Hsize) as (d' & -> & Hf & Hs & Hb).
        exists d'. simpl in Hf, Hs. repeat split; auto; apply Hb.
      * apply lookup_ge_None in El. unfold Py.len in Hin. lia.
    + rewrite bool_decide_eq_false_2 by exact Hout. exists d. repeat split; auto; apply Hbal.
  - unfold Dice.replace_face, Py.getitem. rewrite in_range_decide.
    destruct (decide (0 <= index < Py.len (Dice.faces d))) as [Hin|Hout].
    + rewrite bool_decide_eq_true_2 by exact Hin.
      destruct (Dice.faces d !! Z.to_nat index) as [face|] eqn:El.
      * simpl.
        destruct (calculate_balance_balanced
                    (Dice.set_faces d
                       (<[Z.to_nat index := new_face]> (Dice.faces d)))
                    Hsize) as (d' & -> & Hf & Hs & Hb).
        exists d'. simpl in Hf, Hs. repeat split; auto; apply Hb.
      * apply lookup_ge_None in El. unfold Py.len in Hin. lia.
    + rewrite bool_decide_eq_false_2 by exact Hout. exists d. repeat split; auto; apply Hbal.
Qed.

Lemma create_balanced (name : string) (dice_type : DiceType) (size : Z)
    (faces : list DiceFace.t) :
  divides_safely size faces ->
  exists d,
    Dice.create name dice_type size faces = Ok d
    /\ Dice.faces d = faces /\ Dice.size d = size /\ balanced d.
Proof.
  intros Hsafe. unfold Dice.create, Dice.__post_init__.
  destruct faces as [|f fs]; simpl Dice.faces; cbv iota.
  - eexists. split; [reflexivity|].
    unfold balanced, imbalance_of. simpl. repeat split; auto; reflexivity.
  - destruct Hsafe as [Hsize|Hempty]; [|discriminate].
    match goal with
    | |- context [Dice._calculate_balance ?d0] =>
      destruct (calculate_balance_balanced d0 Hsize) as (d' & -> & Hf & Hs & Hb)
    end.
    exists d'. auto.
Qed.

(** C3. A die built by the constructor has the faces and the size it
    was given and is balanced: balance_value is the sum of the values of
    its faces, and the imbalance effect and severity are the function
    [imbalance_of] of balance_value and size.  Every sequence of
    add_face / remove_face / replace_face calls on a balanced die runs
    without an exception, keeps the size, leaves the faces that the
    operations produce one after the other (an append below capacity, a
    removal or a replacement at an index in range, nothing otherwise),
    and leaves the die balanced: balance_value is the sum of the values
    of those faces, effect and severity are [imbalance_of] of it.  (The
    size is not 0, or it is 0 on a die without faces: the code divides
    by 2 * size.) *)
Theorem dice_balance_invariant :
  (forall name dice_type size faces,
      divides_safely size faces ->
      exists d,
        Dice.create name dice_type size faces = Ok d
        /\ Dice.faces d = faces
        /\ Dice.size d = size
        /\ balanced d)
  /\ (forall d ops,
        divides_safely (Dice.size d) (Dice.faces d) ->
        balanced d ->
        exists d',
          apply_ops d ops = Ok d'
          /\ Dice.size d' = Dice.size d
          /\ Dice.faces d'
             = foldl (faces_after (Dice.size d)) (Dice.faces d) ops
          /\ Dice.balance_value d'
             = value_sum
                 (foldl (faces_after (Dice.size d)) (Dice.faces d) ops)
          /\ balanced d').
Proof.
  split.
  - intros name dice_type size faces Hsafe.
    exact (create_balanced name dice_type size faces Hsafe).
  - intros d ops. revert d.
    induction ops as [|op rest IH]; intros d Hsafe Hbal.
    + exists d. simpl. repeat split; auto; apply Hbal.
    + destruct (apply_op_balanced d op Hsafe Hbal)
        as (d1 & Hop & Hs1 & Hf1 & Hsafe1 & Hb1).
      destruct (IH d1 Hsafe1 Hb1) as (d' & Hrun & Hs' & Hf' & Hv' & Hb').
      exists d'. simpl. rewrite Hop. simpl.
      rewrite Hs1, Hf1 in Hf', Hv'.
      split; [exact Hrun|]. split; [congruence|].
      split; [exact Hf'|]. split; [exact Hv'|exact Hb'].
Qed.

Lemma example_die_balanced : balanced example_die.
Proof.
  unfold balanced. simpl. split; [reflexivity|]. split; reflexivity.
Qed.

(** The example of the specification: on the die of size 6 with faces
    valued 2, 1, 1, -1, -2, -1 (balance 0, NONE), replacing the face of
    value -1 at index 3 by one of value -3 gives balance -2, UNSTABLE and
    severity 2/12. *)
Lemma dice_balance_invariant_witness :
  Dice.balance_value example_die = 0
  /\ Dice.imbalance_effect example_die = NONE
  /\ exists d',
       apply_ops example_die [ReplaceFace 3 minus_three] = Ok d'
       /\ map DiceFace.value (Dice.faces d') = [2; 1; 1; -3; -2; -1]
       /\ Dice.balance_value d' = -2
       /\ Dice.imbalance_effect d' = UNSTABLE
       /\ (Dice.imbalance_severity d' == 2 # 12)%Q.
Proof.
  split; [reflexivity|]. split; [reflexivity|].
  destruct (proj2 dice_balance_invariant example_die
              [ReplaceFace 3 minus_three])
    as (d' & Hrun & Hs & Hf & Hv & _ & He & Hsev).
  - left. simpl. lia.
  - exact example_die_balanced.
  - exists d'. split; [exact Hrun|].
    split; [rewrite Hf; reflexivity|].
    split; [rewrite Hv; reflexivity|].
    rewrite Hv, Hs in He, Hsev.
    split; [rewrite He; reflexivity|].
    rewrite Hsev. reflexivity.
Defined.

Example balance_example_none :
  exists d,
    Dice.create "d6" CHARACTER 6 example_faces = Ok d
    /\ Dice.balance_value d = 0
    /\ Dice.imbalance_effect d = NONE
    /\ Dice.imbalance_severity d = 0%Q.
Proof. eexists. split; [reflexivity|]. repeat split. Qed.

Example balance_example_unstable :
  exists d d' old,
    Dice.create "d6" CHARACTER 6 example_faces = Ok d
    /\ Dice.replace_face d 3 (DiceFace.create "Face" (-3) TRAIT "")
       = Ok (d', Some old)
    /\ DiceFace.value old = -1
    /\ Dice.balance_value d' = -2
    /\ Dice.imbalance_effect d' = UNSTABLE
    /\ (Dice.imbalance_severity d' == 2 # 12)%Q.
Proof.
  eexists. eexists. eexists.
  split; [reflexivity|]. split; [reflexivity|].
  repeat split.
Qed.

(** A run of operations that appends, removes and replaces on the die
    of two faces of value -1: after it the die holds the one face
    Cracked Edge and its balance is -1. *)
Example balance_after_edits :
  exists d',
    apply_ops tie_die
      [RemoveFace 0; AddFace dull_edge; ReplaceFace 1 cracked_edge;
       AddFace dull_edge] = Ok d'
    /\ Dice.faces d' = [cracked_edge; cracked_edge]
    /\ Dice.balance_value d' = -2
    /\ Dice.imbalance_effect d' = UNSTABLE.
Proof. eexists. split; [reflexivity|]. repeat split. Qed.

(** ** Combat: the player's turn *)

(** C7. With no enemies, or a target index that is negative or not
    below the number of enemies, [player_turn] returns a failed result
    with the message "Invalid target!" and leaves everything as it
    was: the log, the player with all dice (no roll, so no cooldown, xp
    or stat change), the enemies and the random source. *)
Theorem player_turn_invalid_target (other_attribute : string -> bool)
    (w : CombatSystem.world)
    (dice_type : DiceType) (dice_index target_index : Z) :
  CombatSystem.enemies w = []
  \/ target_index < 0
  \/ target_index >= Py.len (CombatSystem.enemies w) ->
  CombatSystem.player_turn other_attribute w dice_type dice_index
    target_index
  = Ok (w, invalid_target).
Proof.
  intros H. unfold CombatSystem.player_turn.
  destruct (CombatSystem.enemies w) as [|e es] eqn:Ee; [reflexivity|].
  destruct H as [H | [H | H]]; [discriminate| |].
  - assert (E : (target_index <? 0) = true) by (apply Z.ltb_lt; lia).
    rewrite E. reflexivity.
  - assert (E : (target_index >=? Py.len (e :: es)) = true)
      by (apply Z.geb_le; lia).
    rewrite E, orb_true_r. reflexivity.
Qed.

(** A face that is not a trait leaves the character's stats alone. *)
Lemma roll_die_keeps_stats (other_attribute : string -> bool)
    (c c' : Character.t) (dice_type : DiceType)
    (index : Z) (g g' : Rng) (rr : Character.roll_result) (msg : string) :
  Character.roll_die other_attribute c dice_type index g
  = Ok (c', (Some rr, msg), g') ->
  Character.rr_category rr <> "TRAIT" ->
  Character.stats c' = Character.stats c.
Proof.
  unfold Character.roll_die. intros H Hcat.
  destruct ((index <? 0) || _); [discriminate|].
  destruct (Py.getitem _ index) as [die|e]; [|discriminate].
  simpl in H.
  destruct (Dice.roll die g) as [[[die' [[res message] effects]] g1]|e];
    [|discriminate].
  simpl in H.
  destruct res as [face|]; [|discriminate].
  destruct (DiceFace.category face) eqn:Ec; simpl in H;
    try (injection H as <- <- _ _; reflexivity).
  destruct (CharacterStats.apply_trait _ _ _ _) as [[s m]|e];
    [|discriminate].
  simpl in H. injection H as _ <- _ _.
  simpl in Hcat. congruence.
Qed.

(** With a valid target and a roll that gives a face, the turn is the
    processing of that face against the target. *)
Lemma player_turn_resolves (other_attribute : string -> bool)
    (w : CombatSystem.world) (dice_type : DiceType)
    (dice_index target_index : Z) (target : Enemy.t) (p' : Character.t)
    (rr : Character.roll_result) (msg : string) (g1 : Rng) :
  0 <= target_index ->
  CombatSystem.enemies w !! Z.to_nat target_index = Some target ->
  Character.roll_die other_attribute (CombatSystem.player w) dice_type
    dice_index (CombatSystem.rng w)
    = Ok (p', (Some rr, msg), g1) ->
  CombatSystem.player_turn other_attribute w dice_type dice_index target_index =
    let '(log, player, target, r, g) :=
      CombatSystem._process_player_action (CombatSystem.log w) p' target
        rr g1 in
    Ok ({| CombatSystem.log := log; CombatSystem.player := player;
           CombatSystem.enemies :=
             <[Z.to_nat target_index := target]> (CombatSystem.enemies w);
           CombatSystem.rng := g |}, r).
Proof.
  intros H0 Hl Hr. unfold CombatSystem.player_turn.
  pose proof (lookup_lt_Some _ _ _ Hl) as Hlt.
  destruct (CombatSystem.enemies w) as [|e es] eqn:Ee; [simpl in Hlt; lia|].
  assert (E1 : (target_index <? 0) = false) by (apply Z.ltb_ge; lia).
  assert (E2 : (target_index >=? Py.len (e :: es)) = false).
  { rewrite Z.geb_leb. apply Z.leb_gt. unfold Py.len. lia. }
  rewrite E1, E2. simpl orb. cbv iota.
  rewrite Hr. simpl.
  unfold Py.getitem.
  assert (E3 : (0 <=? target_index) = true) by (apply Z.leb_le; lia).
  assert (E4 : (target_index <? Py.len (e :: es)) = true).
  { apply Z.ltb_lt. unfold Py.len. lia. }
  rewrite E3, E4. simpl andb. cbv iota.
  rewrite Hl. simpl.
  destruct (CombatSystem._process_player_action _ _ _ _ _)
    as [[[[log pl] tg] r] g].
  reflexivity.
Qed.

(** *** COMBAT faces *)

Lemma damage_multiplier_nonneg (face_name : string) :
  (0 <= damage_multiplier face_name)%Q.
Proof.
  unfold damage_multiplier.
  destruct (Py.contains "Heavy" face_name);
    [|destruct (Py.contains "Quick" face_name)];
    unfold Qle; simpl; lia.
Qed.

(** C4, amended. A turn that resolves a COMBAT face deals
    int(physical_damage * m) + face.value, with m = 1.5 for a name
    containing "Heavy", else 0.8 for one containing "Quick", else 1.0,
    and int() truncating toward zero; on a critical hit it deals the
    truncation of that value times crit_damage.  The target's health
    becomes health - damage_dealt when that is positive and 0
    otherwise.  The truncations are
    floors whenever physical_damage, and on a critical hit the base
    damage and crit_damage, are not negative. *)
Theorem combat_face_damage (other_attribute : string -> bool)
    (w : CombatSystem.world) (dice_type : DiceType)
    (dice_index target_index : Z) (target : Enemy.t) (p' : Character.t)
    (rr : Character.roll_result) (msg : string) (g1 : Rng) :
  0 <= target_index ->
  CombatSystem.enemies w !! Z.to_nat target_index = Some target ->
  Character.roll_die other_attribute (CombatSystem.player w) dice_type
    dice_index (CombatSystem.rng w)
    = Ok (p', (Some rr, msg), g1) ->
  Character.rr_category rr = "COMBAT" ->
  combat_face_outcome other_attribute Py.int clamped w dice_type dice_index
    target_index
    target rr g1
  /\ (0 <= CharacterStats.physical_damage
             (Character.stats (CombatSystem.player w)) ->
      Py.int (inject_Z (CharacterStats.physical_damage
                          (Character.stats (CombatSystem.player w)))
              * damage_multiplier (Character.rr_name rr))%Q
      = Qfloor (inject_Z (CharacterStats.physical_damage
                            (Character.stats (CombatSystem.player w)))
                * damage_multiplier (Character.rr_name rr))%Q)
  /\ (forall base : Z,
        0 <= base ->
        (0 <= CharacterStats.crit_damage
                (Character.stats (CombatSystem.player w)))%Q ->
        Py.int (inject_Z base
                * CharacterStats.crit_damage
                    (Character.stats (CombatSystem.player w)))%Q
        = Qfloor (inject_Z base
                  * CharacterStats.crit_damage
                      (Character.stats (CombatSystem.player w)))%Q).
Proof.
  intros H0 Hl Hr Hcat.
  assert (Hstats :
    Character.stats p' = Character.stats (CombatSystem.player w)).
  { eapply roll_die_keeps_stats; [exact Hr|]. rewrite Hcat. discriminate. }
  split; [|split].
  - unfold combat_face_outcome.
    rewrite (player_turn_resolves other_attribute w dice_type dice_index
               target_index
               target p' rr msg g1 H0 Hl Hr).
    unfold CombatSystem._process_player_action. rewrite Hcat.
    change (String.eqb "COMBAT" "COMBAT") with true. cbv iota.
    unfold CombatSystem._handle_combat_face, random.random.
    rewrite Hstats. fold (damage_multiplier (Character.rr_name rr)).
    simpl.
    eexists. eexists. split; [reflexivity|].
    simpl. split; [reflexivity|]. split; [reflexivity|].
    f_equal. unfold clamped.
    destruct (_ <=? 0); reflexivity.
  - intros Hpd. apply Py_int_floor.
    apply Qmult_le_0_compat; [|apply damage_multiplier_nonneg].
    unfold Qle. simpl. lia.
  - intros base Hb Hcd. apply Py_int_floor.
    apply Qmult_le_0_compat; [|exact Hcd].
    unfold Qle. simpl. lia.
Qed.

(** *** EFFECT faces: healing *)

(** C5. A turn that resolves an EFFECT face whose name contains "Heal"
    heals the player by the nominal amount, 30 + 2 * face.value when
    the name contains "Major" and 15 + face.value otherwise, bounded
    by max_health: the health after the turn is
    min(health + nominal, max_health), so it never exceeds max_health,
    and healing_done and the message carry the difference between the
    health after and the health before. *)
Theorem healing_face_clamped (other_attribute : string -> bool)
    (w : CombatSystem.world) (dice_type : DiceType)
    (dice_index target_index : Z) (target : Enemy.t) (p' : Character.t)
    (rr : Character.roll_result) (msg : string) (g1 : Rng) :
  0 <= target_index ->
  CombatSystem.enemies w !! Z.to_nat target_index = Some target ->
  Character.roll_die other_attribute (CombatSystem.player w) dice_type
    dice_index (CombatSystem.rng w)
    = Ok (p', (Some rr, msg), g1) ->
  Character.rr_category rr = "EFFECT" ->
  Py.contains "Heal" (Character.rr_name rr) = true ->
  let old := Character.stats (CombatSystem.player w) in
  let nominal :=
    if Py.contains "Major" (Character.rr_name rr)
    then 30 + 2 * Character.rr_value rr
    else 15 + Character.rr_value rr in
  exists w' r,
    CombatSystem.player_turn other_attribute w dice_type dice_index
      target_index
    = Ok (w', r)
    /\ let new := Character.stats (CombatSystem.player w') in
       CharacterStats.health new
         = Z.min (CharacterStats.health old + nominal)
                 (CharacterStats.max_health old)
       /\ CharacterStats.max_health new = CharacterStats.max_health old
       /\ CharacterStats.health new <= CharacterStats.max_health new
       /\ CombatSystem.success r = true
       /\ CombatSystem.healing_done r
          = CharacterStats.health new - CharacterStats.health old
       /\ CombatSystem.message r
          = Character.rr_name rr +:+ " restores "
              +:+ Py.str (CharacterStats.health new
                          - CharacterStats.health old)
              +:+ " health"
       /\ CombatSystem.enemies w' = CombatSystem.enemies w.
Proof.
  intros H0 Hl Hr Hcat Hheal old nominal.
  assert (Hstats : Character.stats p' = old).
  { eapply roll_die_keeps_stats; [exact Hr|]. rewrite Hcat. discriminate. }
  rewrite (player_turn_resolves other_attribute w dice_type dice_index
               target_index
             target p' rr msg g1 H0 Hl Hr).
  unfold CombatSystem._process_player_action. rewrite Hcat.
  change (String.eqb "EFFECT" "COMBAT") with false.
  change (String.eqb "EFFECT" "EFFECT") with true. cbv iota.
  unfold CombatSystem._handle_effect_face. rewrite Hheal.
  unfold CombatSystem._handle_healing. rewrite Hstats.
  eexists. eexists. split; [reflexivity|].
  simpl.
  assert (Hnom :
    (if Py.contains "Major" (Character.rr_name rr)
     then 30 + Character.rr_value rr * 2
     else 15 + Character.rr_value rr) = nominal).
  { unfold nominal. destruct (Py.contains "Major" _); lia. }
  rewrite Hnom.
  repeat split; try reflexivity.
  - apply Z.le_min_r.
  - apply list_insert_id. exact Hl.
Qed.

(** *** EFFECT faces: status effects *)

(** The branch of [_handle_effect_face] that announces the status found
    by [status_of_name]: run it and read the result off. *)
Ltac announced Hst Hl :=
  injection Hst as <- <-; simpl;
  eexists; eexists; (split; [reflexivity|]); simpl;
  repeat split; auto; apply list_insert_id; exact Hl.

(** C8, amended. A turn that resolves an EFFECT face whose name does
    not contain "Heal" and contains "Bleed", or else "Poison", or else
    "Stun" (the first of the three, in that order, decides) returns
    success with status_applied Bleeding, Poisoned or Stunned and a
    message naming 3, 3 or 1 turns, and mutates nothing on the target:
    the enemies and the player's stats are as before. *)
Theorem status_face_message_only (other_attribute : string -> bool)
    (w : CombatSystem.world)
    (dice_type : DiceType) (dice_index target_index : Z) (target : Enemy.t)
    (p' : Character.t) (rr : Character.roll_result) (msg : string)
    (g1 : Rng) (effect : string) (duration : Z) :
  0 <= target_index ->
  CombatSystem.enemies w !! Z.to_nat target_index = Some target ->
  Character.roll_die other_attribute (CombatSystem.player w) dice_type
    dice_index (CombatSystem.rng w)
    = Ok (p', (Some rr, msg), g1) ->
  Character.rr_category rr = "EFFECT" ->
  status_of_name (Character.rr_name rr) = Some (effect, duration) ->
  status_outcome other_attribute effect duration w dice_type dice_index
    target_index
    target rr.
Proof.
  intros H0 Hl Hr Hcat Hst.
  assert (Hstats :
    Character.stats p' = Character.stats (CombatSystem.player w)).
  { eapply roll_die_keeps_stats; [exact Hr|]. rewrite Hcat. discriminate. }
  unfold status_outcome.
  rewrite (player_turn_resolves other_attribute w dice_type dice_index
               target_index
             target p' rr msg g1 H0 Hl Hr).
  unfold CombatSystem._process_player_action. rewrite Hcat.
  change (String.eqb "EFFECT" "COMBAT") with false.
  change (String.eqb "EFFECT" "EFFECT") with true. cbv iota.
  unfold CombatSystem._handle_effect_face.
  unfold status_of_name in Hst.
  destruct (Py.contains "Heal" (Character.rr_name rr)); [discriminate|].
  simpl in Hst.
  destruct (Py.contains "Bleed" (Character.rr_name rr));
    [announced Hst Hl|].
  destruct (Py.contains "Poison" (Character.rr_name rr));
    [announced Hst Hl|].
  destruct (Py.contains "Stun" (Character.rr_name rr));
    [announced Hst Hl|discriminate].
Qed.

(** *** A concrete fight *)

Lemma player_turn_invalid_target_witness :
  CombatSystem.player_turn fields_only (duel heavy_strike) COMBAT 0 1
  = Ok (duel heavy_strike, invalid_target).
Proof.
  apply player_turn_invalid_target.
  right. right. vm_compute. discriminate.
Defined.

(** C4, as stated, fails where the hit exceeds the health left: Heavy
    Strike (value 2) at physical_damage 10 deals 17 to a goblin of
    health 10, whose health becomes 0 and not 10 - 17. *)
Lemma combat_face_overkill :
  exists p' msg,
    CombatSystem.enemies (duel heavy_strike) !! Z.to_nat 0 = Some goblin
    /\ Character.roll_die fields_only
         (CombatSystem.player (duel heavy_strike)) COMBAT 0
         (CombatSystem.rng (duel heavy_strike))
       = Ok (p', (Some (rolled heavy_strike), msg), random.advance fixed_rng)
    /\ Character.rr_category (rolled heavy_strike) = "COMBAT"
    /\ ~ combat_face_outcome fields_only Qfloor unclamped
           (duel heavy_strike) COMBAT 0 0 goblin (rolled heavy_strike)
           (random.advance fixed_rng).
Proof.
  eexists. eexists.
  split; [reflexivity|]. split; [vm_compute; reflexivity|].
  split; [reflexivity|].
  intros (w' & r & Hpt & _ & _ & He).
  vm_compute in Hpt. injection Hpt as <- <-.
  vm_compute in He. discriminate He.
Qed.

(** int() is not the floor on a negative product: with physical_damage
    -1 a Heavy face contributes int(-1.5) = -1, the floor is -2. *)
Example truncation_is_not_floor :
  Py.int (inject_Z (-1) * damage_multiplier "Heavy Strike")%Q = -1
  /\ Qfloor (inject_Z (-1) * damage_multiplier "Heavy Strike")%Q = -2.
Proof. split; reflexivity. Qed.

Lemma combat_face_damage_witness :
  combat_face_outcome fields_only Py.int clamped (duel heavy_strike)
    COMBAT 0 0 goblin (rolled heavy_strike) (random.advance fixed_rng).
Proof.
  eapply proj1.
  eapply (combat_face_damage fields_only (duel heavy_strike) COMBAT 0 0 goblin).
  - lia.
  - reflexivity.
  - vm_compute. reflexivity.
  - reflexivity.
Defined.

(** The example of the specification: 17 damage. *)
Example heavy_strike_deals_17 :
  exists w' r,
    CombatSystem.player_turn fields_only (duel heavy_strike) COMBAT 0 0
    = Ok (w', r)
    /\ CombatSystem.damage_dealt r = 17
    /\ CombatSystem.target_defeated r = true
    /\ Enemy.health <$> CombatSystem.enemies w' = [0].
Proof.
  eexists. eexists. split; [vm_compute; reflexivity|].
  repeat split.
Qed.

Lemma healing_face_clamped_witness :
  exists w' r,
    CombatSystem.player_turn fields_only (duel minor_heal) COMBAT 0 0
    = Ok (w', r)
    /\ let new := Character.stats (CombatSystem.player w') in
       CharacterStats.health new = Z.min (100 + (15 + 1)) 100
       /\ CharacterStats.max_health new = 100
       /\ CharacterStats.health new <= CharacterStats.max_health new
       /\ CombatSystem.success r = true
       /\ CombatSystem.healing_done r = CharacterStats.health new - 100
       /\ CombatSystem.message r
          = "Minor Heal" +:+ " restores "
              +:+ Py.str (CharacterStats.health new - 100) +:+ " health"
       /\ CombatSystem.enemies w' = [goblin].
Proof.
  eapply (healing_face_clamped fields_only (duel minor_heal) COMBAT 0 0 goblin
            _ (rolled minor_heal)).
  - lia.
  - reflexivity.
  - vm_compute. reflexivity.
  - reflexivity.
  - reflexivity.
Defined.

(** C8, as stated, fails on a name with two keywords: the EFFECT face
    "Heal Poison" contains "Poison", yet the turn heals the player and
    flags no status. *)
Lemma status_face_heal_first :
  exists p' msg g1,
    CombatSystem.enemies (duel heal_poison) !! Z.to_nat 0 = Some goblin
    /\ Character.roll_die fields_only
         (CombatSystem.player (duel heal_poison)) COMBAT 0
         (CombatSystem.rng (duel heal_poison))
       = Ok (p', (Some (rolled heal_poison), msg), g1)
    /\ Character.rr_category (rolled heal_poison) = "EFFECT"
    /\ ("Poison", ("Poisoned", 3)) ∈ status_keywords
    /\ Py.contains "Poison" (Character.rr_name (rolled heal_poison)) = true
    /\ ~ status_outcome fields_only "Poisoned" 3 (duel heal_poison)
           COMBAT 0 0 goblin (rolled heal_poison).
Proof.
  eexists. eexists. eexists.
  split; [reflexivity|]. split; [vm_compute; reflexivity|].
  split; [reflexivity|].
  split; [unfold status_keywords; set_solver|].
  split; [reflexivity|].
  intros (w' & r & Hpt & _ & Hs & _).
  vm_compute in Hpt. injection Hpt as <- <-.
  discriminate Hs.
Qed.

Lemma status_face_message_only_witness :
  status_outcome fields_only "Poisoned" 3 (duel poison_blade) COMBAT 0 0
    goblin (rolled poison_blade).
Proof.
  eapply (status_face_message_only fields_only (duel poison_blade) COMBAT 0 0
            goblin).
  - lia.
  - reflexivity.
  - vm_compute. reflexivity.
  - reflexivity.
  - reflexivity.
Defined.

(** ** Boss behaviour: the ultimate ability *)

(** [str] names an int: two ints have the same decimal string only
    if they are equal. *)
Lemma Py_str_inj (n m : Z) : Py.str n = Py.str m -> n = m.
Proof.
  unfold Py.str. intros H.
  assert (Hn : forall z,
    NilZero.int_of_string (NilZero.string_of_int (Z.to_int z))
    = Some (Z.to_int z)).
  { intros z. apply NilZero.isi.
    - destruct z; simpl; try discriminate.
      intros E. injection E as E.
      apply (DecimalPos.Unsigned.to_uint_nonnil _ E).
    - destruct z; simpl; try discriminate.
      intros E. injection E as E.
      apply (DecimalPos.Unsigned.to_uint_nonnil _ E). }
  apply DecimalZ.to_int_inj.
  pose proof (Hn n) as H1. rewrite H in H1. rewrite Hn in H1. congruence.
Qed.

Lemma append_cancel_r (s s' x : string) : s +:+ x = s' +:+ x -> s = s'.
Proof.
  intros H.
  assert (Hla : forall a b,
    String.length (a +:+ b) = (String.length a + String.length b)%nat).
  { intros a b. induction a as [|c a IHa]; simpl; [reflexivity|].
    rewrite IHa. reflexivity. }
  assert (Hl : String.length s = String.length s').
  { apply (f_equal String.length) in H. rewrite !Hla in H. lia. }
  clear Hla.
  revert s' H Hl. induction s as [|c s IH]; intros [|c' s'] H Hl; simpl in *;
    try discriminate; [reflexivity|].
  injection H as -> H. f_equal. apply IH; [exact H|lia].
Qed.

(** The key the code builds is the key of the die. *)
Lemma ultimate_key_ability_key (t : DiceType) (i : Z) :
  BossBehavior.ultimate_key t i = ability_key (t, i).
Proof. reflexivity. Qed.

(** Two dice have the same key only if they have the same type and
    index. *)
Lemma ability_key_inj (a b : action) : ability_key a = ability_key b -> a = b.
Proof.
  destruct a as [t i], b as [t' i']. unfold ability_key. simpl.
  intros H.
  assert (Ht : t = t' /\ Py.str i +:+ "_ultimate" = Py.str i' +:+ "_ultimate").
  { destruct t, t'; simpl in H; try discriminate H;
      (split; [reflexivity|]); simplify_eq; exact H. }
  destruct Ht as [-> Hi]. apply append_cancel_r, Py_str_inj in Hi.
  congruence.
Qed.

Lemma scan_faces_spec (used : gset string) (key : string)
    (faces : list face_info) :
  BossBehavior.scan_faces used key faces
  = existsb ultimate_face faces && bool_decide (key ∉ used).
Proof.
  induction faces as [|f fs IH]; simpl; [reflexivity|].
  unfold ultimate_face at 1. rewrite Z.geb_leb.
  destruct (Py.contains "Ultimate" (fi_name f) && (4 <=? fi_value f)); simpl.
  - destruct (decide (key ∈ used)) as [Hin|Hin].
    + rewrite IH. rewrite bool_decide_eq_false_2 by tauto.
      rewrite andb_false_r. reflexivity.
    + rewrite bool_decide_eq_true_2 by exact Hin. reflexivity.
  - exact IH.
Qed.

Lemma scan_ultimate_spec (used : gset string) (enemy_dice : list enemy_die) :
  BossBehavior.scan_ultimate used enemy_dice = first_eligible used enemy_dice.
Proof.
  unfold first_eligible.
  induction enemy_dice as [|[[t i] info] rest IH]; simpl; [reflexivity|].
  rewrite scan_faces_spec, ultimate_key_ability_key.
  unfold eligible at 1. simpl.
  destruct (existsb ultimate_face (di_faces info) && _); [reflexivity|exact IH].
Qed.

Lemma find_special_spec (enemy_dice : list enemy_die) :
  BossBehavior.find_special enemy_dice = first_special enemy_dice.
Proof.
  unfold first_special.
  induction enemy_dice as [|[[t i] info] rest IH]; simpl; [reflexivity|].
  destruct t; simpl; try exact IH. reflexivity.
Qed.

Lemma first_eligible_found (used : gset string) (enemy_dice : list enemy_die)
    (a : action) :
  first_eligible used enemy_dice = Some a ->
  exists d, d ∈ enemy_dice /\ eligible used d = true /\ d.1 = a.
Proof.
  unfold first_eligible. intros H.
  destruct (List.find (eligible used) enemy_dice) as [d|] eqn:E;
    [|discriminate].
  apply find_some in E as [Hin He].
  exists d. split; [apply list_elem_of_In; exact Hin|].
  split; [exact He|]. simpl in H. congruence.
Qed.

Lemma first_eligible_exists (used : gset string) (enemy_dice : list enemy_die)
    (d : enemy_die) :
  d ∈ enemy_dice -> eligible used d = true ->
  exists a, first_eligible used enemy_dice = Some a.
Proof.
  intros Hin He. unfold first_eligible.
  destruct (List.find (eligible used) enemy_dice) as [d'|] eqn:E.
  - exists d'.1. reflexivity.
  - apply list_elem_of_In in Hin.
    pose proof (find_none _ _ E d Hin) as Hn. congruence.
Qed.

(** A die whose key is used is not what the ultimate rule returns. *)
Lemma first_eligible_unused (used : gset string) (enemy_dice : list enemy_die)
    (a : action) :
  first_eligible used enemy_dice = Some a -> ability_key a ∉ used.
Proof.
  intros H.
  apply first_eligible_found in H as (d & _ & He & <-).
  unfold eligible in He. apply andb_prop in He as [_ He].
  apply bool_decide_eq_true_1 in He. exact He.
Qed.

Lemma desperate_lt (enemy : Enemy.t) :
  desperate enemy ->
  exists q,
    Py.truediv (Enemy.health enemy) (Enemy.max_health enemy) = Ok q
    /\ Py.lt q (3 # 10) = true.
Proof.
  intros [Hne Hlt]. unfold Py.truediv.
  assert (E : (Enemy.max_health enemy =? 0) = false)
    by (apply Z.eqb_neq; exact Hne).
  rewrite E. eexists. split; [reflexivity|]. apply Py_lt_spec. exact Hlt.
Qed.

(** A call made in phase 3 with dice to choose from. *)
Lemma decide_action_phase3 (self : BossBehavior.t) (enemy : Enemy.t)
    (player : Character.t) (enemy_dice : list enemy_die) (g : Rng) :
  enemy_dice <> [] ->
  desperate enemy ->
  BossBehavior.decide_action self enemy player enemy_dice g =
    let self1 :=
      {| BossBehavior.turn_count := BossBehavior.turn_count self + 1;
         BossBehavior.phase := 3;
         BossBehavior.phase_abilities_used := used_in_phase3 self |} in
    match first_eligible (used_in_phase3 self) enemy_dice with
    | Some a =>
      Ok ({| BossBehavior.turn_count := BossBehavior.turn_count self + 1;
             BossBehavior.phase := 3;
             BossBehavior.phase_abilities_used :=
               used_in_phase3 self ∪ {[ability_key a]} |},
          a, g)
    | None => BossBehavior.special_or_tactical self1 enemy player enemy_dice g
    end.
Proof.
  intros Hne Hd. unfold BossBehavior.decide_action.
  destruct enemy_dice as [|d0 rest] eqn:Ed; [congruence|]. rewrite <- Ed.
  destruct (desperate_lt enemy Hd) as (q & -> & Hq).
  cbn [mbind result_bind]. rewrite Hq.
  cbn [BossBehavior.phase BossBehavior.turn_count
       BossBehavior.phase_abilities_used].
  unfold used_in_phase3.
  destruct (BossBehavior.phase self =? 3) eqn:Ep.
  - apply Z.eqb_eq in Ep. rewrite Ep. simpl negb. cbv iota.
    cbn [BossBehavior.phase BossBehavior.turn_count
         BossBehavior.phase_abilities_used].
    rewrite Z.eqb_refl, scan_ultimate_spec.
    destruct (first_eligible _ _) as [[t i]|]; reflexivity.
  - rewrite Z.eqb_sym in Ep. rewrite Ep. simpl negb. cbv iota.
    cbn [BossBehavior.phase BossBehavior.turn_count
         BossBehavior.phase_abilities_used].
    rewrite Z.eqb_refl, scan_ultimate_spec.
    destruct (first_eligible _ _) as [[t i]|]; reflexivity.
Qed.

(** The tail of [decide_action] assigns nothing to the behaviour. *)
Lemma special_or_tactical_state (self self' : BossBehavior.t) (enemy : Enemy.t)
    (player : Character.t) (enemy_dice : list enemy_die) (g g' : Rng)
    (a : action) :
  BossBehavior.special_or_tactical self enemy player enemy_dice g
    = Ok (self', a, g') ->
  self' = self.
Proof.
  unfold BossBehavior.special_or_tactical. intros H.
  assert (Ht :
    (TacticalBehavior.decide_action enemy player enemy_dice g
       ≫= λ '(a0, g0), Ok (self, a0, g0)) = Ok (self', a, g') ->
    self' = self).
  { destruct (TacticalBehavior.decide_action _ _ _ _) as [[a0 g0]|e];
      simpl; intros Ht; [|discriminate]. congruence. }
  destruct (_ =? 0).
  - destruct (BossBehavior.find_special enemy_dice); [congruence|auto].
  - auto.
Qed.

(** What the tail of [decide_action] returns: the die of the special
    attack of the turn if there is one, else the decision of the
    tactical behaviour. *)
Lemma special_or_tactical_cases (self self' : BossBehavior.t) (enemy : Enemy.t)
    (player : Character.t) (enemy_dice : list enemy_die) (g g' : Rng)
    (a : action) :
  BossBehavior.special_or_tactical self enemy player enemy_dice g
    = Ok (self', a, g') ->
  match special_attack (BossBehavior.turn_count self) enemy_dice with
  | Some s => a = s /\ g' = g
  | None =>
    TacticalBehavior.decide_action enemy player enemy_dice g = Ok (a, g')
  end.
Proof.
  unfold BossBehavior.special_or_tactical, special_attack.
  rewrite find_special_spec. intros H.
  assert (Ht :
    (TacticalBehavior.decide_action enemy player enemy_dice g
       ≫= λ '(a0, g0), Ok (self, a0, g0)) = Ok (self', a, g') ->
    TacticalBehavior.decide_action enemy player enemy_dice g = Ok (a, g')).
  { destruct (TacticalBehavior.decide_action _ _ _ _) as [[a0 g0]|e];
      simpl; intros Ht; [|discriminate]. congruence. }
  destruct (BossBehavior.turn_count self `mod` 3 =? 0) eqn:E.
  - apply Z.eqb_eq in E. rewrite decide_True by exact E.
    destruct (first_special enemy_dice) as [s|]; [|auto].
    injection H as _ <- <-. auto.
  - apply Z.eqb_neq in E. rewrite decide_False by exact E. auto.
Qed.

(** A call in phase 3 keeps the phase and forgets no used ability. *)
Lemma phase3_step (self self' : BossBehavior.t) (enemy : Enemy.t)
    (player : Character.t) (enemy_dice : list enemy_die) (g g' : Rng)
    (a : action) :
  BossBehavior.phase self = 3 ->
  desperate enemy ->
  BossBehavior.decide_action self enemy player enemy_dice g
    = Ok (self', a, g') ->
  BossBehavior.phase self' = 3
  /\ BossBehavior.phase_abilities_used self
     ⊆ BossBehavior.phase_abilities_used self'.
Proof.
  intros Hp Hd H.
  destruct enemy_dice as [|d0 rest].
  - simpl in H. injection H as <- _ _. auto.
  - rewrite decide_action_phase3 in H by (congruence || exact Hd).
    unfold used_in_phase3 in H. rewrite Hp, Z.eqb_refl in H. cbv zeta in H.
    destruct (first_eligible _ _) as [a0|].
    + injection H as <- _ _. simpl. split; [reflexivity|].
      apply union_subseteq_l.
    + apply special_or_tactical_state in H. subst self'. simpl. auto.
Qed.

Lemma phase3_calls_keep (self1 self2 : BossBehavior.t) :
  phase3_calls self1 self2 ->
  BossBehavior.phase self1 = 3 ->
  BossBehavior.phase self2 = 3
  /\ BossBehavior.phase_abilities_used self1
     ⊆ BossBehavior.phase_abilities_used self2.
Proof.
  induction 1
    as [self | self self' self'' enemy player dice g g' a Hd Hc Hrest IHcalls];
    intros Hp.
  - auto.
  - destruct (phase3_step _ _ _ _ _ _ _ _ Hp Hd Hc) as [Hp' Hs].
    destruct (IHcalls Hp') as [Hp'' Hs'].
    split; [exact Hp''|].
    intros x Hx. apply Hs', Hs, Hx.
Qed.

(** Recording the key of one die does not change which other dice the
    ultimate rule may select. *)
Lemma eligible_others (used : gset string) (a : action) (d : enemy_die) :
  d.1 <> a ->
  eligible (used ∪ {[ability_key a]}) d = eligible used d.
Proof.
  intros Hd. unfold eligible. f_equal. apply bool_decide_ext.
  rewrite not_elem_of_union, not_elem_of_singleton.
  split; [tauto|]. intros H. split; [exact H|].
  intros E. apply Hd, ability_key_inj, E.
Qed.

(** C9. While the enemy's health fraction is below 0.3, if the available
    dice include a die with a face named "Ultimate" of value at least 4
    whose key is not used in this phase, [decide_action] returns the
    first such die of the list (that very die when it is the only one),
    counts the turn, is in phase 3 and has recorded the key of the die,
    "<type>_<index>_ultimate".  The key names the die, so every other
    die is as selectable by the ultimate rule as before.  After that,
    however many calls follow in phase 3, the key stays recorded and
    the ultimate rule never selects this die again on any dice.  A
    later call in phase 3 either selects another die by the ultimate
    rule and records its key, or records nothing and returns the first
    SPECIAL die, if there is one and the count of the turn is a
    multiple of 3, and otherwise what the tactical behaviour decides:
    only by these two can the die be returned again. *)
Theorem boss_ultimate_once (self : BossBehavior.t) (enemy : Enemy.t)
    (player : Character.t) (enemy_dice : list enemy_die) (g : Rng)
    (d : enemy_die) :
  desperate enemy ->
  d ∈ enemy_dice ->
  eligible (used_in_phase3 self) d = true ->
  exists a self1,
    first_eligible (used_in_phase3 self) enemy_dice = Some a
    /\ ((forall d', d' ∈ enemy_dice ->
                    eligible (used_in_phase3 self) d' = true -> d' = d) ->
        a = d.1)
    /\ BossBehavior.decide_action self enemy player enemy_dice g
       = Ok (self1, a, g)
    /\ BossBehavior.turn_count self1 = BossBehavior.turn_count self + 1
    /\ BossBehavior.phase self1 = 3
    /\ BossBehavior.phase_abilities_used self1
       = used_in_phase3 self ∪ {[ability_key a]}
    /\ (forall b, ability_key b = ability_key a -> b = a)
    /\ (forall d',
          d'.1 <> a ->
          eligible (BossBehavior.phase_abilities_used self1) d'
          = eligible (used_in_phase3 self) d')
    /\ forall self2,
         phase3_calls self1 self2 ->
         BossBehavior.phase self2 = 3
         /\ ability_key a ∈ BossBehavior.phase_abilities_used self2
         /\ forall enemy_dice',
              first_eligible (BossBehavior.phase_abilities_used self2)
                enemy_dice' <> Some a
              /\ forall enemy' player' g' self3 a3 g3,
                   enemy_dice' <> [] ->
                   desperate enemy' ->
                   BossBehavior.decide_action self2 enemy' player'
                     enemy_dice' g' = Ok (self3, a3, g3) ->
                   (first_eligible (BossBehavior.phase_abilities_used self2)
                      enemy_dice' = Some a3
                    /\ a3 <> a
                    /\ BossBehavior.phase_abilities_used self3
                       = BossBehavior.phase_abilities_used self2
                           ∪ {[ability_key a3]}
                    /\ g3 = g')
                   \/ (first_eligible
                         (BossBehavior.phase_abilities_used self2)
                         enemy_dice' = None
                       /\ BossBehavior.phase_abilities_used self3
                          = BossBehavior.phase_abilities_used self2
                       /\ match special_attack
                                  (BossBehavior.turn_count self2 + 1)
                                  enemy_dice' with
                          | Some s => a3 = s /\ g3 = g'
                          | None =>
                            TacticalBehavior.decide_action enemy' player'
                              enemy_dice' g' = Ok (a3, g3)
                          end).
Proof.
  intros Hd Hin He.
  destruct (first_eligible_exists _ _ _ Hin He) as (a & Hfirst).
  assert (Hne : enemy_dice <> []).
  { intros ->. apply elem_of_nil in Hin. exact Hin. }
  pose proof (decide_action_phase3 self enemy player enemy_dice g Hne Hd)
    as Hcall.
  rewrite Hfirst in Hcall. cbv zeta in Hcall.
  exists a. eexists.
  split; [exact Hfirst|]. split.
  { intros Huniq.
    destruct (first_eligible_found _ _ _ Hfirst) as (d' & Hin' & He' & Hd').
    rewrite <- (Huniq d' Hin' He'). symmetry. exact Hd'. }
  split; [exact Hcall|]. split; [reflexivity|]. split; [reflexivity|].
  split; [reflexivity|].
  split; [intros b Hb; apply ability_key_inj, Hb|].
  split; [intros d' Hd'; apply eligible_others, Hd'|].
  intros self2 Hcalls.
  destruct (phase3_calls_keep _ _ Hcalls eq_refl) as [Hp2 Hsub].
  simpl in Hsub.
  assert (Hused : ability_key a ∈ BossBehavior.phase_abilities_used self2).
  { apply Hsub, elem_of_union_r, elem_of_singleton. reflexivity. }
  split; [exact Hp2|]. split; [exact Hused|].
  intros enemy_dice'. split.
  - intros Hscan. apply first_eligible_unused in Hscan. contradiction.
  - intros enemy' player' g' self3 a3 g3 Hne' Hd' Hcall'.
    rewrite decide_action_phase3 in Hcall' by assumption.
    unfold used_in_phase3 in Hcall'. rewrite Hp2, Z.eqb_refl in Hcall'.
    cbv zeta in Hcall'.
    destruct (first_eligible _ enemy_dice') as [a'|] eqn:Es.
    + left. injection Hcall' as <- <- <-.
      split; [reflexivity|]. split; [|split; reflexivity].
      intros ->. apply first_eligible_unused in Es. contradiction.
    + right. split; [reflexivity|].
      pose proof (special_or_tactical_state _ _ _ _ _ _ _ _ Hcall') as ->.
      split; [reflexivity|].
      apply special_or_tactical_cases in Hcall'. exact Hcall'.
Qed.

Lemma boss_ultimate_once_witness :
  exists a self1,
    first_eligible (used_in_phase3 BossBehavior.__init__)
      [claw_die; inferno_die] = Some a
    /\ ((forall d', d' ∈ [claw_die; inferno_die] ->
                    eligible (used_in_phase3 BossBehavior.__init__) d' = true ->
                    d' = inferno_die) ->
        a = (SPECIAL, 0))
    /\ BossBehavior.decide_action BossBehavior.__init__ dying_dragon
         fresh_character [claw_die; inferno_die] fixed_rng
       = Ok (self1, a, fixed_rng)
    /\ BossBehavior.turn_count self1 = 0 + 1
    /\ BossBehavior.phase self1 = 3
    /\ BossBehavior.phase_abilities_used self1
       = used_in_phase3 BossBehavior.__init__ ∪ {[ability_key a]}
    /\ (forall b, ability_key b = ability_key a -> b = a)
    /\ (forall d',
          d'.1 <> a ->
          eligible (BossBehavior.phase_abilities_used self1) d'
          = eligible (used_in_phase3 BossBehavior.__init__) d')
    /\ forall self2,
         phase3_calls self1 self2 ->
         BossBehavior.phase self2 = 3
         /\ ability_key a ∈ BossBehavior.phase_abilities_used self2
         /\ forall enemy_dice',
              first_eligible (BossBehavior.phase_abilities_used self2)
                enemy_dice' <> Some a
              /\ forall enemy' player' g' self3 a3 g3,
                   enemy_dice' <> [] ->
                   desperate enemy' ->
                   BossBehavior.decide_action self2 enemy' player'
                     enemy_dice' g' = Ok (self3, a3, g3) ->
                   (first_eligible (BossBehavior.phase_abilities_used self2)
                      enemy_dice' = Some a3
                    /\ a3 <> a
                    /\ BossBehavior.phase_abilities_used self3
                       = BossBehavior.phase_abilities_used self2
                           ∪ {[ability_key a3]}
                    /\ g3 = g')
                   \/ (first_eligible
                         (BossBehavior.phase_abilities_used self2)
                         enemy_dice' = None
                       /\ BossBehavior.phase_abilities_used self3
                          = BossBehavior.phase_abilities_used self2
                       /\ match special_attack
                                  (BossBehavior.turn_count self2 + 1)
                                  enemy_dice' with
                          | Some s => a3 = s /\ g3 = g'
                          | None =>
                            TacticalBehavior.decide_action enemy' player'
                              enemy_dice' g' = Ok (a3, g3)
                          end).
Proof.
  apply (boss_ultimate_once BossBehavior.__init__ dying_dragon fresh_character
           [claw_die; inferno_die] fixed_rng inferno_die).
  - split; [simpl; lia|]. unfold Qlt. simpl. lia.
  - apply list_elem_of_further, list_elem_of_here.
  - vm_compute. reflexivity.
Defined.

(** C9, as stated, fails: the die is not selected at most once per
    phase.  At health fraction 0.25 the boss rolls the die with the
    unused "Ultimate" face of value 5 on its first turn by the ultimate
    rule; asked again with the same dice it rolls the claws on the
    second turn and, still in phase 3, the same ultimate die again on
    the third turn, now as the first SPECIAL die of a turn whose count
    is a multiple of 3. *)
Lemma ultimate_die_selected_again :
  exists self1 self2 self3 g2 g3,
    BossBehavior.decide_action BossBehavior.__init__ dying_dragon
      fresh_character [claw_die; inferno_die] fixed_rng
    = Ok (self1, (SPECIAL, 0), fixed_rng)
    /\ BossBehavior.decide_action self1 dying_dragon fresh_character
         [claw_die; inferno_die] fixed_rng
       = Ok (self2, (COMBAT, 0), g2)
    /\ BossBehavior.decide_action self2 dying_dragon fresh_character
         [claw_die; inferno_die] g2
       = Ok (self3, (SPECIAL, 0), g3)
    /\ BossBehavior.phase self1 = 3
    /\ BossBehavior.phase self2 = 3
    /\ BossBehavior.phase self3 = 3
    /\ BossBehavior.turn_count self3 = 3
    /\ BossBehavior.phase_abilities_used self3
       = BossBehavior.phase_abilities_used self1.
Proof.
  eexists. eexists. eexists. eexists. eexists.
  split; [vm_compute; reflexivity|].
  split; [vm_compute; reflexivity|].
  split; [vm_compute; reflexivity|].
  repeat split.
Qed.

(** The example of the specification: at health fraction 0.25 the die
    with the unused "Ultimate" face of value 5 is selected and its key
    is recorded; asked again in the same phase with the same dice, the
    boss takes another die. *)
Example ultimate_then_other :
  exists self1 self2 a2 g2,
    BossBehavior.decide_action BossBehavior.__init__ dying_dragon
      fresh_character [claw_die; inferno_die] fixed_rng
    = Ok (self1, (SPECIAL, 0), fixed_rng)
    /\ BossBehavior.phase_abilities_used self1
       = {["DiceType.SPECIAL_0_ultimate"]}
    /\ BossBehavior.decide_action self1 dying_dragon fresh_character
         [claw_die; inferno_die] fixed_rng
       = Ok (self2, a2, g2)
    /\ a2 = (COMBAT, 0)
    /\ BossBehavior.turn_count self2 = 2.
Proof.
  eexists. eexists. eexists. eexists.
  split; [vm_compute; reflexivity|].
  split; [vm_compute; reflexivity|].
  split; [vm_compute; reflexivity|].
  split; reflexivity.
Qed.

(** ** The behaviours always decide *)

Lemma aggressive_decides (enemy : Enemy.t) (player : Character.t)
    (enemy_dice : list enemy_die) (g : Rng) :
  exists a g',
    AggressiveBehavior.decide_action enemy player enemy_dice g = Ok (a, g').
Proof.
  unfold AggressiveBehavior.decide_action.
  destruct enemy_dice as [|d0 rest] eqn:Ed; [eauto|]. rewrite <- Ed.
  destruct (AggressiveBehavior.sort_desc _) as [|best l]; [|eauto].
  destruct (filter _ enemy_dice) as [|d l]; [|eauto].
  destruct (choice_nonempty enemy_dice g) as (x & _ & ->); [congruence|].
  simpl. eauto.
Qed.

Lemma defensive_decides (enemy : Enemy.t) (player : Character.t)
    (enemy_dice : list enemy_die) (g : Rng) :
  Enemy.max_health enemy <> 0 ->
  exists a g',
    DefensiveBehavior.decide_action enemy player enemy_dice g = Ok (a, g').
Proof.
  intros Hne. unfold DefensiveBehavior.decide_action, Py.truediv.
  destruct enemy_dice as [|d0 rest] eqn:Ed; [eauto|]. rewrite <- Ed.
  apply Z.eqb_neq in Hne. rewrite Hne. simpl.
  destruct (aggressive_decides enemy player enemy_dice g) as (a & g' & Ha).
  rewrite Ha.
  destruct (Py.lt _ (3 # 10)).
  - destruct (DefensiveBehavior.find_healing enemy_dice); eauto.
  - destruct (Py.lt _ (6 # 10)); [|eauto].
    destruct (filter _ enemy_dice); eauto.
Qed.

Lemma tactical_decides (enemy : Enemy.t) (player : Character.t)
    (enemy_dice : list enemy_die) (g : Rng) :
  Enemy.max_health enemy <> 0 ->
  CharacterStats.max_health (Character.stats player) <> 0 ->
  exists a g',
    TacticalBehavior.decide_action enemy player enemy_dice g = Ok (a, g').
Proof.
  intros Hne Hnp. unfold TacticalBehavior.decide_action, Py.truediv.
  destruct enemy_dice as [|d0 rest] eqn:Ed; [eauto|]. rewrite <- Ed.
  apply Z.eqb_neq in Hne. apply Z.eqb_neq in Hnp. rewrite Hne, Hnp. simpl.
  apply Z.eqb_neq in Hne.
  destruct (Py.gt _ _); [apply aggressive_decides|].
  destruct (Py.lt _ _); [apply defensive_decides; exact Hne|].
  assert (Hmixed : forall g0, exists a g',
    (AggressiveBehavior.decide_action enemy player enemy_dice g0
       ≫= λ '(a0, g1),
         DefensiveBehavior.decide_action enemy player enemy_dice g1
           ≫= λ '(d, g2), random.choice [a0; d] g2) = Ok (a, g')).
  { intros g0.
    destruct (aggressive_decides enemy player enemy_dice g0) as (a & g1 & ->).
    simpl.
    destruct (defensive_decides enemy player enemy_dice g1 Hne)
      as (d & g2 & ->).
    simpl.
    destruct (choice_nonempty [a; d] g2) as (x & _ & ->); [discriminate|].
    eauto. }
  destruct (TacticalBehavior.status_dice enemy_dice) as [|s sd] eqn:Es.
  - apply Hmixed.
  - unfold random.random.
    destruct (Py.lt _ (6 # 10)); [|apply Hmixed].
    destruct (choice_nonempty (s :: sd) (random.advance g)) as (x & _ & ->);
      [discriminate|].
    eauto.
Qed.

Lemma special_or_tactical_decides (self : BossBehavior.t) (enemy : Enemy.t)
    (player : Character.t) (enemy_dice : list enemy_die) (g : Rng) :
  Enemy.max_health enemy <> 0 ->
  CharacterStats.max_health (Character.stats player) <> 0 ->
  exists a g',
    BossBehavior.special_or_tactical self enemy player enemy_dice g
    = Ok (self, a, g').
Proof.
  intros Hne Hnp. unfold BossBehavior.special_or_tactical.
  destruct (tactical_decides enemy player enemy_dice g Hne Hnp)
    as (a & g' & ->).
  simpl.
  destruct (_ =? 0); [|eauto].
  destruct (BossBehavior.find_special enemy_dice); eauto.
Qed.

(** A boss call with dice to choose from returns and counts the turn. *)
Lemma boss_decides (self : BossBehavior.t) (enemy : Enemy.t)
    (player : Character.t) (enemy_dice : list enemy_die) (g : Rng) :
  enemy_dice <> [] ->
  Enemy.max_health enemy <> 0 ->
  CharacterStats.max_health (Character.stats player) <> 0 ->
  exists self' a g',
    BossBehavior.decide_action self enemy player enemy_dice g
    = Ok (self', a, g')
    /\ BossBehavior.turn_count self' = BossBehavior.turn_count self + 1.
Proof.
  intros Hd Hne Hnp. unfold BossBehavior.decide_action, Py.truediv.
  destruct enemy_dice as [|d0 rest] eqn:Ed; [congruence|]. rewrite <- Ed.
  pose proof Hne as Hne'. apply Z.eqb_neq in Hne'. rewrite Hne'.
  cbn [mbind result_bind].
  set (new_phase := if Py.lt _ (3 # 10) then 3 else _).
  set (self1 := if negb _ then _ else _).
  assert (Ht :
    BossBehavior.turn_count self1 = BossBehavior.turn_count self + 1).
  { unfold self1. destruct (negb _); reflexivity. }
  clearbody self1.
  assert (Htail : exists self' a g',
    BossBehavior.special_or_tactical self1 enemy player enemy_dice g
    = Ok (self', a, g')
    /\ BossBehavior.turn_count self' = BossBehavior.turn_count self + 1).
  { destruct (special_or_tactical_decides self1 enemy player enemy_dice g
                Hne Hnp) as (a & g' & ->).
    eauto. }
  destruct (BossBehavior.phase self1 =? 3).
  - destruct (BossBehavior.scan_ultimate _ _) as [[t i]|]; [|exact Htail].
    eexists. eexists. eexists. split; [reflexivity|]. exact Ht.
  - destruct (BossBehavior.phase self1 =? 2); [|exact Htail].
    destruct (decide _); [exact Htail|].
    destruct (BossBehavior.find_heal enemy_dice); [|exact Htail].
    eexists. eexists. eexists. split; [reflexivity|]. exact Ht.
Qed.

(** ** The registry shares one boss behaviour *)

Lemma init_registered_boss :
  registered_boss EnemyAI.__init__ 4 BossBehavior.__init__.
Proof. split; reflexivity. Qed.

(** Among the initial behaviours only the key "boss" holds a BossBehavior. *)
Lemma init_only_boss (key : string) (r : nat) (self : BossBehavior.t) :
  EnemyAI.behaviors EnemyAI.__init__ !! key = Some r ->
  EnemyAI.objects EnemyAI.__init__ !! r = Some (EnemyAI.Boss self) ->
  key = "boss" /\ r = 4%nat /\ self = BossBehavior.__init__.
Proof.
  unfold EnemyAI.__init__. simpl. intros Hk Ho.
  repeat (rewrite lookup_insert in Hk; case_decide;
          [injection Hk as <-; vm_compute in Ho;
           first [discriminate Ho | injection Ho as <-; subst; auto]|]).
  rewrite lookup_empty in Hk. discriminate.
Qed.

Lemma init_is_boss (enemy : Enemy.t) :
  EnemyAI.boss_name (Enemy.name enemy) = true
  \/ Enemy.enemy_type enemy = DRAGON ->
  is_boss EnemyAI.__init__ enemy.
Proof.
  intros H. unfold is_boss. simpl. rewrite lookup_empty.
  destruct (EnemyAI.boss_name (Enemy.name enemy)) eqn:E; [auto|].
  destruct H as [H|H]; [discriminate|].
  right. right. rewrite H. auto.
Qed.

Lemma get_behavior_boss (ai : EnemyAI.t) (r : nat) (self : BossBehavior.t)
    (enemy : Enemy.t) :
  registered_boss ai r self ->
  is_boss ai enemy ->
  EnemyAI.get_behavior ai enemy = Ok r.
Proof.
  intros [Hb _] Hboss. unfold EnemyAI.get_behavior, EnemyAI.behaviors_getitem.
  destruct Hboss as [Hc | [[Hc Hn] | (Hc & Hn & Ht)]]; rewrite Hc.
  - rewrite Hb. reflexivity.
  - rewrite Hn, Hb. reflexivity.
  - rewrite Hn, Ht. simpl. rewrite Hb. reflexivity.
Qed.

(** A decision for a boss runs on the shared object and stores what it
    assigned back into it; the tables of the registry stay. *)
Lemma decide_action_boss (ai : EnemyAI.t) (r : nat) (self : BossBehavior.t)
    (enemy : Enemy.t) (player : Character.t) (enemy_dice : list enemy_die)
    (g : Rng) :
  registered_boss ai r self ->
  is_boss ai enemy ->
  EnemyAI.decide_action ai enemy player enemy_dice g =
    '(self', a, g') ←
      BossBehavior.decide_action self enemy player enemy_dice g;
    Ok (EnemyAI.set_objects ai
          (<[r := EnemyAI.Boss self']> (EnemyAI.objects ai)),
        a, g').
Proof.
  intros Hreg Hboss. unfold EnemyAI.decide_action.
  rewrite (get_behavior_boss ai r self enemy Hreg Hboss).
  destruct Hreg as [_ Ho]. simpl. rewrite Ho. reflexivity.
Qed.

Lemma set_objects_registered (ai : EnemyAI.t) (r : nat)
    (self self' : BossBehavior.t) :
  registered_boss ai r self ->
  registered_boss
    (EnemyAI.set_objects ai (<[r := EnemyAI.Boss self']> (EnemyAI.objects ai)))
    r self'.
Proof.
  intros [Hb _]. split; simpl; [exact Hb|]. apply lookup_insert_eq.
Qed.

(** A name override to "boss" makes the enemy a boss of the same object. *)
Lemma override_is_boss (ai : EnemyAI.t) (r : nat) (self : BossBehavior.t)
    (enemy : Enemy.t) :
  registered_boss ai r self ->
  let ai' := (EnemyAI.set_custom_behavior ai (Enemy.name enemy) "boss").1 in
  registered_boss ai' r self /\ is_boss ai' enemy.
Proof.
  intros [Hb Ho]. unfold EnemyAI.set_custom_behavior. rewrite Hb. simpl.
  split; [split; assumption|].
  left. simpl. apply lookup_insert_eq.
Qed.

Lemma set_objects_is_boss (ai : EnemyAI.t) (o : gmap nat EnemyAI.AIBehavior)
    (enemy : Enemy.t) :
  is_boss ai enemy -> is_boss (EnemyAI.set_objects ai o) enemy.
Proof. unfold is_boss. simpl. auto. Qed.

(** C10. The initial registry holds exactly one BossBehavior, under the
    key "boss", and [get_behavior] returns that one object for every
    enemy classified as a boss, whether by a name override, by the boss
    naming pattern or by its type (DRAGON).  So the turn counter, the
    phase and the used abilities are one state for all bosses: a
    decision for one boss runs on the state the registry holds and
    stores the result there, and a decision for any other boss then
    starts from that state, seeing the turn counter one higher. *)
Theorem boss_state_is_shared :
  registered_boss EnemyAI.__init__ 4 BossBehavior.__init__
  /\ (forall key r self,
        EnemyAI.behaviors EnemyAI.__init__ !! key = Some r ->
        EnemyAI.objects EnemyAI.__init__ !! r = Some (EnemyAI.Boss self) ->
        key = "boss")
  /\ (forall enemy,
        EnemyAI.boss_name (Enemy.name enemy) = true
        \/ Enemy.enemy_type enemy = DRAGON ->
        is_boss EnemyAI.__init__ enemy)
  /\ (forall ai r self enemy,
        registered_boss ai r self ->
        let ai' :=
          (EnemyAI.set_custom_behavior ai (Enemy.name enemy) "boss").1 in
        registered_boss ai' r self /\ is_boss ai' enemy)
  /\ (forall ai r self enemy,
        registered_boss ai r self -> is_boss ai enemy ->
        EnemyAI.get_behavior ai enemy = Ok r)
  /\ (forall ai r self enemy1 player1 dice1 enemy2 player2 dice2 g,
        registered_boss ai r self ->
        is_boss ai enemy1 -> is_boss ai enemy2 ->
        dice1 <> [] -> dice2 <> [] ->
        Enemy.max_health enemy1 <> 0 -> Enemy.max_health enemy2 <> 0 ->
        CharacterStats.max_health (Character.stats player1) <> 0 ->
        CharacterStats.max_health (Character.stats player2) <> 0 ->
        exists ai1 self1 a1 g1 ai2 self2 a2 g2,
          EnemyAI.decide_action ai enemy1 player1 dice1 g = Ok (ai1, a1, g1)
          /\ BossBehavior.decide_action self enemy1 player1 dice1 g
             = Ok (self1, a1, g1)
          /\ registered_boss ai1 r self1
          /\ BossBehavior.turn_count self1 = BossBehavior.turn_count self + 1
          /\ EnemyAI.decide_action ai1 enemy2 player2 dice2 g1
             = Ok (ai2, a2, g2)
          /\ BossBehavior.decide_action self1 enemy2 player2 dice2 g1
             = Ok (self2, a2, g2)
          /\ registered_boss ai2 r self2
          /\ BossBehavior.turn_count self2 = BossBehavior.turn_count self + 2).
Proof.
  split; [exact init_registered_boss|].
  split; [intros key r self Hk Ho; apply (init_only_boss key r self Hk Ho)|].
  split; [exact init_is_boss|].
  split; [exact override_is_boss|].
  split; [exact get_behavior_boss|].
  intros ai r self enemy1 player1 dice1 enemy2 player2 dice2 g
         Hreg Hb1 Hb2 Hd1 Hd2 He1 He2 Hp1 Hp2.
  destruct (boss_decides self enemy1 player1 dice1 g Hd1 He1 Hp1)
    as (self1 & a1 & g1 & Hc1 & Ht1).
  destruct (boss_decides self1 enemy2 player2 dice2 g1 Hd2 He2 Hp2)
    as (self2 & a2 & g2 & Hc2 & Ht2).
  pose proof (set_objects_registered ai r self self1 Hreg) as Hreg1.
  pose proof (set_objects_is_boss ai
                (<[r := EnemyAI.Boss self1]> (EnemyAI.objects ai))
                enemy2 Hb2) as Hb2'.
  pose proof (set_objects_registered _ r self1 self2 Hreg1) as Hreg2.
  eexists. exists self1, a1, g1. eexists. exists self2, a2, g2.
  split.
  { rewrite (decide_action_boss ai r self enemy1 player1 dice1 g Hreg Hb1).
    rewrite Hc1. reflexivity. }
  split; [exact Hc1|]. split; [exact Hreg1|]. split; [exact Ht1|].
  split.
  { rewrite (decide_action_boss _ r self1 enemy2 player2 dice2 g1 Hreg1 Hb2').
    rewrite Hc2. reflexivity. }
  split; [exact Hc2|]. split; [exact Hreg2|]. lia.
Qed.

(** Two bosses, one counter: Grimfang (a boss by name) acts, then the
    dragon (a boss by name and by type) acts on the counter Grimfang
    left at 1. *)
Lemma boss_state_is_shared_witness :
  exists ai1 self1 a1 g1 ai2 self2 a2 g2,
    EnemyAI.decide_action EnemyAI.__init__ grimfang fresh_character
      [claw_die] fixed_rng = Ok (ai1, a1, g1)
    /\ BossBehavior.decide_action BossBehavior.__init__ grimfang
         fresh_character [claw_die] fixed_rng = Ok (self1, a1, g1)
    /\ registered_boss ai1 4 self1
    /\ BossBehavior.turn_count self1 = 0 + 1
    /\ EnemyAI.decide_action ai1 dying_dragon fresh_character
         [claw_die; inferno_die] g1 = Ok (ai2, a2, g2)
    /\ BossBehavior.decide_action self1 dying_dragon fresh_character
         [claw_die; inferno_die] g1 = Ok (self2, a2, g2)
    /\ registered_boss ai2 4 self2
    /\ BossBehavior.turn_count self2 = 0 + 2.
Proof.
  apply (proj2 (proj2 (proj2 (proj2 (proj2 boss_state_is_shared))))
           EnemyAI.__init__ 4%nat BossBehavior.__init__).
  - exact init_registered_boss.
  - apply init_is_boss. left. reflexivity.
  - apply init_is_boss. right. reflexivity.
  - discriminate.
  - discriminate.
  - simpl. lia.
  - simpl. lia.
  - simpl. lia.
  - simpl. lia.
Defined.

(** * Further properties of the code *)

(** ** Dice: rolling *)

(** X1. [roll] never raises; it never edits the faces, the size or the
    balance of the die, and a face it returns is one of the die's
    faces. *)
Theorem roll_returns_own_face (d : Dice.t) (g : Rng) :
  exists d' face message effects g',
    Dice.roll d g = Ok (d', (face, message, effects), g')
    /\ Dice.faces d' = Dice.faces d
    /\ Dice.size d' = Dice.size d
    /\ Dice.balance_value d' = Dice.balance_value d
    /\ Dice.imbalance_effect d' = Dice.imbalance_effect d
    /\ Dice.imbalance_severity d' = Dice.imbalance_severity d
    /\ forall f, face = Some f -> f ∈ Dice.faces d.
Proof.
  unfold Dice.roll.
  destruct (Dice.faces d) as [|f0 fs] eqn:Ef.
  { do 5 eexists. split; [reflexivity|]. rewrite Ef.
    repeat split; auto. discriminate. }
  rewrite <- Ef.
  assert (Hne : Dice.faces d <> []) by (rewrite Ef; discriminate).
  destruct (Dice.cooldown d >? 0).
  { do 5 eexists. split; [reflexivity|]. simpl.
    repeat split; auto. discriminate. }
  cbv zeta.
  assert (Hin : forall i x, Dice.faces d !! i = Some x -> x ∈ Dice.faces d).
  { intros i x Hx. eapply list_elem_of_lookup_2. exact Hx. }
  destruct (choice_nonempty (Dice.faces d) g Hne) as (x0 & Hx0 & Hc0).
  destruct (choice_nonempty (Dice.faces d) (random.advance g) Hne)
    as (x1 & Hx1 & Hc1).
  destruct (choice_nonempty (Dice.faces d)
              (random.advance (random.advance g)) Hne) as (x2 & Hx2 & Hc2).
  destruct (Dice.imbalance_effect d) eqn:Ee;
    try (rewrite Hc0; simpl; unfold Dice.add_xp;
         destruct (_ >=? _); simpl;
         do 5 eexists; (split; [reflexivity|]); simpl; repeat split; auto;
         intros f [= <-]; eauto).
  unfold random.random.
  destruct (Py.lt _ _).
  - rewrite Hc1. simpl. rewrite Hc2. simpl.
    do 5 eexists. split; [reflexivity|].
    repeat split; auto.
    intros f [= <-]. destruct (_ <? _); eauto.
  - rewrite Hc1. simpl. unfold Dice.add_xp.
    destruct (_ >=? _); simpl;
      do 5 eexists; (split; [reflexivity|]); simpl; repeat split; auto;
      intros f [= <-]; eauto.
Qed.

(** One roll on cooldown, as an equation. *)
Lemma cooldown_roll_step (d : Dice.t) (g : Rng) (k : Z) :
  Dice.faces d <> [] ->
  Dice.cooldown d = k ->
  0 < k ->
  Dice.roll d g =
    Ok (Dice.set_cooldown d (k - 1),
        (None,
         Dice.name d +:+ " is on cooldown for " +:+ Py.str k +:+ " more turns.",
         []), g)
  /\ Dice.set_cooldown (Dice.set_cooldown d (k - 1)) 0 = Dice.set_cooldown d 0.
Proof.
  intros Hfaces Hk Hpos. split; [|reflexivity].
  unfold Dice.roll.
  destruct (Dice.faces d) as [|f fs] eqn:Ef; [congruence|].
  assert (Hgt : (Dice.cooldown d >? 0) = true) by (apply Z.gtb_lt; lia).
  rewrite Hgt, Hk. simpl.
  replace (k - 1 + 1) with k by lia. reflexivity.
Qed.

(** X2. A die with a face and [k] turns of cooldown returns no face on
    each of its next [k] rolls, which draw nothing from the random
    source and change nothing but the cooldown; the cooldown is then 0
    and the roll after those returns a face. *)
Theorem cooldown_runs_out (k : nat) (d : Dice.t) (g : Rng) :
  Dice.faces d <> [] ->
  Dice.cooldown d = Z.of_nat k ->
  exists values,
    rolls k d g = Ok (Dice.set_cooldown d 0, values, g)
    /\ length values = k
    /\ Forall (fun v : Dice.roll_value => v.1.1 = None) values
    /\ exists d' face message effects g',
         Dice.roll (Dice.set_cooldown d 0) g
         = Ok (d', (Some face, message, effects), g').
Proof.
  revert d. induction k as [|k IH]; intros d Hf Hc.
  - exists []. simpl.
    assert (Hd : Dice.set_cooldown d 0 = d).
    { destruct d. simpl in Hc. subst. reflexivity. }
    rewrite Hd. repeat split; auto.
    unfold Dice.roll.
    destruct (Dice.faces d) as [|f0 fs] eqn:Ef; [congruence|].
    rewrite Hc. simpl. cbv zeta.
    destruct (choice_nonempty (f0 :: fs) g) as (x0 & _ & Hc0); [discriminate|].
    destruct (choice_nonempty (f0 :: fs) (random.advance g))
      as (x1 & _ & Hc1); [discriminate|].
    destruct (choice_nonempty (f0 :: fs) (random.advance (random.advance g)))
      as (x2 & _ & Hc2); [discriminate|].
    destruct (Dice.imbalance_effect d);
      try (rewrite Hc0; simpl; destruct (Dice.add_xp d 10); eauto 6).
    destruct (Py.lt _ _).
    + rewrite Hc1. simpl. rewrite Hc2. simpl. eauto 6.
    + rewrite Hc1. simpl. destruct (Dice.add_xp d 10); eauto 6.
  - destruct (cooldown_roll_step d g (Z.of_nat (S k)) Hf Hc) as [Hr Hset];
      [lia|].
    replace (Z.of_nat (S k) - 1) with (Z.of_nat k) in Hr, Hset by lia.
    destruct (IH (Dice.set_cooldown d (Z.of_nat k)))
      as (vs & Hrs & Hl & Hall & Hnext); [exact Hf|reflexivity|].
    rewrite Hset in Hrs, Hnext.
    eexists. simpl. rewrite Hr. simpl. rewrite Hrs. simpl.
    split; [reflexivity|]. split; [simpl; congruence|].
    split; [constructor; [reflexivity|exact Hall]|].
    exact Hnext.
Qed.

Lemma cooldown_runs_out_witness :
  exists values,
    rolls 2 cooldown_die fixed_rng
    = Ok (Dice.set_cooldown cooldown_die 0, values, fixed_rng)
    /\ length values = 2%nat
    /\ Forall (fun v : Dice.roll_value => v.1.1 = None) values
    /\ exists d' face message effects g',
         Dice.roll (Dice.set_cooldown cooldown_die 0) fixed_rng
         = Ok (d', (Some face, message, effects), g').
Proof.
  apply (cooldown_runs_out 2 cooldown_die fixed_rng).
  - discriminate.
  - reflexivity.
Defined.

(** ** Dice: editing the faces *)

Lemma calculate_balance_faces (d : Dice.t) :
  Dice.size d <> 0 ->
  exists d',
    Dice._calculate_balance d = Ok d'
    /\ Dice.faces d' = Dice.faces d
    /\ Dice.size d' = Dice.size d.
Proof.
  intros Hsize. unfold Dice._calculate_balance, Py.truediv.
  assert (Hs2 : (Dice.size d * 2 =? 0) = false) by (apply Z.eqb_neq; lia).
  rewrite Hs2.
  destruct (Dice.sum_values (Dice.faces d) =? 0);
    [eexists; repeat split; reflexivity|].
  destruct (Dice.sum_values (Dice.faces d) <? 0); simpl;
    eexists; repeat split; reflexivity.
Qed.

(** What one operation does to the faces of a die that keeps to its size. *)
Lemma apply_op_faces (d : Dice.t) (op : face_op) :
  Py.len (Dice.faces d) <= Dice.size d ->
  exists d',
    apply_op d op = Ok d'
    /\ Dice.faces d' = faces_after (Dice.size d) (Dice.faces d) op
    /\ Dice.size d' = Dice.size d.
Proof.
  intros Hcap.
  destruct op as [face | index | index new_face]; simpl;
    unfold Dice.add_face, Dice.remove_face, Dice.replace_face.
  - rewrite Z.geb_leb.
    destruct (decide (Py.len (Dice.faces d) < Dice.size d)) as [Hlt|Hge].
    + assert (E : (Dice.size d <=? Py.len (Dice.faces d)) = false)
        by (apply Z.leb_gt; exact Hlt).
      rewrite E.
      destruct (calculate_balance_faces
                  (Dice.set_faces d (Dice.faces d ++ [face])))
        as (d' & -> & Hf & Hs).
      { simpl. unfold Py.len in Hlt. lia. }
      exists d'. auto.
    + assert (E : (Dice.size d <=? Py.len (Dice.faces d)) = true)
        by (apply Z.leb_le; lia).
      rewrite E. exists d. auto.
  - rewrite in_range_decide. unfold Py.getitem. rewrite in_range_decide.
    destruct (decide (0 <= index < Py.len (Dice.faces d))) as [Hin|Hout].
    + rewrite bool_decide_eq_true_2 by exact Hin.
      unfold Py.len in Hin, Hcap.
      destruct (Dice.faces d !! Z.to_nat index) as [face|] eqn:El.
      * simpl.
        destruct (calculate_balance_faces
                    (Dice.set_faces d (delete (Z.to_nat index) (Dice.faces d))))
          as (d' & -> & Hf & Hs); [simpl; lia|].
        exists d'. auto.
      * apply lookup_ge_None in El. lia.
    + rewrite bool_decide_eq_false_2 by exact Hout. exists d. auto.
  - rewrite in_range_decide. unfold Py.getitem. rewrite in_range_decide.
    destruct (decide (0 <= index < Py.len (Dice.faces d))) as [Hin|Hout].
    + rewrite bool_decide_eq_true_2 by exact Hin.
      unfold Py.len in Hin, Hcap.
      destruct (Dice.faces d !! Z.to_nat index) as [face|] eqn:El.
      * simpl.
        destruct (calculate_balance_faces
                    (Dice.set_faces d
                       (<[Z.to_nat index := new_face]> (Dice.faces d))))
          as (d' & -> & Hf & Hs); [simpl; lia|].
        exists d'. auto.
      * apply lookup_ge_None in El. lia.
    + rewrite bool_decide_eq_false_2 by exact Hout. exists d. auto.
Qed.

(** X3. On a die that holds no more faces than its size, a sequence of
    add_face, remove_face and replace_face never raises and still holds
    no more faces than the size: add_face appends only below capacity,
    the other two act only on an index in range, and a refused
    operation leaves the faces as they were. *)
Theorem faces_stay_within_size (d : Dice.t) (ops : list face_op) :
  Py.len (Dice.faces d) <= Dice.size d ->
  exists d',
    apply_ops d ops = Ok d'
    /\ Dice.size d' = Dice.size d
    /\ Dice.faces d' = foldl (faces_after (Dice.size d)) (Dice.faces d) ops
    /\ Py.len (Dice.faces d') <= Dice.size d'.
Proof.
  revert d. induction ops as [|op rest IH]; intros d Hcap.
  - exists d. simpl. auto.
  - destruct (apply_op_faces d op Hcap) as (d1 & Hop & Hf & Hs).
    assert (Hcap1 : Py.len (Dice.faces d1) <= Dice.size d1).
    { rewrite Hf, Hs.
      destruct op as [face | index | index new_face]; unfold faces_after;
        case_decide; unfold Py.len in *; try lia.
      - rewrite length_app. simpl. lia.
      - assert (Hi : is_Some (Dice.faces d !! Z.to_nat index))
          by (apply lookup_lt_is_Some; lia).
        pose proof (length_delete (Dice.faces d) (Z.to_nat index) Hi). lia.
      - rewrite length_insert. lia. }
    destruct (IH d1 Hcap1) as (d' & Hrun & Hs' & Hf' & Hcap').
    exists d'. simpl. rewrite Hop. simpl.
    split; [exact Hrun|]. split; [congruence|].
    split; [|exact Hcap']. rewrite Hf', Hf, Hs. reflexivity.
Qed.

Lemma faces_stay_within_size_witness :
  exists d',
    apply_ops tie_die [AddFace dull_edge; RemoveFace 5; RemoveFace 0] = Ok d'
    /\ Dice.size d' = Dice.size tie_die
    /\ Dice.faces d'
       = foldl (faces_after (Dice.size tie_die)) (Dice.faces tie_die)
           [AddFace dull_edge; RemoveFace 5; RemoveFace 0]
    /\ Py.len (Dice.faces d') <= Dice.size d'.
Proof.
  apply (faces_stay_within_size tie_die).
  vm_compute. discriminate.
Defined.

(** The balance is computed from the faces and the size alone: what an
    earlier computation stored does not matter. *)
Lemma calculate_balance_again (d d1 : Dice.t) (fs fs' : list DiceFace.t) :
  Dice._calculate_balance (Dice.set_faces d fs) = Ok d1 ->
  Dice._calculate_balance (Dice.set_faces d1 fs')
  = Dice._calculate_balance (Dice.set_faces d fs').
Proof.
  unfold Dice._calculate_balance, Py.truediv. simpl. intros H.
  destruct (Dice.size d * 2 =? 0) eqn:Es.
  - destruct (Dice.sum_values fs =? 0); [|destruct (_ <? 0); discriminate].
    injection H as <-. simpl. rewrite Es. reflexivity.
  - assert (Hs : Dice.size d1 = Dice.size d).
    { destruct (Dice.sum_values fs =? 0); [|destruct (_ <? 0)];
        simpl in H; injection H as <-; reflexivity. }
    rewrite Hs, Es.
    destruct (Dice.sum_values fs =? 0); [|destruct (Dice.sum_values fs <? 0)];
      simpl in H; injection H as <-; reflexivity.
Qed.

Lemma delete_last {A} (l : list A) (x : A) :
  delete (length l) (l ++ [x]) = l.
Proof. induction l as [|y l IH]; simpl; [reflexivity|]. f_equal. exact IH. Qed.

Lemma set_faces_same (d : Dice.t) : Dice.set_faces d (Dice.faces d) = d.
Proof. destruct d. reflexivity. Qed.

(** X4. Below capacity, add_face followed by remove_face at the index of
    the new face gives the face back and restores the die, and
    replace_face followed by the replace_face that puts the old face
    back does the same: in both cases the die is the original one with
    its balance recomputed. *)
Theorem face_edits_undo (d : Dice.t) (face : DiceFace.t) :
  Dice.size d <> 0 ->
  (Py.len (Dice.faces d) < Dice.size d ->
   exists d1 d2,
     Dice.add_face d face = Ok (d1, true)
     /\ Dice.remove_face d1 (Py.len (Dice.faces d)) = Ok (d2, Some face)
     /\ Dice._calculate_balance d = Ok d2)
  /\ (forall index old,
        0 <= index ->
        Dice.faces d !! Z.to_nat index = Some old ->
        exists d1 d2,
          Dice.replace_face d index face = Ok (d1, Some old)
          /\ Dice.replace_face d1 index old = Ok (d2, Some face)
          /\ Dice._calculate_balance d = Ok d2).
Proof.
  intros Hsize. split.
  - intros Hlt. unfold Dice.add_face, Dice.remove_face.
    assert (E : (Py.len (Dice.faces d) >=? Dice.size d) = false).
    { rewrite Z.geb_leb. apply Z.leb_gt. exact Hlt. }
    rewrite E.
    destruct (calculate_balance_faces
                (Dice.set_faces d (Dice.faces d ++ [face])) Hsize)
      as (d1 & Hc1 & Hf1 & Hs1).
    rewrite Hc1. simpl in Hf1. cbn [mbind result_bind].
    assert (Hdel : delete (Z.to_nat (Py.len (Dice.faces d))) (Dice.faces d1)
                   = Dice.faces d).
    { rewrite Hf1. unfold Py.len. rewrite Nat2Z.id. apply delete_last. }
    assert (Hget : Py.getitem (Dice.faces d1) (Py.len (Dice.faces d))
                   = Ok face).
    { unfold Py.getitem. rewrite in_range_decide.
      rewrite bool_decide_eq_true_2.
      - rewrite Hf1. unfold Py.len. rewrite Nat2Z.id.
        rewrite lookup_app_r by lia. rewrite Nat.sub_diag. reflexivity.
      - rewrite Hf1. unfold Py.len. rewrite length_app. simpl. lia. }
    assert (Hrange : (0 <=? Py.len (Dice.faces d))
                     && (Py.len (Dice.faces d) <? Py.len (Dice.faces d1))
                     = true).
    { rewrite in_range_decide. apply bool_decide_eq_true_2.
      rewrite Hf1. unfold Py.len. rewrite length_app. simpl. lia. }
    destruct (calculate_balance_faces d Hsize) as (d2 & Hc2 & _).
    exists d1, d2. split; [reflexivity|]. split; [|exact Hc2].
    rewrite Hrange, Hget. cbn [mbind result_bind]. rewrite Hdel.
    rewrite (calculate_balance_again d d1 _ _ Hc1), set_faces_same.
    rewrite Hc2. reflexivity.
  - intros index old H0 Hl. unfold Dice.replace_face.
    pose proof (lookup_lt_Some _ _ _ Hl) as Hlen.
    assert (Hrange : (0 <=? index) && (index <? Py.len (Dice.faces d)) = true).
    { rewrite in_range_decide. apply bool_decide_eq_true_2.
      unfold Py.len. lia. }
    rewrite Hrange.
    assert (Hget : Py.getitem (Dice.faces d) index = Ok old).
    { unfold Py.getitem. rewrite Hrange, Hl. reflexivity. }
    rewrite Hget. cbn [mbind result_bind].
    destruct (calculate_balance_faces
                (Dice.set_faces d (<[Z.to_nat index := face]> (Dice.faces d)))
                Hsize) as (d1 & Hc1 & Hf1 & Hs1).
    rewrite Hc1. simpl in Hf1. cbn [mbind result_bind].
    assert (Hrange1 : (0 <=? index) && (index <? Py.len (Dice.faces d1))
                      = true).
    { rewrite in_range_decide. apply bool_decide_eq_true_2.
      rewrite Hf1. unfold Py.len. rewrite length_insert. lia. }
    assert (Hget1 : Py.getitem (Dice.faces d1) index = Ok face).
    { unfold Py.getitem. rewrite Hrange1, Hf1.
      rewrite list_lookup_insert_eq by exact Hlen. reflexivity. }
    destruct (calculate_balance_faces d Hsize) as (d2 & Hc2 & _).
    exists d1, d2. split; [reflexivity|]. split; [|exact Hc2].
    rewrite Hrange1, Hget1. cbn [mbind result_bind].
    rewrite (calculate_balance_again d d1 _ _ Hc1), Hf1.
    rewrite list_insert_insert_eq, list_insert_id by exact Hl.
    rewrite set_faces_same.
    rewrite Hc2. reflexivity.
Qed.

Lemma face_edits_undo_witness :
  exists d1 d2,
    Dice.replace_face tie_die 1 dull_edge = Ok (d1, Some cracked_edge)
    /\ Dice.replace_face d1 1 cracked_edge = Ok (d2, Some dull_edge)
    /\ Dice._calculate_balance tie_die = Ok d2.
Proof.
  apply (proj2 (face_edits_undo tie_die dull_edge ltac:(vm_compute; discriminate))).
  - lia.
  - reflexivity.
Defined.

(** ** Leveling: xp left above the threshold *)

Lemma truncated_growth (t : Z) : 1 <= t -> t <= Z.quot (3 * t) 2.
Proof.
  intros H. rewrite Z.quot_div_nonneg by lia.
  apply Z.div_le_lower_bound; lia.
Qed.

Lemma idle_awards_succ (n : nat) (d : Dice.t) :
  idle_awards (S n) d = idle_awards n (Dice.add_xp d 0).1.
Proof.
  unfold idle_awards. induction n as [|n IH]; [reflexivity|].
  simpl in *. rewrite IH. reflexivity.
Qed.

(** X5. An award levels a die once, so it can leave more xp than the
    threshold; every later award, even of 0 xp, then levels the die
    once more.  With a threshold of at least 1 and no negative xp,
    some number [n] of such awards (at most the xp held) brings the xp
    below the threshold, and the die has then gained exactly [n]
    levels. *)
Theorem leftover_xp_levels_later (d : Dice.t) :
  1 <= Dice.xp_to_next_level d ->
  0 <= Dice.xp d ->
  exists n : nat,
    Z.of_nat n <= Dice.xp d
    /\ 0 <= Dice.xp (idle_awards n d)
         < Dice.xp_to_next_level (idle_awards n d)
    /\ Dice.level (idle_awards n d) = Dice.level d + Z.of_nat n
    /\ forall m : nat,
         (m < n)%nat ->
         Dice.xp_to_next_level (idle_awards m d) <= Dice.xp (idle_awards m d).
Proof.
  remember (Z.to_nat (Dice.xp d)) as fuel eqn:Hfuel.
  revert d Hfuel.
  induction fuel as [fuel IH] using lt_wf_ind. intros d Hfuel Ht Hx.
  destruct (decide (Dice.xp d < Dice.xp_to_next_level d)) as [Hlt|Hge].
  - exists 0%nat. simpl. repeat split; try lia.
  - destruct (Dice_add_xp_step d 0) as [Hstep _].
    unfold Dice_progress, level_step in Hstep.
    assert (E : (Dice.xp d + 0 >=? Dice.xp_to_next_level d) = true)
      by (apply Z.geb_le; lia).
    rewrite E in Hstep. injection Hstep as Hl1 Hx1 Ht1.
    set (d1 := (Dice.add_xp d 0).1) in *.
    pose proof (truncated_growth _ Ht) as Hgrow.
    destruct (IH (Z.to_nat (Dice.xp d1))) with (d := d1)
      as (n & Hn & Hrange & Hlevel & Hbefore); try lia.
    exists (S n). rewrite idle_awards_succ. fold d1.
    split; [lia|]. split; [exact Hrange|]. split; [lia|].
    intros m Hm. destruct m as [|m].
    + simpl. lia.
    + rewrite idle_awards_succ. fold d1. apply Hbefore. lia.
Qed.

Lemma leftover_xp_levels_later_witness :
  exists n : nat,
    Z.of_nat n <= Dice.xp (Dice.add_xp fresh_die 250).1
    /\ 0 <= Dice.xp (idle_awards n (Dice.add_xp fresh_die 250).1)
         < Dice.xp_to_next_level (idle_awards n (Dice.add_xp fresh_die 250).1)
    /\ Dice.level (idle_awards n (Dice.add_xp fresh_die 250).1)
       = Dice.level (Dice.add_xp fresh_die 250).1 + Z.of_nat n
    /\ forall m : nat,
         (m < n)%nat ->
         Dice.xp_to_next_level (idle_awards m (Dice.add_xp fresh_die 250).1)
         <= Dice.xp (idle_awards m (Dice.add_xp fresh_die 250).1).
Proof.
  apply (leftover_xp_levels_later (Dice.add_xp fresh_die 250).1).
  - vm_compute. discriminate.
  - vm_compute. discriminate.
Defined.

(** ** DiceSet *)

Lemma get_set_dice_list (s : DiceSet.t) (ty ty' : DiceType)
    (l : list Dice.t) :
  DiceSet.get_dice_list (DiceSet.set_dice_list s ty l) ty'
  = if decide (ty = ty') then l else DiceSet.get_dice_list s ty'.
Proof. destruct ty, ty'; reflexivity. Qed.

(** X6. [add_dice] always succeeds: the die becomes the last die of the
    list of its own type, and the lists of the other types are
    untouched. *)
Theorem add_dice_joins_its_type (s : DiceSet.t) (dice : Dice.t) :
  (DiceSet.add_dice s dice).2 = true
  /\ DiceSet.get_dice_list (DiceSet.add_dice s dice).1 (Dice.dice_type dice)
     = DiceSet.get_dice_list s (Dice.dice_type dice) ++ [dice]
  /\ forall ty,
       ty <> Dice.dice_type dice ->
       DiceSet.get_dice_list (DiceSet.add_dice s dice).1 ty
       = DiceSet.get_dice_list s ty.
Proof.
  unfold DiceSet.add_dice.
  destruct (Dice.dice_type dice); simpl; repeat split; auto;
    intros ty Hty; destruct ty; try reflexivity; contradiction.
Qed.

(** ** CharacterStats: traits *)

(** X7. The four weakening traits never take a stat below its floor,
    whatever the value of the face: Weakness and Stupidity leave the
    damage at 1 or more, Slowness leaves the speed at 1 or more and the
    dodge chance at 0 or more, Frailty leaves max_health at 1 or more
    and health no higher than max_health. *)
Theorem weakening_traits_have_floors (other_attribute : string -> bool)
    (s : CharacterStats.t) (value : Z) :
  (exists s' m,
     CharacterStats.apply_trait other_attribute s "Weakness" value = Ok (s', m)
     /\ 1 <= CharacterStats.physical_damage s')
  /\ (exists s' m,
        CharacterStats.apply_trait other_attribute s "Stupidity" value
        = Ok (s', m)
        /\ 1 <= CharacterStats.magic_damage s')
  /\ (exists s' m,
        CharacterStats.apply_trait other_attribute s "Slowness" value
        = Ok (s', m)
        /\ 1 <= CharacterStats.speed s'
        /\ (0 <= CharacterStats.dodge s')%Q)
  /\ (exists s' m,
        CharacterStats.apply_trait other_attribute s "Frailty" value
        = Ok (s', m)
        /\ 1 <= CharacterStats.max_health s'
        /\ CharacterStats.health s' <= CharacterStats.max_health s').
Proof.
  unfold CharacterStats.apply_trait. simpl.
  split; [|split; [|split]].
  - do 2 eexists. split; [reflexivity|]. simpl. lia.
  - do 2 eexists. split; [reflexivity|]. simpl. lia.
  - do 2 eexists. split; [reflexivity|]. simpl. split; [lia|].
    unfold Py.max. destruct (Py.lt 0 _) eqn:E.
    + apply Py_lt_spec in E. apply Qlt_le_weak. exact E.
    + apply Qle_refl.
  - do 2 eexists. split; [reflexivity|]. simpl. lia.
Qed.

(** ** CharacterStats: status effects *)

(** X8. [apply_status_effect] never shortens an effect: the effect ends
    up with the longer of its old and its new duration, the other
    effects and all stats stay, two applications of one effect amount
    to one application of the longer duration, and applications of
    different effects commute. *)
Theorem status_effect_keeps_longer (s : CharacterStats.t)
    (effect other : string) (d1 d2 : Z) :
  let s1 := CharacterStats.apply_status_effect s effect d1 in
  CharacterStats.status_effects s1 !! effect
  = Some (match CharacterStats.status_effects s !! effect with
          | Some current => Z.max current d1
          | None => d1
          end)
  /\ (other <> effect ->
      CharacterStats.status_effects s1 !! other
      = CharacterStats.status_effects s !! other)
  /\ CharacterStats.set_status_effects s1 (CharacterStats.status_effects s)
     = s
  /\ CharacterStats.apply_status_effect s1 effect d2
     = CharacterStats.apply_status_effect s effect (Z.max d1 d2)
  /\ (other <> effect ->
      CharacterStats.apply_status_effect s1 other d2
      = CharacterStats.apply_status_effect
          (CharacterStats.apply_status_effect s other d2) effect d1).
Proof.
  intros s1. unfold s1, CharacterStats.apply_status_effect.
  destruct s as [h mh m mm pd md sp dg cc cd res se pb]. simpl.
  split; [|split; [|split; [|split]]].
  - destruct (se !! effect); simpl; apply lookup_insert_eq.
  - intros Hne. destruct (se !! effect); simpl;
      apply lookup_insert_ne; congruence.
  - destruct (se !! effect); reflexivity.
  - destruct (se !! effect) as [c|] eqn:E; simpl;
      rewrite lookup_insert_eq; unfold CharacterStats.set_status_effects;
      simpl; rewrite insert_insert_eq; do 2 f_equal; lia.
  - intros Hne.
    destruct (se !! effect) as [c|] eqn:E; simpl;
      rewrite lookup_insert_ne by congruence;
      destruct (se !! other) as [c'|] eqn:E'; simpl;
      rewrite lookup_insert_ne by congruence; rewrite E;
      unfold CharacterStats.set_status_effects; simpl;
      f_equal; apply insert_insert_ne; congruence.
Qed.

(** The damage the code computes for an effect is its share of
    max_health. *)
Lemma effect_damage_turn_damage (s : CharacterStats.t) (effect : string) :
  match CharacterStats.effect_damage s effect with
  | Some (damage, _) => damage
  | None => 0
  end = turn_damage s effect.
Proof.
  assert (Hint : forall percent : positive,
    Py.int (inject_Z (CharacterStats.max_health s) * (Zpos percent # 100))%Q
    = Z.quot (CharacterStats.max_health s * Zpos percent) 100).
  { intros percent. unfold Py.int. simpl. reflexivity. }
  unfold CharacterStats.effect_damage, turn_damage, damage_percent.
  cbn [List.find fst].
  rewrite (String.eqb_sym "Bleeding"), (String.eqb_sym "Poisoned"),
    (String.eqb_sym "Burning").
  destruct (String.eqb effect "Bleeding"); [rewrite Hint; reflexivity|].
  destruct (String.eqb effect "Poisoned"); [rewrite Hint; reflexivity|].
  destruct (String.eqb effect "Burning"); [rewrite Hint; reflexivity|].
  reflexivity.
Qed.

Lemma process_effect_spec (effect : string) (turns : Z)
    (s : CharacterStats.t) (messages removed : list string) :
  exists s' messages',
    CharacterStats.process_effect effect turns (s, messages, removed)
    = (s', messages',
       if turns - 1 <=? 0 then removed ++ [effect] else removed)
    /\ CharacterStats.max_health s' = CharacterStats.max_health s
    /\ CharacterStats.health s' = CharacterStats.health s - turn_damage s effect
    /\ CharacterStats.status_effects s'
       = <[effect := turns - 1]> (CharacterStats.status_effects s).
Proof.
  rewrite <- effect_damage_turn_damage.
  unfold CharacterStats.process_effect.
  destruct (CharacterStats.effect_damage s effect) as [[damage message]|];
    destruct (turns - 1 <=? 0); do 2 eexists;
    (split; [reflexivity|]); simpl; repeat split; lia.
Qed.

Lemma turn_damage_max_health (s1 s2 : CharacterStats.t) (effect : string) :
  CharacterStats.max_health s1 = CharacterStats.max_health s2 ->
  turn_damage s1 effect = turn_damage s2 effect.
Proof.
  intros H. unfold turn_damage. rewrite H. reflexivity.
Qed.

Lemma lookup_delete_all (m : gmap string Z) (removed : list string)
    (effect : string) :
  foldl (fun m e => delete e m) m removed !! effect
  = if decide (effect ∈ removed) then None else m !! effect.
Proof.
  revert m. induction removed as [|e rest IH]; intros m.
  - case_decide as H; [apply not_elem_of_nil in H; contradiction|].
    reflexivity.
  - cbn [foldl]. rewrite IH.
    destruct (decide (effect ∈ rest)) as [Hin|Hout].
    + case_decide as H; [reflexivity|]. exfalso. apply H. right. exact Hin.
    + destruct (decide (effect = e)) as [->|Hne].
      * case_decide as H; [|exfalso; apply H; left].
        apply lookup_delete_eq.
      * case_decide as H.
        -- apply elem_of_cons in H as [?|?]; contradiction.
        -- apply lookup_delete_ne. congruence.
Qed.

(** The loop of [process_status_effects] over keys that are all present. *)
Lemma status_loop (order : list string) (s : CharacterStats.t)
    (messages removed : list string) :
  NoDup order ->
  (forall e, e ∈ order -> is_Some (CharacterStats.status_effects s !! e)) ->
  exists s' messages' removed',
    foldl (fun st effect =>
             match CharacterStats.status_effects st.1.1 !! effect with
             | Some turns => CharacterStats.process_effect effect turns st
             | None => st
             end)
          (s, messages, removed) order
    = (s', messages', removed')
    /\ CharacterStats.max_health s' = CharacterStats.max_health s
    /\ CharacterStats.health s'
       = CharacterStats.health s
         - foldr (fun e acc => turn_damage s e + acc) 0 order
    /\ (forall e,
          CharacterStats.status_effects s' !! e
          = if decide (e ∈ order)
            then (fun t => t - 1) <$> CharacterStats.status_effects s !! e
            else CharacterStats.status_effects s !! e)
    /\ (forall e,
          e ∈ removed' <->
          e ∈ removed
          \/ (e ∈ order
              /\ exists t, CharacterStats.status_effects s !! e = Some t
                           /\ t - 1 <= 0)).
Proof.
  revert s messages removed.
  induction order as [|effect rest IH]; intros s messages removed Hnd Hall.
  - do 3 eexists. split; [reflexivity|].
    split; [reflexivity|]. split; [simpl; lia|]. split.
    + intros e. case_decide as H; [|reflexivity].
      apply not_elem_of_nil in H. contradiction.
    + intros e. split; [auto|].
      intros [H|[H _]]; [exact H|]. apply not_elem_of_nil in H. contradiction.
  - apply NoDup_cons in Hnd as [Hfresh Hnd].
    destruct (Hall effect) as [turns Ht]; [left|].
    cbn [foldl fst]. rewrite Ht.
    destruct (process_effect_spec effect turns s messages removed)
      as (s1 & messages1 & -> & Hmh1 & Hh1 & Hse1).
    destruct (IH s1 messages1
                (if turns - 1 <=? 0 then removed ++ [effect] else removed)
                Hnd) as (s' & messages' & removed' & Hrun & Hmh & Hh & Hse & Hrm).
    { intros e He. rewrite Hse1.
      destruct (decide (e = effect)) as [->|Hne]; [contradiction|].
      rewrite lookup_insert_ne by congruence. apply Hall. right. exact He. }
    exists s', messages', removed'. split; [exact Hrun|].
    split; [congruence|]. split.
    { rewrite Hh, Hh1.
      assert (Hsum :
        foldr (fun e acc => turn_damage s1 e + acc) 0 rest
        = foldr (fun e acc => turn_damage s e + acc) 0 rest).
      { clear -Hmh1. induction rest as [|e rest IHr]; simpl; [reflexivity|].
        rewrite IHr, (turn_damage_max_health s1 s e Hmh1). reflexivity. }
      rewrite Hsum. cbn [foldr]. lia. }
    split.
    { intros e. rewrite Hse, Hse1.
      destruct (decide (e = effect)) as [->|Hne].
      - rewrite decide_False by exact Hfresh.
        rewrite decide_True by left.
        rewrite lookup_insert_eq, Ht. reflexivity.
      - rewrite lookup_insert_ne by congruence.
        destruct (decide (e ∈ rest)) as [Hin|Hout].
        + rewrite decide_True by (right; exact Hin). reflexivity.
        + rewrite decide_False; [reflexivity|].
          intros Hin. apply elem_of_cons in Hin as [?|?]; contradiction. }
    intros e. rewrite Hrm, Hse1. split.
    + intros [Hin|[Hin (t & Hl & Hle)]].
      * destruct (turns - 1 <=? 0) eqn:E; [|auto].
        apply elem_of_app in Hin as [Hin|Hin]; [auto|].
        apply list_elem_of_singleton in Hin as ->.
        right. split; [left|]. exists turns. split; [exact Ht|].
        apply Z.leb_le. exact E.
      * right. split; [right; exact Hin|].
        assert (Hne : e <> effect) by (intros ->; contradiction).
        rewrite lookup_insert_ne in Hl by congruence. eauto.
    + intros [Hin|[Hin (t & Hl & Hle)]].
      * left. destruct (turns - 1 <=? 0); [|exact Hin].
        apply elem_of_app. left. exact Hin.
      * apply elem_of_cons in Hin as [->|Hin].
        -- left. rewrite Ht in Hl. injection Hl as <-.
           assert (E : (turns - 1 <=? 0) = true) by (apply Z.leb_le; exact Hle).
           rewrite E. apply elem_of_app. right. left.
        -- right. split; [exact Hin|].
           assert (Hne : e <> effect) by (intros ->; contradiction).
           rewrite lookup_insert_ne by congruence. eauto.
Qed.

(** X9. One call of [process_status_effects] takes one turn off every
    status effect and drops the effects that have no turn left; the
    health falls by the damage of each effect present and is not
    bounded below; max_health stays.  The damage of Bleeding, Poisoned
    and Burning is 5%, 3% and 7% of max_health, cut to an integer
    toward zero, and at least 1; any other effect costs nothing. *)
Theorem status_effects_tick (s : CharacterStats.t) (order : list string) :
  keys_in_order (CharacterStats.status_effects s) order ->
  let s' := (CharacterStats.process_status_effects s order).1 in
  CharacterStats.status_effects s'
  = effects_after_turn (CharacterStats.status_effects s)
  /\ CharacterStats.health s'
     = CharacterStats.health s
       - foldr (fun e acc => turn_damage s e + acc) 0 order
  /\ CharacterStats.max_health s' = CharacterStats.max_health s
  /\ turn_damage s "Bleeding"
     = Z.max 1 (Z.quot (CharacterStats.max_health s * 5) 100)
  /\ turn_damage s "Poisoned"
     = Z.max 1 (Z.quot (CharacterStats.max_health s * 3) 100)
  /\ turn_damage s "Burning"
     = Z.max 1 (Z.quot (CharacterStats.max_health s * 7) 100)
  /\ (forall e,
        e <> "Bleeding" -> e <> "Poisoned" -> e <> "Burning" ->
        turn_damage s e = 0).
Proof.
  intros [Hnd Hkeys] s'. unfold s', CharacterStats.process_status_effects.
  destruct (status_loop order s [] [] Hnd) as
    (s1 & messages1 & removed1 & -> & Hmh & Hh & Hse & Hrm).
  { intros e He. apply Hkeys. exact He. }
  simpl. split; [|split; [exact Hh|split; [exact Hmh|]]].
  - apply map_eq. intros e.
    rewrite lookup_delete_all, Hse. unfold effects_after_turn.
    rewrite lookup_omap.
    destruct (CharacterStats.status_effects s !! e) as [t|] eqn:El.
    + assert (Hin : e ∈ order) by (apply Hkeys; eauto).
      rewrite (decide_True _ _ Hin). simpl.
      destruct (t - 1 <=? 0) eqn:E.
      * rewrite decide_True; [reflexivity|].
        apply Hrm. right. split; [exact Hin|].
        exists t. split; [exact El|]. apply Z.leb_le. exact E.
      * rewrite decide_False; [reflexivity|].
        intros Hr. apply Hrm in Hr as [Hr|[_ (t' & Ht' & Hle)]].
        -- apply not_elem_of_nil in Hr. exact Hr.
        -- rewrite El in Ht'. injection Ht' as <-. apply Z.leb_gt in E. lia.
    + assert (Hout : e ∉ order).
      { intros Hin. apply Hkeys in Hin as [t Ht]. congruence. }
      rewrite (decide_False _ _ Hout). simpl.
      destruct (decide (e ∈ removed1)); reflexivity.
  - split; [reflexivity|]. split; [reflexivity|]. split; [reflexivity|].
    intros e H1 H2 H3. unfold turn_damage, damage_percent.
    cbn [List.find fst].
    apply String.eqb_neq in H1, H2, H3.
    rewrite (String.eqb_sym "Bleeding"), (String.eqb_sym "Poisoned"),
      (String.eqb_sym "Burning"), H1, H2, H3.
    reflexivity.
Qed.

Lemma status_effects_tick_witness :
  let s' :=
    (CharacterStats.process_status_effects bleeding_stats
       ["Bleeding"; "Stunned"]).1 in
  CharacterStats.status_effects s'
  = effects_after_turn (CharacterStats.status_effects bleeding_stats)
  /\ CharacterStats.health s'
     = CharacterStats.health bleeding_stats
       - foldr (fun e acc => turn_damage bleeding_stats e + acc) 0
           ["Bleeding"; "Stunned"]
  /\ CharacterStats.max_health s' = CharacterStats.max_health bleeding_stats
  /\ turn_damage bleeding_stats "Bleeding"
     = Z.max 1 (Z.quot (CharacterStats.max_health bleeding_stats * 5) 100)
  /\ turn_damage bleeding_stats "Poisoned"
     = Z.max 1 (Z.quot (CharacterStats.max_health bleeding_stats * 3) 100)
  /\ turn_damage bleeding_stats "Burning"
     = Z.max 1 (Z.quot (CharacterStats.max_health bleeding_stats * 7) 100)
  /\ (forall e,
        e <> "Bleeding" -> e <> "Poisoned" -> e <> "Burning" ->
        turn_damage bleeding_stats e = 0).
Proof.
  apply (status_effects_tick bleeding_stats ["Bleeding"; "Stunned"]).
  split.
  - apply NoDup_cons. split; [|apply NoDup_singleton].
    intros H. apply list_elem_of_singleton in H. discriminate.
  - assert (Hm : CharacterStats.status_effects bleeding_stats
                 = <["Stunned" := 1]> (<["Bleeding" := 2]> ∅))
      by reflexivity.
    intros effect. rewrite Hm. split.
    + intros Hin.
      apply elem_of_cons in Hin as [->|Hin]; [eexists; reflexivity|].
      apply list_elem_of_singleton in Hin as ->. eexists. reflexivity.
    + intros [t Ht].
      destruct (decide (effect = "Stunned")) as [->|H1]; [right; left|].
      rewrite lookup_insert_ne in Ht by congruence.
      destruct (decide (effect = "Bleeding")) as [->|H2]; [left|].
      rewrite lookup_insert_ne in Ht by congruence.
      rewrite lookup_empty in Ht. discriminate.
Defined.

(** The example in numbers: 5 health lost to Bleeding, which stays for
    one more turn, while Stunned wears off. *)
Example bleeding_tick_example :
  let r := CharacterStats.process_status_effects bleeding_stats
             ["Bleeding"; "Stunned"] in
  CharacterStats.health r.1 = 95
  /\ CharacterStats.status_effects r.1 !! "Bleeding" = Some 1
  /\ CharacterStats.status_effects r.1 !! "Stunned" = None
  /\ r.2 = ["Suffered 5 bleeding damage"; "Stunned effect has worn off"].
Proof. vm_compute. repeat split. Qed.

(** ** Character: rolling a die *)

(** X10. [roll_die] touches one die: the dice lists keep their lengths,
    every die but the one rolled is as before, and the character's own
    level, xp and threshold never change (a roll gives xp to the die,
    not to the character). *)
Theorem roll_die_touches_one_die (other_attribute : string -> bool)
    (c c' : Character.t) (dice_type : DiceType) (index : Z) (g g' : Rng)
    (v : option Character.roll_result * string) :
  Character.roll_die other_attribute c dice_type index g = Ok (c', v, g') ->
  (forall ty,
      length (DiceSet.get_dice_list (Character.dice_set c') ty)
      = length (DiceSet.get_dice_list (Character.dice_set c) ty))
  /\ (forall ty j,
        ty <> dice_type \/ j <> Z.to_nat index ->
        DiceSet.get_dice_list (Character.dice_set c') ty !! j
        = DiceSet.get_dice_list (Character.dice_set c) ty !! j)
  /\ Character_progress c' = Character_progress c
  /\ Character.name c' = Character.name c.
Proof.
  unfold Character.roll_die. intros H.
  destruct ((index <? 0) || _) eqn:Erange.
  { injection H as <- _ _. repeat split; auto. }
  destruct (Py.getitem _ index) as [die|e]; [|discriminate].
  cbn [mbind result_bind] in H.
  destruct (Dice.roll die g) as [[[die' [[res message] effects]] g1]|e];
    [|discriminate].
  cbn [mbind result_bind] in H.
  set (c1 := Character.set_dice_set c _) in H.
  assert (Hds : forall ty j,
    DiceSet.get_dice_list (Character.dice_set c1) ty !! j
    = if decide (dice_type = ty)
      then <[Z.to_nat index := die']>
             (DiceSet.get_dice_list (Character.dice_set c) dice_type) !! j
      else DiceSet.get_dice_list (Character.dice_set c) ty !! j).
  { intros ty j. unfold c1. simpl. rewrite get_set_dice_list.
    destruct (decide (dice_type = ty)); reflexivity. }
  assert (Hframe :
    (forall ty,
        length (DiceSet.get_dice_list (Character.dice_set c1) ty)
        = length (DiceSet.get_dice_list (Character.dice_set c) ty))
    /\ (forall ty j,
          ty <> dice_type \/ j <> Z.to_nat index ->
          DiceSet.get_dice_list (Character.dice_set c1) ty !! j
          = DiceSet.get_dice_list (Character.dice_set c) ty !! j)).
  { split.
    - intros ty. unfold c1. simpl. rewrite get_set_dice_list.
      destruct (decide (dice_type = ty)) as [<-|]; [|reflexivity].
      apply length_insert.
    - intros ty j Hj. rewrite Hds.
      destruct (decide (dice_type = ty)) as [<-|]; [|reflexivity].
      destruct Hj as [Hj|Hj]; [contradiction|].
      apply list_lookup_insert_ne. congruence. }
  destruct Hframe as [Hlen Hother].
  destruct res as [face|].
  - destruct (match DiceFace.category face with
              | TRAIT => _ | _ => _ end) as [[s m]|e]; [|discriminate].
    cbn [mbind result_bind] in H. injection H as <- _ _.
    repeat split; auto.
  - injection H as <- _ _. repeat split; auto.
Qed.

Lemma roll_die_touches_one_die_witness :
  exists c',
    (forall ty,
        length (DiceSet.get_dice_list (Character.dice_set c') ty)
        = length (DiceSet.get_dice_list
                    (Character.dice_set
                       (CombatSystem.player (duel heavy_strike))) ty))
    /\ (forall ty j,
          ty <> COMBAT \/ j <> Z.to_nat 0 ->
          DiceSet.get_dice_list (Character.dice_set c') ty !! j
          = DiceSet.get_dice_list
              (Character.dice_set (CombatSystem.player (duel heavy_strike)))
              ty !! j)
    /\ Character_progress c'
       = Character_progress (CombatSystem.player (duel heavy_strike))
    /\ Character.name c'
       = Character.name (CombatSystem.player (duel heavy_strike)).
Proof.
  eexists.
  eapply (roll_die_touches_one_die fields_only
            (CombatSystem.player (duel heavy_strike)) _ COMBAT 0 fixed_rng).
  vm_compute. reflexivity.
Defined.

(** X11. A roll that gives a face puts the name of the face at the end
    of the history of active faces and keeps at most the last 10
    names: the history then has min(10, old length + 1) names, however
    long it was.  A roll that gives no face leaves the history alone. *)
Theorem active_faces_keep_last_ten (other_attribute : string -> bool)
    (c c' : Character.t) (dice_type : DiceType) (index : Z) (g g' : Rng)
    (v : option Character.roll_result) (msg : string) :
  Character.roll_die other_attribute c dice_type index g
  = Ok (c', (v, msg), g') ->
  match v with
  | Some rr =>
    last (Character.active_faces c') = Some (Character.rr_name rr)
    /\ Character.active_faces c'
       `suffix_of` Character.active_faces c ++ [Character.rr_name rr]
    /\ length (Character.active_faces c')
       = Nat.min 10 (S (length (Character.active_faces c)))
  | None => Character.active_faces c' = Character.active_faces c
  end.
Proof.
  unfold Character.roll_die. intros H.
  destruct ((index <? 0) || _) eqn:Erange.
  { injection H as <- <- _ _. reflexivity. }
  destruct (Py.getitem _ index) as [die|e]; [|discriminate].
  cbn [mbind result_bind] in H.
  destruct (Dice.roll die g) as [[[die' [[res message] effects]] g1]|e];
    [|discriminate].
  cbn [mbind result_bind] in H.
  destruct res as [face|]; [|injection H as <- <- _ _; reflexivity].
  destruct (match DiceFace.category face with
            | TRAIT => _ | _ => _ end) as [[s m]|e]; [|discriminate].
  cbn [mbind result_bind] in H. injection H as <- <- _ _.
  cbn [Character.active_faces Character.set_active_faces Character.set_stats
       Character.set_dice_set Character.rr_name].
  set (af := Character.active_faces c ++ [DiceFace.name face]).
  assert (Hlen : length af = S (length (Character.active_faces c))).
  { unfold af. rewrite length_app. simpl. lia. }
  assert (Hlast : last af = Some (DiceFace.name face)).
  { unfold af. apply last_snoc. }
  unfold Py.len.
  destruct (Z.of_nat (length af) >? 10) eqn:E.
  - apply Z.gtb_lt in E.
    split; [|split].
    + rewrite <- Hlast. rewrite !last_lookup. rewrite lookup_drop.
      rewrite length_drop. f_equal. lia.
    + apply suffix_drop.
    + rewrite length_drop. lia.
  - rewrite Z.gtb_ltb in E. apply Z.ltb_ge in E.
    split; [exact Hlast|]. split; [reflexivity|]. lia.
Qed.

Lemma active_faces_keep_last_ten_witness :
  exists c' rr,
    last (Character.active_faces c') = Some (Character.rr_name rr)
    /\ Character.active_faces c'
       `suffix_of` Character.active_faces
                     (CombatSystem.player (duel heavy_strike))
                   ++ [Character.rr_name rr]
    /\ length (Character.active_faces c')
       = Nat.min 10
           (S (length (Character.active_faces
                         (CombatSystem.player (duel heavy_strike))))).
Proof.
  eexists. eexists.
  eapply (active_faces_keep_last_ten fields_only
            (CombatSystem.player (duel heavy_strike)) _ COMBAT 0 fixed_rng _
            (Some _)).
  vm_compute. reflexivity.
Defined.

(** ** Combat: what a player's turn leaves alone *)

(** A target index out of range, as the negation of being in range. *)
Lemma invalid_target_turn (other_attribute : string -> bool)
    (w : CombatSystem.world) (dice_type : DiceType)
    (dice_index target_index : Z) :
  ~ 0 <= target_index < Py.len (CombatSystem.enemies w) ->
  CombatSystem.player_turn other_attribute w dice_type dice_index
    target_index
  = Ok (w, invalid_target).
Proof.
  intros H. unfold CombatSystem.player_turn.
  destruct (CombatSystem.enemies w) as [|e es] eqn:Ee; [reflexivity|].
  assert (E : (target_index <? 0) || (target_index >=? Py.len (e :: es))
              = true).
  { apply orb_true_iff.
    destruct (decide (target_index < 0)); [left; apply Z.ltb_lt; lia|].
    right. apply Z.geb_le. lia. }
  rewrite E. reflexivity.
Qed.

(** The three ways a turn can end. *)
Lemma player_turn_cases (other_attribute : string -> bool)
    (w w' : CombatSystem.world) (dice_type : DiceType)
    (dice_index target_index : Z) (r : CombatSystem.CombatResult) :
  CombatSystem.player_turn other_attribute w dice_type dice_index target_index
  = Ok (w', r) ->
  (~ 0 <= target_index < Py.len (CombatSystem.enemies w)
   /\ w' = w /\ r = invalid_target)
  \/ (0 <= target_index < Py.len (CombatSystem.enemies w)
      /\ exists p' msg g1,
           Character.roll_die other_attribute (CombatSystem.player w)
             dice_type dice_index (CombatSystem.rng w)
           = Ok (p', (None, msg), g1)
           /\ w' = {| CombatSystem.log :=
                        CombatSystem.log w
                        ++ ["Player rolled but got no result: " +:+ msg];
                      CombatSystem.player := p';
                      CombatSystem.enemies := CombatSystem.enemies w;
                      CombatSystem.rng := g1 |}
           /\ r = failed_roll msg)
  \/ (0 <= target_index < Py.len (CombatSystem.enemies w)
      /\ exists target p' rr msg g1 log2 p2 t2 g2,
           CombatSystem.enemies w !! Z.to_nat target_index = Some target
           /\ Character.roll_die other_attribute (CombatSystem.player w)
                dice_type dice_index (CombatSystem.rng w)
              = Ok (p', (Some rr, msg), g1)
           /\ CombatSystem._process_player_action (CombatSystem.log w) p'
                target rr g1 = (log2, p2, t2, r, g2)
           /\ w' = {| CombatSystem.log := log2; CombatSystem.player := p2;
                      CombatSystem.enemies :=
                        <[Z.to_nat target_index := t2]>
                          (CombatSystem.enemies w);
                      CombatSystem.rng := g2 |}).
Proof.
  intros H.
  destruct (decide (0 <= target_index < Py.len (CombatSystem.enemies w)))
    as [Hin|Hout].
  - right.
    destruct (CombatSystem.enemies w !! Z.to_nat target_index)
      as [target|] eqn:Hl.
    2:{ apply lookup_ge_None in Hl. unfold Py.len in Hin. lia. }
    destruct (Character.roll_die other_attribute (CombatSystem.player w)
                dice_type dice_index (CombatSystem.rng w))
      as [[[p' [[rr|] msg]] g1]|e] eqn:Hr.
    + right. split; [exact Hin|].
      rewrite (player_turn_resolves other_attribute w dice_type dice_index
                 target_index target p' rr msg g1 (proj1 Hin) Hl Hr) in H.
      destruct (CombatSystem._process_player_action _ _ _ _ _)
        as [[[[log2 p2] t2] r2] g2] eqn:Hp.
      injection H as <- <-.
      exists target, p', rr, msg, g1, log2, p2, t2, g2. auto.
    + left. split; [exact Hin|].
      unfold CombatSystem.player_turn in H.
      destruct (CombatSystem.enemies w) as [|e0 es] eqn:Ee;
        [simpl in Hl; discriminate|].
      assert (E : (target_index <? 0) || (target_index >=? Py.len (e0 :: es))
                  = false).
      { apply orb_false_iff. split; [apply Z.ltb_ge; lia|].
        rewrite Z.geb_leb. apply Z.leb_gt. lia. }
      rewrite E, Hr in H. cbn [mbind result_bind] in H.
      injection H as <- <-. exists p', msg, g1. auto.
    + unfold CombatSystem.player_turn in H.
      destruct (CombatSystem.enemies w) as [|e0 es] eqn:Ee;
        [simpl in Hl; discriminate|].
      assert (E : (target_index <? 0) || (target_index >=? Py.len (e0 :: es))
                  = false).
      { apply orb_false_iff. split; [apply Z.ltb_ge; lia|].
        rewrite Z.geb_leb. apply Z.leb_gt. lia. }
      rewrite E, Hr in H. discriminate.
  - left. split; [exact Hout|].
    rewrite (invalid_target_turn other_attribute w dice_type
               dice_index target_index Hout) in H.
    injection H as <- <-. auto.
Qed.

(** What processing a face does to the log and to the target. *)
Lemma process_action_frame (log : list string) (p : Character.t)
    (t : Enemy.t) (rr : Character.roll_result) (g : Rng)
    (log2 : list string) (p2 : Character.t) (t2 : Enemy.t)
    (r : CombatSystem.CombatResult) (g2 : Rng) :
  CombatSystem._process_player_action log p t rr g = (log2, p2, t2, r, g2) ->
  (exists entry, log2 = log ++ [entry])
  /\ t2 = Enemy.set_health t (Enemy.health t2)
  /\ CombatSystem.success r = true
  /\ (if CombatSystem.target_defeated r
      then Enemy.health t2 = 0
      else Enemy.health t2 = Enemy.health t \/ 0 < Enemy.health t2).
Proof.
  unfold CombatSystem._process_player_action. intros H.
  destruct (String.eqb (Character.rr_category rr) "COMBAT").
  - unfold CombatSystem._handle_combat_face, random.random in H.
    cbv zeta in H.
    set (damage := if Py.lt _ _ then _ else _) in H.
    cbn [Enemy.health Enemy.set_health] in H.
    destruct (Enemy.health t - damage <=? 0) eqn:E;
      injection H as <- <- <- <- <-; cbn.
    + split; [eexists; reflexivity|]. split; [destruct t; reflexivity|].
      split; reflexivity.
    + apply Z.leb_gt in E.
      split; [eexists; reflexivity|]. split; [destruct t; reflexivity|].
      split; [reflexivity|]. right. exact E.
  - destruct (String.eqb (Character.rr_category rr) "EFFECT").
    + unfold CombatSystem._handle_effect_face, CombatSystem._handle_healing,
        CombatSystem._handle_status_effect in H.
      repeat (destruct (Py.contains _ _) in H);
        injection H as <- <- <- <- <-; cbn;
        (split; [eexists; reflexivity|]);
        (split; [destruct t; reflexivity|]);
        (split; [reflexivity|]); left; reflexivity.
    + injection H as <- <- <- <- <-. cbn.
      split; [eexists; reflexivity|]. split; [destruct t; reflexivity|].
      split; [reflexivity|]. left. reflexivity.
Qed.

(** X12. Whatever a player's turn does, it keeps the number of enemies
    and every enemy but the target; of the target it can only change
    the health.  If the result says the target is defeated the target's
    health is 0 and the target index was in range; if not, the
    target's health is as before or still positive. *)
Theorem player_turn_spares_the_rest (other_attribute : string -> bool)
    (w w' : CombatSystem.world) (dice_type : DiceType)
    (dice_index target_index : Z) (r : CombatSystem.CombatResult) :
  CombatSystem.player_turn other_attribute w dice_type dice_index target_index
  = Ok (w', r) ->
  length (CombatSystem.enemies w') = length (CombatSystem.enemies w)
  /\ (forall j,
        j <> Z.to_nat target_index ->
        CombatSystem.enemies w' !! j = CombatSystem.enemies w !! j)
  /\ (forall t,
        CombatSystem.enemies w !! Z.to_nat target_index = Some t ->
        exists t',
          CombatSystem.enemies w' !! Z.to_nat target_index = Some t'
          /\ t' = Enemy.set_health t (Enemy.health t')
          /\ (if CombatSystem.target_defeated r
              then Enemy.health t' = 0
              else Enemy.health t' = Enemy.health t \/ 0 < Enemy.health t'))
  /\ (CombatSystem.target_defeated r = true ->
      0 <= target_index < Py.len (CombatSystem.enemies w)).
Proof.
  intros H.
  apply player_turn_cases in H
    as [(Hout & -> & ->) | [(Hin & p' & msg & g1 & _ & -> & ->)
       | (Hin & target & p' & rr & msg & g1 & log2 & p2 & t2 & g2
          & Hl & _ & Hp & ->)]].
  - split; [reflexivity|]. split; [reflexivity|]. split; [|discriminate].
    intros t Ht. exists t. split; [exact Ht|]. simpl.
    split; [destruct t; reflexivity|left; reflexivity].
  - simpl. split; [reflexivity|]. split; [reflexivity|].
    split; [|discriminate].
    intros t Ht. exists t. split; [exact Ht|].
    split; [destruct t; reflexivity|left; reflexivity].
  - apply process_action_frame in Hp as (_ & Ht2 & _ & Hhealth).
    simpl. split; [apply length_insert|].
    split; [intros j Hj; apply list_lookup_insert_ne; congruence|].
    split; [|intros _; exact Hin].
    intros t Ht. rewrite Hl in Ht. injection Ht as <-.
    exists t2. split; [|auto].
    apply list_lookup_insert_eq. eapply lookup_lt_Some. exact Hl.
Qed.

Lemma player_turn_spares_the_rest_witness :
  exists w' r,
    length (CombatSystem.enemies w')
    = length (CombatSystem.enemies (duel heavy_strike))
    /\ (forall j,
          j <> Z.to_nat 0 ->
          CombatSystem.enemies w' !! j
          = CombatSystem.enemies (duel heavy_strike) !! j)
    /\ (forall t,
          CombatSystem.enemies (duel heavy_strike) !! Z.to_nat 0 = Some t ->
          exists t',
            CombatSystem.enemies w' !! Z.to_nat 0 = Some t'
            /\ t' = Enemy.set_health t (Enemy.health t')
            /\ (if CombatSystem.target_defeated r
                then Enemy.health t' = 0
                else Enemy.health t' = Enemy.health t \/ 0 < Enemy.health t'))
    /\ (CombatSystem.target_defeated r = true ->
        0 <= 0 < Py.len (CombatSystem.enemies (duel heavy_strike))).
Proof.
  eexists. eexists.
  eapply (player_turn_spares_the_rest fields_only (duel heavy_strike) _
            COMBAT 0 0).
  vm_compute. reflexivity.
Defined.

(** X13. A player's turn only ever adds to the combat log, and adds one
    line exactly when the target index is in range: a turn with an
    invalid target is not logged, every other turn is, whether the
    roll gave a face or not. *)
Theorem player_turn_logs_one_line (other_attribute : string -> bool)
    (w w' : CombatSystem.world) (dice_type : DiceType)
    (dice_index target_index : Z) (r : CombatSystem.CombatResult) :
  CombatSystem.player_turn other_attribute w dice_type dice_index target_index
  = Ok (w', r) ->
  if decide (0 <= target_index < Py.len (CombatSystem.enemies w))
  then exists entry, CombatSystem.log w' = CombatSystem.log w ++ [entry]
  else CombatSystem.log w' = CombatSystem.log w.
Proof.
  intros H.
  apply player_turn_cases in H
    as [(Hout & -> & ->) | [(Hin & p' & msg & g1 & _ & -> & ->)
       | (Hin & target & p' & rr & msg & g1 & log2 & p2 & t2 & g2
          & Hl & _ & Hp & ->)]].
  - rewrite decide_False by exact Hout. reflexivity.
  - rewrite decide_True by exact Hin. simpl. eauto.
  - rewrite decide_True by exact Hin. simpl.
    apply process_action_frame in Hp as (Hlog & _). exact Hlog.
Qed.

Lemma player_turn_logs_one_line_witness :
  exists w' entry,
    CombatSystem.log w' = CombatSystem.log (duel poison_blade) ++ [entry].
Proof.
  eexists.
  eapply (player_turn_logs_one_line fields_only (duel poison_blade) _
            COMBAT 0 0).
  vm_compute. reflexivity.
Defined.

Lemma set_dice_list_same (ds : DiceSet.t) (ty : DiceType) :
  DiceSet.set_dice_list ds ty (DiceSet.get_dice_list ds ty) = ds.
Proof. destruct ds, ty; reflexivity. Qed.

Lemma set_dice_set_same (c : Character.t) :
  Character.set_dice_set c (Character.dice_set c) = c.
Proof. destruct c. reflexivity. Qed.

(** X14. With a target in range, a turn whose die index is out of range,
    or whose die has no face, fails with the message
    "Invalid die selection" or "Die has no faces!" and changes nothing
    but the log, which gets one line: the player, every die (a cooldown
    of the faceless die included), the enemies and the random source
    are as before. *)
Theorem player_turn_without_a_roll (other_attribute : string -> bool)
    (w : CombatSystem.world) (dice_type : DiceType)
    (dice_index target_index : Z) :
  0 <= target_index < Py.len (CombatSystem.enemies w) ->
  let dice_list :=
    DiceSet.get_dice_list (Character.dice_set (CombatSystem.player w))
      dice_type in
  (~ 0 <= dice_index < Py.len dice_list ->
   CombatSystem.player_turn other_attribute w dice_type dice_index
     target_index
   = Ok (logged_failure w "Invalid die selection",
         failed_roll "Invalid die selection"))
  /\ (forall die,
        0 <= dice_index ->
        dice_list !! Z.to_nat dice_index = Some die ->
        Dice.faces die = [] ->
        CombatSystem.player_turn other_attribute w dice_type dice_index
          target_index
        = Ok (logged_failure w "Die has no faces!",
              failed_roll "Die has no faces!")).
Proof.
  intros Hin dice_list.
  assert (Hturn : forall msg,
    Character.roll_die other_attribute (CombatSystem.player w) dice_type
      dice_index (CombatSystem.rng w)
    = Ok (CombatSystem.player w, (None, msg), CombatSystem.rng w) ->
    CombatSystem.player_turn other_attribute w dice_type dice_index
      target_index
    = Ok (logged_failure w msg, failed_roll msg)).
  { intros msg Hr. unfold CombatSystem.player_turn.
    destruct (CombatSystem.enemies w) as [|e0 es] eqn:Ee;
      [unfold Py.len in Hin; simpl in Hin; lia|].
    assert (E : (target_index <? 0) || (target_index >=? Py.len (e0 :: es))
                = false).
    { apply orb_false_iff. split; [apply Z.ltb_ge; lia|].
      rewrite Z.geb_leb. apply Z.leb_gt. lia. }
    rewrite E, Hr. cbn [mbind result_bind].
    unfold logged_failure. rewrite Ee. reflexivity. }
  split.
  - intros Hout. apply Hturn. unfold Character.roll_die. fold dice_list.
    assert (E : (dice_index <? 0) || (dice_index >=? Py.len dice_list) = true).
    { apply orb_true_iff.
      destruct (decide (dice_index < 0)); [left; apply Z.ltb_lt; lia|].
      right. apply Z.geb_le. lia. }
    rewrite E. reflexivity.
  - intros die H0 Hl Hf. apply Hturn. unfold Character.roll_die.
    fold dice_list.
    pose proof (lookup_lt_Some _ _ _ Hl) as Hlt.
    assert (E : (dice_index <? 0) || (dice_index >=? Py.len dice_list) = false).
    { apply orb_false_iff. split; [apply Z.ltb_ge; lia|].
      rewrite Z.geb_leb. apply Z.leb_gt. unfold Py.len. lia. }
    rewrite E. unfold Py.getitem.
    assert (E2 : (0 <=? dice_index) && (dice_index <? Py.len dice_list) = true).
    { rewrite in_range_decide. apply bool_decide_eq_true_2.
      unfold Py.len. lia. }
    rewrite E2, Hl. cbn [mbind result_bind].
    unfold Dice.roll. rewrite Hf. cbn [mbind result_bind].
    rewrite list_insert_id by exact Hl.
    unfold dice_list. rewrite set_dice_list_same, set_dice_set_same.
    reflexivity.
Qed.

Lemma player_turn_without_a_roll_witness :
  CombatSystem.player_turn fields_only duel_without_faces COMBAT 0 0
  = Ok (logged_failure duel_without_faces "Die has no faces!",
        failed_roll "Die has no faces!").
Proof.
  apply (proj2 (player_turn_without_a_roll fields_only duel_without_faces
                  COMBAT 0 0 ltac:(vm_compute; split; [discriminate | reflexivity]))
           (Dice.set_cooldown fresh_die 3)).
  - lia.
  - reflexivity.
  - reflexivity.
Defined.

(** ** An enemy's turn *)

(** X15. An enemy's turn never fails, draws two numbers from the random
    source (the variance of the damage is drawn before the dodge is
    tested), and adds the message of its result as one line to the log.
    When the second number is below the player's dodge the attack
    misses: the player is unchanged and no damage is reported.
    Otherwise only the player's health changes: it drops by the damage
    reported but never below 0, and the player is reported defeated
    exactly when it reaches 0. *)
Theorem enemy_turn_hits_or_misses (log : list string) (enemy : Enemy.t)
    (player : Character.t) (g : Rng) :
  exists player' res g',
    CombatSystem.enemy_turn log enemy player g
    = (log ++ [CombatSystem.message res], player', res, g')
    /\ g' = random.advance (random.advance g)
    /\ CombatSystem.healing_done res = 0
    /\ CombatSystem.status_applied res = None
    /\ CombatSystem.success res
       = negb (Py.lt (rng_float g (S (rng_tick g)))
                 (CharacterStats.dodge (Character.stats player)))
    /\ if CombatSystem.success res then
         let health' :=
           Z.max 0 (CharacterStats.health (Character.stats player)
                    - CombatSystem.damage_dealt res) in
         player'
         = Character.set_stats player
             (CharacterStats.set_health (Character.stats player) health'
                (CharacterStats.max_health (Character.stats player)))
         /\ CombatSystem.target_defeated res = (health' =? 0)
       else
         player' = player
         /\ CombatSystem.damage_dealt res = 0
         /\ CombatSystem.target_defeated res = false.
Proof.
  unfold CombatSystem.enemy_turn, random.uniform, random.random,
    CombatSystem.add_entry.
  cbn [random.advance rng_float rng_tick].
  destruct (Py.lt _ (CharacterStats.dodge _)) eqn:Ed.
  - lazymatch goal with
    | |- exists p r g', (_, ?p0, ?r0, ?g0) = _ /\ _ => exists p0, r0, g0
    end.
    split; [reflexivity|]. split; [reflexivity|].
    cbn. repeat split; reflexivity.
  - set (damage := Py.int _).
    set (h := CharacterStats.health (Character.stats player)).
    cbn [CharacterStats.health CharacterStats.set_health
         CharacterStats.max_health].
    fold h.
    destruct (h - damage <=? 0) eqn:Eh.
    + lazymatch goal with
    | |- exists p r g', (_, ?p0, ?r0, ?g0) = _ /\ _ => exists p0, r0, g0
    end.
      split; [reflexivity|]. split; [reflexivity|].
      cbn [CombatSystem.healing_done CombatSystem.status_applied
           CombatSystem.success CombatSystem.damage_dealt
           CombatSystem.target_defeated negb].
      repeat split; try reflexivity.
      * apply Z.leb_le in Eh. rewrite Z.max_l by lia.
        destruct (Character.stats player); reflexivity.
      * apply Z.leb_le in Eh. rewrite Z.max_l by lia. reflexivity.
    + lazymatch goal with
    | |- exists p r g', (_, ?p0, ?r0, ?g0) = _ /\ _ => exists p0, r0, g0
    end.
      split; [reflexivity|]. split; [reflexivity|].
      cbn [CombatSystem.healing_done CombatSystem.status_applied
           CombatSystem.success CombatSystem.damage_dealt
           CombatSystem.target_defeated negb].
      repeat split; try reflexivity.
      * apply Z.leb_gt in Eh. rewrite Z.max_r by lia. reflexivity.
      * apply Z.leb_gt in Eh. rewrite Z.max_r by lia.
        symmetry. apply Z.eqb_neq. lia.
Qed.

Lemma Qfloor_scaled (d n : Z) (m : positive) :
  Qfloor (inject_Z d * (n # m)) = d * n / Zpos m.
Proof. reflexivity. Qed.

(** X16. The damage of an attack that lands lies within a fifth of the
    enemy's damage: for an enemy of damage [d >= 0] and a random number
    in [0, 1], between [4 * d / 5] and [6 * d / 5] in integer division. *)
Theorem enemy_damage_within_a_fifth (log : list string) (enemy : Enemy.t)
    (player : Character.t) (g : Rng) :
  0 <= Enemy.damage enemy ->
  (0 <= rng_float g (rng_tick g) <= 1)%Q ->
  let res := (CombatSystem.enemy_turn log enemy player g).1.2 in
  CombatSystem.success res = true ->
  4 * Enemy.damage enemy / 5 <= CombatSystem.damage_dealt res
  <= 6 * Enemy.damage enemy / 5.
Proof.
  intros Hd [Hu0 Hu1].
  unfold CombatSystem.enemy_turn, random.uniform, random.random.
  cbn [random.advance rng_float rng_tick].
  set (u := rng_float g (rng_tick g)) in *.
  set (d := Enemy.damage enemy) in *.
  destruct (Py.lt _ (CharacterStats.dodge _)); [discriminate|].
  cbn [fst snd CombatSystem.success CombatSystem.damage_dealt].
  intros _.
  assert (Hd' : (0 <= inject_Z d)%Q).
  { change 0%Q with (inject_Z 0). rewrite <- Zle_Qle. exact Hd. }
  assert (Hlo : (inject_Z d * (4 # 5)
                 <= inject_Z d * ((4 # 5) + ((6 # 5) - (4 # 5)) * u))%Q).
  { rewrite !(Qmult_comm (inject_Z d)).
    apply Qmult_le_compat_r; [|exact Hd'].
    rewrite <- (Qplus_0_r (4 # 5)) at 1.
    apply Qplus_le_r. apply Qmult_le_0_compat; [discriminate|exact Hu0]. }
  assert (Hhi : (inject_Z d * ((4 # 5) + ((6 # 5) - (4 # 5)) * u)
                 <= inject_Z d * (6 # 5))%Q).
  { rewrite !(Qmult_comm (inject_Z d)).
    apply Qmult_le_compat_r; [|exact Hd'].
    apply Qle_trans with ((4 # 5) + ((6 # 5) - (4 # 5)) * 1)%Q;
      [|discriminate].
    apply Qplus_le_r.
    rewrite !(Qmult_comm ((6 # 5) - (4 # 5))).
    apply Qmult_le_compat_r; [exact Hu1|discriminate]. }
  rewrite Py_int_floor.
  2:{ eapply Qle_trans; [|exact Hlo].
      apply Qmult_le_0_compat; [exact Hd'|discriminate]. }
  apply Qfloor_resp_le in Hlo, Hhi.
  rewrite Qfloor_scaled in Hlo, Hhi.
  rewrite (Z.mul_comm 4), (Z.mul_comm 6). split; assumption.
Qed.

Lemma enemy_damage_within_a_fifth_witness :
  4 * 10 / 5
  <= CombatSystem.damage_dealt
       (CombatSystem.enemy_turn [] orc fresh_character fixed_rng).1.2
  <= 6 * 10 / 5.
Proof.
  apply (enemy_damage_within_a_fifth [] orc fresh_character fixed_rng).
  - simpl. lia.
  - split; discriminate.
  - reflexivity.
Defined.

(** ** The combat log *)

Lemma foldl_add_entry {A} (line : A -> string) (xs : list A)
    (log : list string) :
  foldl (fun log x => CombatSystem.add_entry log (line x)) log xs
  = log ++ map line xs.
Proof.
  revert log. induction xs as [|x xs IH]; intros log; simpl.
  - rewrite app_nil_r. reflexivity.
  - rewrite IH. unfold CombatSystem.add_entry. rewrite <- app_assoc.
    reflexivity.
Qed.

(** X17. [get_last_entries] with a positive count returns the last
    [min(count, len)] entries of the log, but with a count of 0 it
    returns the whole log, not an empty list ([entries[-0:]] is
    [entries[0:]]). *)
Theorem last_entries_of_the_log (log : list string) (count : Z) :
  0 <= count ->
  CombatSystem.get_last_entries log count `suffix_of` log
  /\ Py.len (CombatSystem.get_last_entries log count)
     = if count =? 0 then Py.len log else Z.min count (Py.len log).
Proof.
  intros Hc. unfold CombatSystem.get_last_entries, CombatSystem.slice_from.
  split; [apply suffix_drop|].
  unfold Py.len. rewrite length_drop.
  destruct (count =? 0) eqn:E0.
  - apply Z.eqb_eq in E0. subst count. simpl. lia.
  - apply Z.eqb_neq in E0.
    destruct (- count <? 0) eqn:En; [|apply Z.ltb_ge in En; lia].
    lia.
Qed.

Lemma last_entries_of_the_log_witness :
  CombatSystem.get_last_entries ["a"; "b"; "c"] 2 `suffix_of` ["a"; "b"; "c"]
  /\ Py.len (CombatSystem.get_last_entries ["a"; "b"; "c"] 2)
     = (if 2 =? 0 then Py.len ["a"; "b"; "c"]
        else Z.min 2 (Py.len ["a"; "b"; "c"])).
Proof.
  apply (last_entries_of_the_log ["a"; "b"; "c"] 2). lia.
Defined.

(** X18. [start_combat] discards whatever the log held: the new log is
    the announcement with the number of enemies followed by one line
    per enemy in order, so it has [1 + len(enemies)] entries. *)
Theorem start_combat_resets_the_log (log : list string)
    (player : Character.t) (enemies : list Enemy.t) :
  CombatSystem.start_combat log player enemies
  = ("Combat started against " +:+ Py.str (Py.len enemies) +:+ " enemies!")
    :: map enemy_line enemies
  /\ Py.len (CombatSystem.start_combat log player enemies)
     = 1 + Py.len enemies
  /\ CombatSystem.start_combat log player enemies
     = CombatSystem.start_combat [] player enemies.
Proof.
  assert (H : forall log,
    CombatSystem.start_combat log player enemies
    = ("Combat started against " +:+ Py.str (Py.len enemies) +:+ " enemies!")
      :: map enemy_line enemies).
  { intros log0. unfold CombatSystem.start_combat, CombatSystem.clear.
    rewrite (foldl_add_entry enemy_line). reflexivity. }
  split; [apply H|]. split.
  - rewrite H. unfold Py.len. simpl. rewrite length_map. lia.
  - rewrite !H. reflexivity.
Qed.

(** ** Rewards *)

Lemma foldl_total (reward : Enemy.t -> Z) (enemies : list Enemy.t) (acc : Z) :
  foldl (fun acc e => acc + reward e) acc enemies = acc + total reward enemies.
Proof.
  revert acc. induction enemies as [|e es IH]; intros acc; simpl.
  - lia.
  - rewrite IH. unfold total. simpl. lia.
Qed.

Lemma total_Permutation (reward : Enemy.t -> Z) (es es' : list Enemy.t) :
  es ≡ₚ es' -> total reward es = total reward es'.
Proof.
  unfold total. induction 1; simpl; lia.
Qed.

(** X19. The rewards of a combat are the sums of the gold and xp of the
    defeated enemies, so they do not depend on the order in which the
    enemies fell; the xp is awarded in one piece, so the player gains
    at most one level whatever the number of enemies; and the log gets
    one line. *)
Theorem combat_rewards_are_order_free (log : list string)
    (player : Character.t) (defeated defeated' : list Enemy.t) :
  defeated ≡ₚ defeated' ->
  CombatSystem.process_combat_rewards log player defeated
  = CombatSystem.process_combat_rewards log player defeated'
  /\ exists line player',
       CombatSystem.process_combat_rewards log player defeated
       = (log ++ [line], player',
          (total Enemy.gold_reward defeated, total Enemy.xp_reward defeated))
       /\ player' = (Character.add_xp player
                       (total Enemy.xp_reward defeated)).1
       /\ Character.level player <= Character.level player'
          <= Character.level player + 1.
Proof.
  intros Hp. unfold CombatSystem.process_combat_rewards.
  rewrite !foldl_total, !Z.add_0_l.
  rewrite <- (total_Permutation Enemy.gold_reward _ _ Hp).
  rewrite <- (total_Permutation Enemy.xp_reward _ _ Hp).
  split; [reflexivity|].
  destruct (Character.add_xp player (total Enemy.xp_reward defeated))
    as [player' leveled] eqn:Ea.
  eexists. exists player'. split; [reflexivity|]. split; [reflexivity|].
  unfold Character.add_xp in Ea.
  destruct (_ >=? _) in Ea; inversion Ea; subst; simpl; lia.
Qed.

Lemma combat_rewards_are_order_free_witness :
  CombatSystem.process_combat_rewards [] fresh_character [goblin; orc]
  = CombatSystem.process_combat_rewards [] fresh_character [orc; goblin].
Proof.
  apply (combat_rewards_are_order_free [] fresh_character [goblin; orc]
           [orc; goblin]).
  apply Permutation_swap.
Defined.

(** ** The behaviours of the enemies *)

Lemma insert_desc_head (x : DiceType * Z * Z) (l : list (DiceType * Z * Z)) :
  head (AggressiveBehavior.insert_desc x l)
  = Some (match head l with
          | Some y => if y.2 <? x.2 then x else y
          | None => x
          end).
Proof.
  destruct l as [|y l]; simpl; [reflexivity|].
  destruct (y.2 <? x.2); reflexivity.
Qed.

(** The head of the sorted list is the first item of the highest
    score. *)
Lemma sort_desc_head (l seen acc : list (DiceType * Z * Z))
    (h : DiceType * Z * Z) (before after : list (DiceType * Z * Z)) :
  head acc = Some h ->
  seen = before ++ h :: after ->
  (forall x, x ∈ before -> x.2 < h.2) ->
  (forall x, x ∈ after -> x.2 <= h.2) ->
  exists h' before' after',
    head (foldl (fun acc x => AggressiveBehavior.insert_desc x acc) acc l)
    = Some h'
    /\ seen ++ l = before' ++ h' :: after'
    /\ (forall x, x ∈ before' -> x.2 < h'.2)
    /\ (forall x, x ∈ after' -> x.2 <= h'.2).
Proof.
  revert seen acc h before after.
  induction l as [|x l IH]; intros seen acc h before after Hh Hs Hb Ha.
  - exists h, before, after. rewrite app_nil_r. auto.
  - cbn [foldl].
    pose proof (insert_desc_head x acc) as Hi. rewrite Hh in Hi.
    destruct (h.2 <? x.2) eqn:E.
    + apply Z.ltb_lt in E.
      destruct (IH (seen ++ [x]) _ x seen [] Hi) as (h' & b' & a' & H1 & H2 & H3).
      * reflexivity.
      * intros y Hy. subst seen. apply elem_of_app in Hy as [Hy|Hy].
        -- specialize (Hb y Hy). lia.
        -- apply elem_of_cons in Hy as [->|Hy]; [exact E|].
           specialize (Ha y Hy). lia.
      * intros y Hy. apply elem_of_nil in Hy. destruct Hy.
      * exists h', b', a'. rewrite <- app_assoc in H2. auto.
    + apply Z.ltb_ge in E.
      destruct (IH (seen ++ [x]) _ h before (after ++ [x]) Hi)
        as (h' & b' & a' & H1 & H2 & H3).
      * subst seen. rewrite <- app_assoc. reflexivity.
      * exact Hb.
      * intros y Hy. apply elem_of_app in Hy as [Hy|Hy]; [auto|].
        apply list_elem_of_singleton in Hy. subst y. exact E.
      * exists h', b', a'. rewrite <- app_assoc in H2. auto.
Qed.

Lemma sort_desc_first_max (l : list (DiceType * Z * Z)) :
  l <> [] ->
  exists best before after rest,
    AggressiveBehavior.sort_desc l = best :: rest
    /\ l = before ++ best :: after
    /\ (forall x, x ∈ before -> x.2 < best.2)
    /\ (forall x, x ∈ after -> x.2 <= best.2).
Proof.
  intros Hne. destruct l as [|x l]; [congruence|].
  unfold AggressiveBehavior.sort_desc. cbn [foldl].
  destruct (sort_desc_head l [x] (AggressiveBehavior.insert_desc x [])
              x [] []) as (h' & b' & a' & H1 & H2 & H3 & H4).
  - reflexivity.
  - reflexivity.
  - intros y Hy. apply elem_of_nil in Hy. destruct Hy.
  - intros y Hy. apply elem_of_nil in Hy. destruct Hy.
  - destruct (foldl _ _ l) as [|best rest]; [discriminate|].
    injection H1 as ->.
    exists h', b', a', rest. auto.
Qed.

(** The filters of the code, on a test that is a boolean. *)
Lemma filter_bool {A} (P : A -> Prop) `{!forall x, Decision (P x)}
    (b : A -> bool) (l : list A) :
  (forall x, P x <-> b x = true) ->
  filter P l = List.filter b l.
Proof.
  intros Hb. induction l as [|x l IH]; [reflexivity|].
  rewrite filter_cons. simpl. rewrite IH.
  destruct (b x) eqn:E.
  - rewrite decide_True by (apply Hb; exact E). reflexivity.
  - rewrite decide_False; [reflexivity|].
    intros Hx. apply Hb in Hx. congruence.
Qed.

Lemma existsb_filter {A} (b : A -> bool) (l : list A) :
  existsb b l = match List.filter b l with [] => false | _ :: _ => true end.
Proof.
  induction l as [|x l IH]; simpl; [reflexivity|].
  destruct (b x); [reflexivity|exact IH].
Qed.

Lemma attack_faces_spec (faces : list face_info) :
  filter (fun f => String.eqb (fi_category f) "COMBAT"
                   && Py.contains "Attack" (fi_name f) = true) faces
  = List.filter attack_face faces.
Proof.
  apply filter_bool. intros f. unfold attack_face.
  destruct (String.eqb (fi_category f) "COMBAT") eqn:E.
  - apply String.eqb_eq in E. rewrite bool_decide_eq_true_2 by exact E.
    reflexivity.
  - apply String.eqb_neq in E. rewrite bool_decide_eq_false_2 by exact E.
    reflexivity.
Qed.

(** The score the code computes is the sum of the positive values. *)
Lemma attack_score_spec (faces : list face_info) :
  AggressiveBehavior.attack_score faces
  = foldl Z.add 0 (List.filter (Z.ltb 0) (fi_value <$> faces)).
Proof.
  unfold AggressiveBehavior.attack_score.
  assert (H : forall acc,
    foldl Z.add acc (List.filter (Z.ltb 0) (fi_value <$> faces))
    = acc + foldr (fun f acc => if fi_value f >? 0 then fi_value f + acc
                                else acc) 0 faces).
  { induction faces as [|f fs IH]; intros acc; simpl; [lia|].
    rewrite Z.gtb_ltb.
    destruct (0 <? fi_value f); simpl; rewrite IH; lia. }
  rewrite H. lia.
Qed.

(** The scored dice the code collects are the candidates, in order,
    each with its attack score. *)
Lemma attack_dice_spec (enemy_dice : list enemy_die) :
  AggressiveBehavior.attack_dice enemy_dice
  = (fun d : enemy_die => (d.1.1, d.1.2, attack_power d))
      <$> List.filter attack_candidate enemy_dice.
Proof.
  induction enemy_dice as [|[[t i] info] rest IH]; [reflexivity|].
  cbn [AggressiveBehavior.attack_dice List.filter].
  unfold attack_candidate at 1. cbn [fst snd].
  destruct t;
    try (rewrite bool_decide_eq_false_2 by discriminate; exact IH).
  rewrite bool_decide_eq_true_2 by reflexivity.
  rewrite attack_faces_spec, existsb_filter. cbn [andb].
  unfold attack_power at 1. cbn [snd].
  destruct (List.filter attack_face (di_faces info)) as [|f fs] eqn:Ef.
  - exact IH.
  - rewrite fmap_cons, IH, attack_score_spec. unfold attack_power at 1.
    cbn [fst snd]. rewrite Ef. reflexivity.
Qed.

(** X20. When a COMBAT die with an attack face (a face of the COMBAT
    category whose name contains "Attack") is on offer, the aggressive
    behaviour rolls, among the dice of that kind, the one whose attack
    score (the sum of the positive values of its attack faces) is
    highest, the first of them in the order of the dice when several
    share the score (the sort is stable), and draws nothing from the
    random source. *)
Theorem aggressive_picks_the_strongest (enemy : Enemy.t)
    (player : Character.t) (enemy_dice : list enemy_die) (g : Rng)
    (d : enemy_die) :
  d ∈ enemy_dice ->
  attack_candidate d = true ->
  exists best before after,
    List.filter attack_candidate enemy_dice = before ++ best :: after
    /\ (forall x, x ∈ before -> attack_power x < attack_power best)
    /\ (forall x, x ∈ after -> attack_power x <= attack_power best)
    /\ AggressiveBehavior.decide_action enemy player enemy_dice g
       = Ok (best.1, g).
Proof.
  intros Hin Hc.
  assert (Hne : AggressiveBehavior.attack_dice enemy_dice <> []).
  { rewrite attack_dice_spec. intros E. apply fmap_nil_inv in E.
    assert (Hd : In d (List.filter attack_candidate enemy_dice)).
    { apply filter_In. split; [apply list_elem_of_In; exact Hin|exact Hc]. }
    rewrite E in Hd. destruct Hd. }
  destruct (sort_desc_first_max _ Hne)
    as (best' & before' & after' & rest & Hs & Hl & Hb & Ha).
  rewrite attack_dice_spec in Hl.
  apply fmap_app_inv in Hl as (before & l2 & -> & Hl2 & Hcands).
  symmetry in Hl2.
  apply fmap_cons_inv in Hl2 as (best & after & -> & -> & ->).
  exists best, before, after.
  split; [exact Hcands|]. split.
  { intros x Hx.
    apply (Hb (x.1.1, x.1.2, attack_power x)).
    apply list_elem_of_fmap. exists x. auto. }
  split.
  { intros x Hx.
    apply (Ha (x.1.1, x.1.2, attack_power x)).
    apply list_elem_of_fmap. exists x. auto. }
  unfold AggressiveBehavior.decide_action.
  destruct enemy_dice as [|d0 ds];
    [apply elem_of_nil in Hin; destruct Hin|].
  rewrite Hs. destruct best as [[t i] info]. reflexivity.
Qed.

Lemma aggressive_picks_the_strongest_witness :
  exists best before after,
    List.filter attack_candidate [inferno_die; claw_die; axe_die]
    = before ++ best :: after
    /\ (forall x, x ∈ before -> attack_power x < attack_power best)
    /\ (forall x, x ∈ after -> attack_power x <= attack_power best)
    /\ AggressiveBehavior.decide_action goblin fresh_character
         [inferno_die; claw_die; axe_die] fixed_rng
       = Ok (best.1, fixed_rng).
Proof.
  apply (aggressive_picks_the_strongest goblin fresh_character
           [inferno_die; claw_die; axe_die] fixed_rng axe_die).
  - apply list_elem_of_further, list_elem_of_further, list_elem_of_here.
  - reflexivity.
Defined.

(** The claws score 2, the axe 3 + 4: the axe at index 1 is rolled. *)
Example attack_scores :
  attack_power claw_die = 2 /\ attack_power axe_die = 7
  /\ attack_candidate inferno_die = false.
Proof. repeat split. Qed.

Example aggressive_prefers_the_axe :
  AggressiveBehavior.decide_action goblin fresh_character
    [inferno_die; claw_die; axe_die] fixed_rng
  = Ok ((COMBAT, 1), fixed_rng).
Proof. reflexivity. Qed.

Lemma offered_die (enemy_dice : list enemy_die) (d : enemy_die) :
  d ∈ enemy_dice -> offered enemy_dice (d.1.1, d.1.2).
Proof.
  intros Hd. unfold offered. apply list_elem_of_fmap.
  exists d. split; [|exact Hd]. destruct d as [[ty i] info]. reflexivity.
Qed.

Lemma offered_cons (d : enemy_die) (enemy_dice : list enemy_die) (a : action) :
  offered enemy_dice a -> offered (d :: enemy_dice) a.
Proof. unfold offered. rewrite fmap_cons. apply list_elem_of_further. Qed.

Lemma offered_here (ty : DiceType) (i : Z) (info : dice_info)
    (enemy_dice : list enemy_die) :
  offered ((ty, i, info) :: enemy_dice) (ty, i).
Proof. unfold offered. rewrite fmap_cons. apply list_elem_of_here. Qed.

Lemma choice_elem {A} (seq : list A) (g g' : Rng) (x : A) :
  random.choice seq g = Ok (x, g') -> x ∈ seq.
Proof.
  unfold random.choice.
  destruct (seq !! _) as [y|] eqn:E; [|discriminate].
  intros H. injection H as -> _. eapply list_elem_of_lookup_2. exact E.
Qed.

Lemma choice_decides {A} (seq : list A) (g : Rng) :
  seq <> [] -> exists x, random.choice seq g = Ok (x, random.advance g)
                         /\ x ∈ seq.
Proof.
  intros Hne. destruct (choice_nonempty seq g Hne) as (x & Hl & Hc).
  exists x. split; [exact Hc|]. eapply list_elem_of_lookup_2. exact Hl.
Qed.

Lemma attack_dice_offered (enemy_dice : list enemy_die)
    (x : DiceType * Z * Z) :
  x ∈ AggressiveBehavior.attack_dice enemy_dice ->
  offered enemy_dice (x.1.1, x.1.2).
Proof.
  induction enemy_dice as [|[[ty i] info] rest IH]; simpl.
  - intros H. apply elem_of_nil in H. destruct H.
  - destruct ty; try (intros H; apply offered_cons, IH, H).
    destruct (filter _ (di_faces info)).
    + intros H. apply offered_cons, IH, H.
    + intros H. apply elem_of_cons in H as [->|H].
      * apply offered_here.
      * apply offered_cons, IH, H.
Qed.

Lemma find_healing_offered (enemy_dice : list enemy_die) (a : action) :
  DefensiveBehavior.find_healing enemy_dice = Some a -> offered enemy_dice a.
Proof.
  induction enemy_dice as [|[[ty i] info] rest IH]; simpl; [discriminate|].
  destruct (filter _ (di_faces info)).
  - intros H. apply offered_cons, IH, H.
  - intros H. injection H as <-. apply offered_here.
Qed.

Lemma status_dice_offered (enemy_dice : list enemy_die) (a : action) :
  a ∈ TacticalBehavior.status_dice enemy_dice -> offered enemy_dice a.
Proof.
  induction enemy_dice as [|[[ty i] info] rest IH]; simpl.
  - intros H. apply elem_of_nil in H. destruct H.
  - destruct (filter _ (di_faces info)).
    + intros H. apply offered_cons, IH, H.
    + intros H. apply elem_of_cons in H as [->|H].
      * apply offered_here.
      * apply offered_cons, IH, H.
Qed.

Lemma scan_ultimate_offered (used : gset string)
    (enemy_dice : list enemy_die) (a : action) :
  BossBehavior.scan_ultimate used enemy_dice = Some a -> offered enemy_dice a.
Proof.
  induction enemy_dice as [|[[ty i] info] rest IH]; simpl; [discriminate|].
  destruct (BossBehavior.scan_faces _ _ _).
  - intros H. injection H as <-. apply offered_here.
  - intros H. apply offered_cons, IH, H.
Qed.

Lemma find_heal_offered (enemy_dice : list enemy_die) (a : action) :
  BossBehavior.find_heal enemy_dice = Some a -> offered enemy_dice a.
Proof.
  induction enemy_dice as [|[[ty i] info] rest IH]; simpl; [discriminate|].
  destruct (filter _ (di_faces info)).
  - intros H. apply offered_cons, IH, H.
  - intros H. injection H as <-. apply offered_here.
Qed.

Lemma find_special_offered (enemy_dice : list enemy_die) (a : action) :
  BossBehavior.find_special enemy_dice = Some a -> offered enemy_dice a.
Proof.
  induction enemy_dice as [|[[ty i] info] rest IH]; simpl; [discriminate|].
  destruct ty; try (intros H; apply offered_cons, IH, H).
  intros H. injection H as <-. apply offered_here.
Qed.

Lemma first_combat_offered (enemy_dice : list enemy_die) (d : enemy_die)
    (l : list enemy_die) :
  filter (fun d : enemy_die => d.1.1 = COMBAT) enemy_dice = d :: l ->
  offered enemy_dice (d.1.1, d.1.2).
Proof.
  intros Hf. apply offered_die.
  assert (Hd : d ∈ filter (fun d : enemy_die => d.1.1 = COMBAT) enemy_dice).
  { rewrite Hf. apply list_elem_of_here. }
  apply list_elem_of_filter in Hd. apply Hd.
Qed.

Lemma aggressive_offered (enemy : Enemy.t) (player : Character.t)
    (enemy_dice : list enemy_die) (g : Rng) :
  enemy_dice <> [] ->
  exists a g',
    AggressiveBehavior.decide_action enemy player enemy_dice g = Ok (a, g')
    /\ offered enemy_dice a.
Proof.
  intros Hne. unfold AggressiveBehavior.decide_action.
  destruct enemy_dice as [|d0 rest] eqn:Ed; [congruence|]. rewrite <- Ed.
  destruct (AggressiveBehavior.sort_desc _) as [|best l] eqn:Es.
  - destruct (filter _ enemy_dice) as [|d l] eqn:Ef.
    + destruct (choice_decides enemy_dice g) as (x & -> & Hx); [congruence|].
      cbn [mbind result_bind]. eexists. eexists. split; [reflexivity|].
      apply offered_die, Hx.
    + eexists. eexists. split; [reflexivity|].
      eapply first_combat_offered. exact Ef.
  - eexists. eexists. split; [reflexivity|].
    apply attack_dice_offered.
    destruct (AggressiveBehavior.attack_dice enemy_dice) as [|s0 sl] eqn:Ea;
      [discriminate|].
    destruct (sort_desc_first_max (s0 :: sl))
      as (b & before & after & r & Hs & Hl & _); [discriminate|].
    rewrite Hs in Es. injection Es as -> _.
    rewrite Hl. apply elem_of_app. right. apply list_elem_of_here.
Qed.

Lemma defensive_offered (enemy : Enemy.t) (player : Character.t)
    (enemy_dice : list enemy_die) (g : Rng) :
  enemy_dice <> [] ->
  Enemy.max_health enemy <> 0 ->
  exists a g',
    DefensiveBehavior.decide_action enemy player enemy_dice g = Ok (a, g')
    /\ offered enemy_dice a.
Proof.
  intros Hd Hne. unfold DefensiveBehavior.decide_action, Py.truediv.
  destruct enemy_dice as [|d0 rest] eqn:Ed; [congruence|]. rewrite <- Ed.
  assert (Hd' : enemy_dice <> []) by (rewrite Ed; discriminate).
  apply Z.eqb_neq in Hne. rewrite Hne. cbn [mbind result_bind].
  destruct (aggressive_offered enemy player enemy_dice g Hd')
    as (a & g' & Ha & Ho).
  rewrite Ha.
  destruct (Py.lt _ (3 # 10)).
  - destruct (DefensiveBehavior.find_healing enemy_dice) as [h|] eqn:Eh;
      [|eauto].
    eexists. eexists. split; [reflexivity|]. apply find_healing_offered, Eh.
  - destruct (Py.lt _ (6 # 10)); [|eauto].
    destruct (filter _ enemy_dice) as [|d l] eqn:Ef; [eauto|].
    eexists. eexists. split; [reflexivity|].
    eapply first_combat_offered. exact Ef.
Qed.

Lemma tactical_offered (enemy : Enemy.t) (player : Character.t)
    (enemy_dice : list enemy_die) (g : Rng) :
  enemy_dice <> [] ->
  Enemy.max_health enemy <> 0 ->
  CharacterStats.max_health (Character.stats player) <> 0 ->
  exists a g',
    TacticalBehavior.decide_action enemy player enemy_dice g = Ok (a, g')
    /\ offered enemy_dice a.
Proof.
  intros Hd Hne Hnp. unfold TacticalBehavior.decide_action, Py.truediv.
  destruct enemy_dice as [|d0 rest] eqn:Ed; [congruence|]. rewrite <- Ed.
  assert (Hd' : enemy_dice <> []) by (rewrite Ed; discriminate).
  apply Z.eqb_neq in Hne. apply Z.eqb_neq in Hnp. rewrite Hne, Hnp.
  cbn [mbind result_bind].
  apply Z.eqb_neq in Hne.
  destruct (Py.gt _ _); [apply aggressive_offered; exact Hd'|].
  destruct (Py.lt _ _); [apply defensive_offered; assumption|].
  assert (Hmixed : forall g0, exists a g',
    (AggressiveBehavior.decide_action enemy player enemy_dice g0
       ≫= λ '(a0, g1),
         DefensiveBehavior.decide_action enemy player enemy_dice g1
           ≫= λ '(d, g2), random.choice [a0; d] g2) = Ok (a, g')
    /\ offered enemy_dice a).
  { intros g0.
    destruct (aggressive_offered enemy player enemy_dice g0 Hd')
      as (a & g1 & -> & Ha).
    cbn [mbind result_bind].
    destruct (defensive_offered enemy player enemy_dice g1 Hd' Hne)
      as (d & g2 & -> & Hdf).
    cbn [mbind result_bind].
    destruct (choice_decides [a; d] g2) as (x & -> & Hx); [discriminate|].
    eexists. eexists. split; [reflexivity|].
    apply elem_of_cons in Hx as [->|Hx]; [exact Ha|].
    apply list_elem_of_singleton in Hx. subst x. exact Hdf. }
  destruct (TacticalBehavior.status_dice enemy_dice) as [|s sd] eqn:Es.
  - apply Hmixed.
  - unfold random.random.
    destruct (Py.lt _ (6 # 10)); [|apply Hmixed].
    destruct (choice_decides (s :: sd) (random.advance g)) as (x & -> & Hx);
      [discriminate|].
    eexists. eexists. split; [reflexivity|].
    apply status_dice_offered. rewrite Es. exact Hx.
Qed.

Lemma special_or_tactical_offered (self : BossBehavior.t) (enemy : Enemy.t)
    (player : Character.t) (enemy_dice : list enemy_die) (g : Rng) :
  enemy_dice <> [] ->
  Enemy.max_health enemy <> 0 ->
  CharacterStats.max_health (Character.stats player) <> 0 ->
  exists a g',
    BossBehavior.special_or_tactical self enemy player enemy_dice g
    = Ok (self, a, g')
    /\ offered enemy_dice a.
Proof.
  intros Hd Hne Hnp. unfold BossBehavior.special_or_tactical.
  destruct (tactical_offered enemy player enemy_dice g Hd Hne Hnp)
    as (a & g' & -> & Ha).
  cbn [mbind result_bind].
  destruct (_ =? 0); [|eauto].
  destruct (BossBehavior.find_special enemy_dice) as [s|] eqn:Es; [|eauto].
  eexists. eexists. split; [reflexivity|]. apply find_special_offered, Es.
Qed.

Lemma boss_offered (self : BossBehavior.t) (enemy : Enemy.t)
    (player : Character.t) (enemy_dice : list enemy_die) (g : Rng) :
  enemy_dice <> [] ->
  Enemy.max_health enemy <> 0 ->
  CharacterStats.max_health (Character.stats player) <> 0 ->
  exists self' a g',
    BossBehavior.decide_action self enemy player enemy_dice g
    = Ok (self', a, g')
    /\ offered enemy_dice a.
Proof.
  intros Hd Hne Hnp. unfold BossBehavior.decide_action, Py.truediv.
  destruct enemy_dice as [|d0 rest] eqn:Ed; [congruence|]. rewrite <- Ed.
  assert (Hd' : enemy_dice <> []) by (rewrite Ed; discriminate).
  pose proof Hne as Hne'. apply Z.eqb_neq in Hne'. rewrite Hne'.
  cbn [mbind result_bind].
  set (new_phase := if Py.lt _ (3 # 10) then 3 else _).
  set (self1 := if negb _ then _ else _).
  clearbody self1.
  assert (Htail : exists self' a g',
    BossBehavior.special_or_tactical self1 enemy player enemy_dice g
    = Ok (self', a, g') /\ offered enemy_dice a).
  { destruct (special_or_tactical_offered self1 enemy player enemy_dice g
                Hd' Hne Hnp) as (a & g' & -> & Ha).
    eauto. }
  destruct (BossBehavior.phase self1 =? 3).
  - destruct (BossBehavior.scan_ultimate _ _) as [[t i]|] eqn:Eu;
      [|exact Htail].
    eexists. eexists. eexists. split; [reflexivity|].
    eapply scan_ultimate_offered. exact Eu.
  - destruct (BossBehavior.phase self1 =? 2); [|exact Htail].
    destruct (decide _); [exact Htail|].
    destruct (BossBehavior.find_heal enemy_dice) as [h|] eqn:Eh;
      [|exact Htail].
    eexists. eexists. eexists. split; [reflexivity|].
    apply find_heal_offered, Eh.
Qed.

(** X21. Given at least one die, and an enemy and a player whose
    max_health is not 0 (the behaviours divide by it), each of the five
    behaviours returns, and what it returns is the type and index of one
    of the dice on offer. *)
Theorem behaviours_roll_an_offered_die (self : BossBehavior.t)
    (enemy : Enemy.t) (player : Character.t) (enemy_dice : list enemy_die)
    (g : Rng) :
  enemy_dice <> [] ->
  Enemy.max_health enemy <> 0 ->
  CharacterStats.max_health (Character.stats player) <> 0 ->
  (exists a g',
     RandomBehavior.decide_action enemy player enemy_dice g = Ok (a, g')
     /\ offered enemy_dice a)
  /\ (exists a g',
        AggressiveBehavior.decide_action enemy player enemy_dice g
        = Ok (a, g')
        /\ offered enemy_dice a)
  /\ (exists a g',
        DefensiveBehavior.decide_action enemy player enemy_dice g
        = Ok (a, g')
        /\ offered enemy_dice a)
  /\ (exists a g',
        TacticalBehavior.decide_action enemy player enemy_dice g
        = Ok (a, g')
        /\ offered enemy_dice a)
  /\ (exists self' a g',
        BossBehavior.decide_action self enemy player enemy_dice g
        = Ok (self', a, g')
        /\ offered enemy_dice a).
Proof.
  intros Hd Hne Hnp.
  split; [|split; [|split; [|split]]].
  - unfold RandomBehavior.decide_action.
    destruct enemy_dice as [|d0 rest] eqn:Ed; [congruence|]. rewrite <- Ed.
    destruct (choice_decides enemy_dice g) as (x & -> & Hx);
      [rewrite Ed; discriminate|].
    cbn [mbind result_bind]. eexists. eexists. split; [reflexivity|].
    apply offered_die, Hx.
  - apply aggressive_offered; assumption.
  - apply defensive_offered; assumption.
  - apply tactical_offered; assumption.
  - apply boss_offered; assumption.
Qed.

Lemma behaviours_roll_an_offered_die_witness :
  exists self' a g',
    BossBehavior.decide_action BossBehavior.__init__ dying_dragon
      fresh_character [claw_die; inferno_die] fixed_rng
    = Ok (self', a, g')
    /\ offered [claw_die; inferno_die] a.
Proof.
  apply (behaviours_roll_an_offered_die BossBehavior.__init__ dying_dragon
           fresh_character [claw_die; inferno_die] fixed_rng);
    discriminate.
Defined.

Lemma set_objects_same (ai : EnemyAI.t) :
  EnemyAI.set_objects ai (EnemyAI.objects ai) = ai.
Proof. destruct ai. reflexivity. Qed.

(** X22. Asked to decide with no die on offer, the registry returns the
    placeholder [(COMBAT, 0)] for every built-in behaviour: nothing is
    drawn from the random source, nothing is divided (the enemy's
    max_health may be 0), and a boss behaviour does not count the
    turn, so the registry is as before. *)
Theorem no_dice_no_decision (ai : EnemyAI.t) (enemy : Enemy.t)
    (player : Character.t) (g : Rng) (r : nat)
    (behavior : EnemyAI.AIBehavior) :
  EnemyAI.get_behavior ai enemy = Ok r ->
  EnemyAI.objects ai !! r = Some behavior ->
  built_in behavior = true ->
  EnemyAI.decide_action ai enemy player [] g = Ok (ai, (COMBAT, 0), g).
Proof.
  intros Hr Ho Hb. unfold EnemyAI.decide_action.
  rewrite Hr. cbn [mbind result_bind]. rewrite Ho.
  destruct behavior; try discriminate; try reflexivity.
  cbn. rewrite insert_id by exact Ho. rewrite set_objects_same. reflexivity.
Qed.

Lemma no_dice_no_decision_witness :
  EnemyAI.decide_action EnemyAI.__init__ dying_dragon fresh_character []
    fixed_rng
  = Ok (EnemyAI.__init__, (COMBAT, 0), fixed_rng).
Proof.
  apply (no_dice_no_decision EnemyAI.__init__ dying_dragon fresh_character
           fixed_rng 4%nat (EnemyAI.Boss BossBehavior.__init__));
    reflexivity.
Defined.

Lemma init_resolves : resolves EnemyAI.__init__.
Proof.
  unfold resolves. split; [|split; [|split; [|split]]].
  - intros name key H. simpl in H. rewrite lookup_empty in H. discriminate.
  - intros ty key H.
    destruct ty; vm_compute in H; injection H as <-; eexists; reflexivity.
  - eexists. reflexivity.
  - eexists. reflexivity.
  - intros key r Hk. unfold EnemyAI.__init__ in *. simpl in *.
    repeat (rewrite lookup_insert in Hk; case_decide;
            [injection Hk as <-; eexists; reflexivity|]).
    rewrite lookup_empty in Hk. discriminate.
Qed.

Lemma configure_resolves (ai : EnemyAI.t) (call : registry_call) :
  resolves ai -> resolves (configure ai call).
Proof.
  intros (Hc & Ht & Hb & Hr & Ho).
  destruct call as [name key|key behavior|ty key]; simpl.
  - unfold EnemyAI.set_custom_behavior.
    destruct (EnemyAI.behaviors ai !! key) as [r|] eqn:Ek; simpl.
    2:{ repeat split; assumption. }
    split; [|split; [|split; [|split]]]; simpl; try assumption.
    intros name' key' H. rewrite lookup_insert in H. case_decide.
    + injection H as <-. rewrite Ek. eauto.
    + eapply Hc. exact H.
  - unfold EnemyAI.register_behavior.
    assert (Hk : forall key',
      is_Some (EnemyAI.behaviors ai !! key') ->
      is_Some (<[key := EnemyAI.next_id ai]> (EnemyAI.behaviors ai) !! key')).
    { intros key' H. rewrite lookup_insert. case_decide; [eauto|exact H]. }
    split; [|split; [|split; [|split]]]; simpl.
    + intros name' key' H. apply Hk. eapply Hc. exact H.
    + intros ty' key' H. apply Hk. eapply Ht. exact H.
    + apply Hk, Hb.
    + apply Hk, Hr.
    + intros key' r H. rewrite lookup_insert in H. case_decide.
      * injection H as <-. rewrite lookup_insert_eq. eauto.
      * rewrite lookup_insert. case_decide; [eauto|]. eapply Ho. exact H.
  - unfold EnemyAI.set_enemy_type_behavior.
    destruct (EnemyAI.behaviors ai !! key) as [r|] eqn:Ek; simpl.
    2:{ repeat split; assumption. }
    split; [|split; [|split; [|split]]]; simpl; try assumption.
    intros ty' key' H. rewrite lookup_insert in H. case_decide.
    + injection H as <-. rewrite Ek. eauto.
    + eapply Ht. exact H.
Qed.

Lemma resolves_get_behavior (ai : EnemyAI.t) (enemy : Enemy.t) :
  resolves ai ->
  exists r behavior,
    EnemyAI.get_behavior ai enemy = Ok r
    /\ EnemyAI.objects ai !! r = Some behavior.
Proof.
  intros (Hc & Ht & Hb & Hr & Ho).
  assert (Hkey : forall key,
    is_Some (EnemyAI.behaviors ai !! key) ->
    exists r behavior,
      EnemyAI.behaviors_getitem ai key = Ok r
      /\ EnemyAI.objects ai !! r = Some behavior).
  { intros key [r Hk]. destruct (Ho key r Hk) as [b Hob].
    exists r, b. unfold EnemyAI.behaviors_getitem. rewrite Hk. auto. }
  unfold EnemyAI.get_behavior.
  destruct (EnemyAI.custom_behaviors ai !! Enemy.name enemy) as [key|] eqn:Ec.
  - apply Hkey. eapply Hc. exact Ec.
  - destruct (EnemyAI.boss_name _); [apply Hkey, Hb|].
    destruct (EnemyAI.enemy_type_behaviors ai !! Enemy.enemy_type enemy)
      as [key|] eqn:Et; simpl.
    + apply Hkey. eapply Ht. exact Et.
    + apply Hkey, Hr.
Qed.

(** X23. However the registry is configured after its creation, by any
    sequence of set_custom_behavior, register_behavior and
    set_enemy_type_behavior calls, get_behavior finds a behaviour object
    for every enemy: the two setters refuse a key that is not
    registered and no key is ever removed, so neither lookup in
    [behaviors] raises KeyError. *)
Theorem registry_always_resolves (calls : list registry_call)
    (enemy : Enemy.t) :
  exists r behavior,
    EnemyAI.get_behavior (foldl configure EnemyAI.__init__ calls) enemy = Ok r
    /\ EnemyAI.objects (foldl configure EnemyAI.__init__ calls) !! r
       = Some behavior.
Proof.
  apply resolves_get_behavior.
  generalize init_resolves. generalize EnemyAI.__init__.
  induction calls as [|call calls IH]; intros ai Hai; simpl; [exact Hai|].
  apply IH, configure_resolves, Hai.
Qed.

(** X24. set_custom_behavior with a key that is not registered returns
    False and leaves the registry as it is.  With a registered key it
    returns True, and after the call every enemy of that name gets the
    behaviour of the key, whatever its name pattern and type say; the
    enemies of other names get what they got before, and no behaviour
    object changes. *)
Theorem custom_behavior_overrides (ai : EnemyAI.t)
    (enemy_name behavior_key : string) :
  match EnemyAI.behaviors ai !! behavior_key with
  | None =>
    EnemyAI.set_custom_behavior ai enemy_name behavior_key = (ai, false)
  | Some r =>
    exists ai',
      EnemyAI.set_custom_behavior ai enemy_name behavior_key = (ai', true)
      /\ EnemyAI.objects ai' = EnemyAI.objects ai
      /\ forall enemy,
           EnemyAI.get_behavior ai' enemy
           = if decide (Enemy.name enemy = enemy_name) then Ok r
             else EnemyAI.get_behavior ai enemy
  end.
Proof.
  unfold EnemyAI.set_custom_behavior.
  destruct (EnemyAI.behaviors ai !! behavior_key) as [r|] eqn:Ek;
    [|reflexivity].
  eexists. split; [reflexivity|]. split; [reflexivity|].
  intros enemy. unfold EnemyAI.get_behavior, EnemyAI.behaviors_getitem.
  cbn [EnemyAI.custom_behaviors EnemyAI.behaviors
       EnemyAI.enemy_type_behaviors].
  rewrite lookup_insert.
  destruct (decide (Enemy.name enemy = enemy_name)) as [He|He].
  - rewrite decide_True by congruence. rewrite Ek. reflexivity.
  - rewrite decide_False by congruence. reflexivity.
Qed.

(** X25. set_enemy_type_behavior with a registered key changes the
    behaviour of exactly the enemies of that type that have neither a
    name override nor a boss name: they get the behaviour of the key.
    An enemy of the type that is a boss by its name keeps the boss
    behaviour.  With a key that is not registered the call returns
    False and changes nothing. *)
Theorem type_behavior_spares_named_enemies (ai : EnemyAI.t)
    (enemy_type : EnemyType) (behavior_key : string) :
  match EnemyAI.behaviors ai !! behavior_key with
  | None =>
    EnemyAI.set_enemy_type_behavior ai enemy_type behavior_key = (ai, false)
  | Some r =>
    exists ai',
      EnemyAI.set_enemy_type_behavior ai enemy_type behavior_key = (ai', true)
      /\ EnemyAI.objects ai' = EnemyAI.objects ai
      /\ forall enemy,
           EnemyAI.get_behavior ai' enemy
           = if decide (Enemy.enemy_type enemy = enemy_type
                        /\ EnemyAI.custom_behaviors ai !! Enemy.name enemy
                           = None
                        /\ EnemyAI.boss_name (Enemy.name enemy) = false)
             then Ok r
             else EnemyAI.get_behavior ai enemy
  end.
Proof.
  unfold EnemyAI.set_enemy_type_behavior.
  destruct (EnemyAI.behaviors ai !! behavior_key) as [r|] eqn:Ek;
    [|reflexivity].
  eexists. split; [reflexivity|]. split; [reflexivity|].
  intros enemy. unfold EnemyAI.get_behavior, EnemyAI.behaviors_getitem.
  cbn [EnemyAI.custom_behaviors EnemyAI.behaviors
       EnemyAI.enemy_type_behaviors].
  case_decide as Hd.
  - destruct Hd as (Ht & Hc & Hn). rewrite Hc, Hn, Ht.
    rewrite lookup_insert_eq. simpl. rewrite Ek. reflexivity.
  - destruct (EnemyAI.custom_behaviors ai !! Enemy.name enemy) as [key|]
      eqn:Ec; [reflexivity|].
    destruct (EnemyAI.boss_name (Enemy.name enemy)) eqn:En; [reflexivity|].
    rewrite lookup_insert_ne; [reflexivity|].
    intros He. apply Hd. auto.
Qed.

(** ** The phases of a boss *)

Lemma truediv_health (enemy : Enemy.t) :
  Enemy.max_health enemy <> 0 ->
  Py.truediv (Enemy.health enemy) (Enemy.max_health enemy)
  = Ok (inject_Z (Enemy.health enemy) / inject_Z (Enemy.max_health enemy))%Q.
Proof.
  intros Hne. unfold Py.truediv. apply Z.eqb_neq in Hne. rewrite Hne.
  reflexivity.
Qed.

(** X26. Every decision a boss takes with dice on offer counts one turn
    and leaves the boss in the phase of the enemy's current health,
    whatever phase it was in, so the phase goes back when the enemy is
    healed.  When the phase stays, no used ability is forgotten; when
    it changes, the abilities used before are forgotten and at most one
    is recorded. *)
Theorem boss_phase_follows_health (self self' : BossBehavior.t)
    (enemy : Enemy.t) (player : Character.t) (enemy_dice : list enemy_die)
    (g g' : Rng) (a : action) :
  enemy_dice <> [] ->
  BossBehavior.decide_action self enemy player enemy_dice g
  = Ok (self', a, g') ->
  BossBehavior.turn_count self' = BossBehavior.turn_count self + 1
  /\ BossBehavior.phase self' = health_phase enemy
  /\ (BossBehavior.phase self = health_phase enemy ->
      BossBehavior.phase_abilities_used self
      ⊆ BossBehavior.phase_abilities_used self')
  /\ (BossBehavior.phase self <> health_phase enemy ->
      BossBehavior.phase_abilities_used self'
      ⊆ {[BossBehavior.ultimate_key a.1 a.2]}
      \/ BossBehavior.phase_abilities_used self' ⊆ {["phase2_heal"]}).
Proof.
  intros Hd. unfold BossBehavior.decide_action.
  destruct enemy_dice as [|d0 rest] eqn:Ed; [congruence|]. rewrite <- Ed.
  destruct (decide (Enemy.max_health enemy = 0)) as [H0|Hne].
  { unfold Py.truediv. rewrite H0. simpl. discriminate. }
  rewrite (truediv_health enemy Hne). cbn [mbind result_bind].
  fold (health_phase enemy).
  cbn [BossBehavior.phase BossBehavior.turn_count
       BossBehavior.phase_abilities_used].
  set (self1 := if negb _ then _ else _).
  assert (H1 :
    BossBehavior.turn_count self1 = BossBehavior.turn_count self + 1
    /\ BossBehavior.phase self1 = health_phase enemy
    /\ (BossBehavior.phase self = health_phase enemy ->
        BossBehavior.phase_abilities_used self1
        = BossBehavior.phase_abilities_used self)
    /\ (BossBehavior.phase self <> health_phase enemy ->
        BossBehavior.phase_abilities_used self1 = ∅)).
  { unfold self1.
    destruct (health_phase enemy =? BossBehavior.phase self) eqn:E; simpl.
    - apply Z.eqb_eq in E. repeat split; auto. intros; congruence.
    - apply Z.eqb_neq in E. repeat split; auto. intros; congruence. }
  clearbody self1. destruct H1 as (Ht & Hp & Hsame & Hnew).
  assert (Htail :
    BossBehavior.special_or_tactical self1 enemy player enemy_dice g
    = Ok (self', a, g') ->
    BossBehavior.turn_count self' = BossBehavior.turn_count self + 1
    /\ BossBehavior.phase self' = health_phase enemy
    /\ (BossBehavior.phase self = health_phase enemy ->
        BossBehavior.phase_abilities_used self
        ⊆ BossBehavior.phase_abilities_used self')
    /\ (BossBehavior.phase self <> health_phase enemy ->
        BossBehavior.phase_abilities_used self'
        ⊆ {[BossBehavior.ultimate_key a.1 a.2]}
        \/ BossBehavior.phase_abilities_used self' ⊆ {["phase2_heal"]})).
  { intros H. apply special_or_tactical_state in H. subst self'.
    split; [exact Ht|]. split; [exact Hp|]. split.
    - intros He. rewrite (Hsame He). reflexivity.
    - intros He. left. rewrite (Hnew He). apply empty_subseteq. }
  destruct (BossBehavior.phase self1 =? 3).
  - destruct (BossBehavior.scan_ultimate _ _) as [[t i]|]; [|exact Htail].
    clear Htail. intros H. injection H as <- <- <-. simpl.
    split; [exact Ht|]. split; [exact Hp|]. split.
    + intros He. rewrite (Hsame He). apply union_subseteq_l.
    + intros He. left. rewrite (Hnew He), (left_id_L ∅ (∪)). reflexivity.
  - destruct (BossBehavior.phase self1 =? 2); [|exact Htail].
    destruct (decide _); [exact Htail|].
    destruct (BossBehavior.find_heal enemy_dice) as [h|]; [|exact Htail].
    clear Htail. intros H. injection H as <- <- <-. simpl.
    split; [exact Ht|]. split; [exact Hp|]. split.
    + intros He. rewrite (Hsame He). apply union_subseteq_l.
    + intros He. right. rewrite (Hnew He), (left_id_L ∅ (∪)). reflexivity.
Qed.

Lemma boss_phase_follows_health_witness :
  BossBehavior.phase
    {| BossBehavior.turn_count := 1; BossBehavior.phase := 2;
       BossBehavior.phase_abilities_used := {["phase2_heal"]} |}
  = health_phase wounded_dragon.
Proof.
  apply (boss_phase_follows_health BossBehavior.__init__ _ wounded_dragon
           fresh_character [claw_die; mending_die] fixed_rng fixed_rng
           (SPECIAL, 1)).
  - discriminate.
  - reflexivity.
Defined.

(** The die the healing rule of phase 2 finds is the first die with a
    face whose name contains "Heal". *)
Lemma find_heal_spec (enemy_dice : list enemy_die) :
  BossBehavior.find_heal enemy_dice = first_healer enemy_dice.
Proof.
  unfold first_healer.
  induction enemy_dice as [|[[t i] info] rest IH]; [reflexivity|].
  cbn [BossBehavior.find_heal List.find snd].
  rewrite (filter_bool _ heal_face) by (intros f; reflexivity).
  rewrite existsb_filter.
  destruct (List.filter heal_face (di_faces info)); [exact IH|reflexivity].
Qed.

(** X27. A boss heals once per stay in phase 2 (health from 30% to
    below 60%).  With a die that has a face whose name contains "Heal"
    on offer, a call with no "phase2_heal" recorded for this stay
    rolls the first such die of the list and records "phase2_heal":
    that is so on the call that brings the boss into phase 2, whatever
    it had recorded before, which is forgotten, and on a call made in
    phase 2 before the record.  A call made in phase 2 with the record
    returns (the player's max_health not being 0, by which the tactical
    behaviour divides), keeps the record as it is, and rolls the first
    SPECIAL die, if there is one and the count of the turn is a
    multiple of 3, and otherwise what the tactical behaviour decides:
    the healing rule does not act again. *)
Theorem boss_heals_once_per_phase (self : BossBehavior.t) (enemy : Enemy.t)
    (player : Character.t) (enemy_dice : list enemy_die) (g : Rng) :
  enemy_dice <> [] ->
  Enemy.max_health enemy <> 0 ->
  health_phase enemy = 2 ->
  (BossBehavior.phase self <> 2 ->
   forall a,
     first_healer enemy_dice = Some a ->
     BossBehavior.decide_action self enemy player enemy_dice g
     = Ok ({| BossBehavior.turn_count := BossBehavior.turn_count self + 1;
              BossBehavior.phase := 2;
              BossBehavior.phase_abilities_used := {["phase2_heal"]} |},
           a, g))
  /\ (BossBehavior.phase self = 2 ->
      "phase2_heal" ∉ BossBehavior.phase_abilities_used self ->
      forall a,
        first_healer enemy_dice = Some a ->
        BossBehavior.decide_action self enemy player enemy_dice g
        = Ok ({| BossBehavior.turn_count := BossBehavior.turn_count self + 1;
                 BossBehavior.phase := 2;
                 BossBehavior.phase_abilities_used :=
                   BossBehavior.phase_abilities_used self
                     ∪ {["phase2_heal"]} |},
              a, g))
  /\ (BossBehavior.phase self = 2 ->
      "phase2_heal" ∈ BossBehavior.phase_abilities_used self ->
      CharacterStats.max_health (Character.stats player) <> 0 ->
      exists a g',
        BossBehavior.decide_action self enemy player enemy_dice g
        = Ok ({| BossBehavior.turn_count := BossBehavior.turn_count self + 1;
                 BossBehavior.phase := 2;
                 BossBehavior.phase_abilities_used :=
                   BossBehavior.phase_abilities_used self |},
              a, g')
        /\ match special_attack (BossBehavior.turn_count self + 1)
                   enemy_dice with
           | Some s => a = s /\ g' = g
           | None =>
             TacticalBehavior.decide_action enemy player enemy_dice g
             = Ok (a, g')
           end).
Proof.
  intros Hd Hne Hph. unfold BossBehavior.decide_action.
  destruct enemy_dice as [|d0 rest] eqn:Ed; [congruence|]. rewrite <- Ed.
  assert (Hd' : enemy_dice <> []) by (rewrite Ed; discriminate).
  rewrite (truediv_health enemy Hne). cbn [mbind result_bind].
  fold (health_phase enemy). rewrite Hph.
  cbn [BossBehavior.phase BossBehavior.turn_count
       BossBehavior.phase_abilities_used].
  rewrite find_heal_spec.
  split; [|split].
  - intros Hp a Ha.
    assert (E : (2 =? BossBehavior.phase self) = false)
      by (apply Z.eqb_neq; congruence).
    rewrite E. cbn [negb BossBehavior.phase BossBehavior.turn_count
                    BossBehavior.phase_abilities_used].
    change (2 =? 3) with false. change (2 =? 2) with true. cbv iota.
    rewrite decide_False by (apply not_elem_of_empty).
    rewrite Ha. rewrite (left_id_L ∅ (∪)). reflexivity.
  - intros Hp Hu a Ha. rewrite Hp.
    change (2 =? 2) with true.
    cbn [negb BossBehavior.phase BossBehavior.turn_count
         BossBehavior.phase_abilities_used].
    change (2 =? 3) with false. change (2 =? 2) with true.
    cbv iota. rewrite decide_False by exact Hu.
    rewrite Ha. reflexivity.
  - intros Hp Hu Hnp. rewrite Hp.
    change (2 =? 2) with true.
    cbn [negb BossBehavior.phase BossBehavior.turn_count
         BossBehavior.phase_abilities_used].
    change (2 =? 3) with false. change (2 =? 2) with true.
    cbv iota. rewrite decide_True by exact Hu.
    destruct (special_or_tactical_decides
                {| BossBehavior.turn_count := BossBehavior.turn_count self + 1;
                   BossBehavior.phase := 2;
                   BossBehavior.phase_abilities_used :=
                     BossBehavior.phase_abilities_used self |}
                enemy player enemy_dice g Hne Hnp) as (a & g' & Hrun).
    exists a, g'. split; [exact Hrun|].
    apply special_or_tactical_cases in Hrun. exact Hrun.
Qed.

Lemma boss_heals_once_per_phase_witness :
  BossBehavior.decide_action BossBehavior.__init__ wounded_dragon
    fresh_character [claw_die; mending_die] fixed_rng
  = Ok ({| BossBehavior.turn_count := 0 + 1; BossBehavior.phase := 2;
           BossBehavior.phase_abilities_used := {["phase2_heal"]} |},
        (SPECIAL, 1), fixed_rng).
Proof.
  apply (proj1 (boss_heals_once_per_phase BossBehavior.__init__
                  wounded_dragon fresh_character [claw_die; mending_die]
                  fixed_rng ltac:(discriminate) ltac:(discriminate)
                  ltac:(reflexivity))).
  - discriminate.
  - reflexivity.
Defined.

(** The dragon at 45% heals on its first turn in phase 2 and not on
    the next: with the record it rolls the claws. *)
Example heals_then_claws :
  exists self1 self2 g2,
    BossBehavior.decide_action BossBehavior.__init__ wounded_dragon
      fresh_character [claw_die; mending_die] fixed_rng
    = Ok (self1, (SPECIAL, 1), fixed_rng)
    /\ BossBehavior.decide_action self1 wounded_dragon fresh_character
         [claw_die; mending_die] fixed_rng
       = Ok (self2, (COMBAT, 0), g2)
    /\ BossBehavior.phase_abilities_used self2 = {["phase2_heal"]}.
Proof.
  eexists. eexists. eexists.
  split; [vm_compute; reflexivity|].
  split; [vm_compute; reflexivity|].
  vm_compute. reflexivity.
Qed.

(** ** A combat turn of the game *)

Lemma enemy_turn_frame (log : list string) (enemy : Enemy.t)
    (p : Character.t) (g : Rng) (log' : list string) (p' : Character.t)
    (res : CombatSystem.CombatResult) (g' : Rng) :
  CombatSystem.enemy_turn log enemy p g = (log', p', res, g') ->
  log' = log ++ [CombatSystem.message res]
  /\ g' = random.advance (random.advance g)
  /\ (CombatSystem.target_defeated res = true ->
      CharacterStats.health (Character.stats p') = 0).
Proof.
  unfold CombatSystem.enemy_turn, random.uniform, random.random,
    CombatSystem.add_entry.
  cbn [random.advance rng_float rng_tick].
  destruct (Py.lt _ (CharacterStats.dodge _)).
  - intros H. injection H as <- <- <- <-. cbn.
    split; [reflexivity|]. split; [reflexivity|]. discriminate.
  - set (damage := Py.int _).
    cbn [CharacterStats.health CharacterStats.set_health
         CharacterStats.max_health].
    destruct (_ - damage <=? 0); intros H; injection H as <- <- <- <-; cbn;
      (split; [reflexivity|]); (split; [reflexivity|]);
      [reflexivity|discriminate].
Qed.

Lemma enemy_turns_spec (enemies : list Enemy.t) :
  forall (log : list string) (p : Character.t) (g : Rng)
         (acc : list GameInstance.enemy_report) (log' : list string)
         (p' : Character.t) (reports : list GameInstance.enemy_report)
         (defeated : bool) (g' : Rng),
  GameInstance.enemy_turns log p enemies g acc
  = (log', p', reports, defeated, g') ->
  exists acted,
    reports = acc ++ acted
    /\ map GameInstance.enemy_name acted
       = map Enemy.name (take (length acted) enemies)
    /\ log' = log ++ map GameInstance.er_message acted
    /\ rng_tick g' = (rng_tick g + 2 * length acted)%nat
    /\ (if defeated
        then CharacterStats.health (Character.stats p') = 0 /\ acted <> []
        else length acted = length enemies).
Proof.
  induction enemies as [|enemy rest IH];
    intros log p g acc log' p' reports defeated g' H.
  - simpl in H. injection H as <- <- <- <- <-.
    exists []. rewrite !app_nil_r. simpl.
    repeat split; try reflexivity. lia.
  - cbn [GameInstance.enemy_turns] in H.
    destruct (CombatSystem.enemy_turn log enemy p g)
      as [[[log1 p1] res] g1] eqn:Et.
    apply enemy_turn_frame in Et as (-> & -> & Hdef).
    destruct (CombatSystem.target_defeated res) eqn:Ed.
    + injection H as <- <- <- <- <-.
      eexists [_]. split; [reflexivity|]. simpl.
      split; [reflexivity|]. split; [reflexivity|].
      split; [lia|]. split; [auto|discriminate].
    + apply IH in H as (acted & -> & Hn & -> & Hg & Hend).
      eexists (_ :: acted). rewrite <- !app_assoc. simpl.
      split; [reflexivity|]. split; [rewrite Hn; reflexivity|].
      split; [reflexivity|]. split; [simpl in Hg; lia|].
      destruct defeated; [|lia].
      split; [apply Hend|discriminate].
Qed.



Lemma handle_combat_turn_unfold (other_attribute : string -> bool)
    (self : GameInstance.t) (st : GameInstance.GameState)
    (dice_type : DiceType) (dice_index target_index : Z) (g : Rng)
    (w : CombatSystem.world) (outcome : CombatSystem.CombatResult) :
  GameInstance.state self = Some st ->
  GameInstance.in_combat st = true ->
  CombatSystem.player_turn other_attribute (world_of self st g) dice_type
    dice_index target_index = Ok (w, outcome) ->
  CombatSystem.target_defeated outcome = false ->
  GameInstance.handle_combat_turn other_attribute self dice_type dice_index
    target_index g
  = let '(log, player, enemy_results, defeated, g) :=
      GameInstance.enemy_turns (CombatSystem.log w) (CombatSystem.player w)
        (CombatSystem.enemies w) (CombatSystem.rng w) [] in
    if defeated then
      Ok ({| GameInstance.state :=
               Some {| GameInstance.player := player;
                       GameInstance.gold := GameInstance.gold st;
                       GameInstance.in_combat := false;
                       GameInstance.combat_enemies := CombatSystem.enemies w;
                       GameInstance.game_over := true |};
             GameInstance.log := log |},
          GameInstance.PlayerDefeated (CombatSystem.message outcome)
            enemy_results, g)
    else
      Ok ({| GameInstance.state :=
               Some {| GameInstance.player := player;
                       GameInstance.gold := GameInstance.gold st;
                       GameInstance.in_combat := true;
                       GameInstance.combat_enemies := CombatSystem.enemies w;
                       GameInstance.game_over := GameInstance.game_over st |};
             GameInstance.log := log |},
          GameInstance.TurnDone (CombatSystem.success outcome)
            (CombatSystem.message outcome)
            (CombatSystem.damage_dealt outcome)
            (CombatSystem.healing_done outcome)
            enemy_results (CombatSystem.get_last_entries log 5), g).
Proof.
  intros Hst Hin Hturn Hdef. unfold GameInstance.handle_combat_turn.
  rewrite Hst, Hin. cbn [negb]. unfold world_of in Hturn. rewrite Hturn.
  cbn [mbind result_bind]. rewrite Hdef. reflexivity.
Qed.

(** X29. A combat turn with a target index out of range rolls no die
    but still costs the player the round: the enemies attack as after
    any other turn, and the turn is reported as failed with "Invalid
    target!", or as the player's defeat when one of the attacks brings
    the player to 0 health. *)
Theorem invalid_target_costs_the_round (other_attribute : string -> bool)
    (self : GameInstance.t) (st : GameInstance.GameState)
    (dice_type : DiceType) (dice_index target_index : Z) (g : Rng) :
  GameInstance.state self = Some st ->
  GameInstance.in_combat st = true ->
  ~ 0 <= target_index < Py.len (GameInstance.combat_enemies st) ->
  GameInstance.handle_combat_turn other_attribute self dice_type dice_index
    target_index g
  = let '(log, player, enemy_results, defeated, g) :=
      GameInstance.enemy_turns (GameInstance.log self)
        (GameInstance.player st) (GameInstance.combat_enemies st) g [] in
    Ok ({| GameInstance.state :=
             Some {| GameInstance.player := player;
                     GameInstance.gold := GameInstance.gold st;
                     GameInstance.in_combat := negb defeated;
                     GameInstance.combat_enemies :=
                       GameInstance.combat_enemies st;
                     GameInstance.game_over :=
                       defeated || GameInstance.game_over st |};
           GameInstance.log := log |},
        if defeated
        then GameInstance.PlayerDefeated "Invalid target!" enemy_results
        else GameInstance.TurnDone false "Invalid target!" 0 0 enemy_results
               (CombatSystem.get_last_entries log 5),
        g).
Proof.
  intros Hst Hin Hout.
  rewrite (handle_combat_turn_unfold other_attribute self st dice_type
             dice_index target_index g (world_of self st g) invalid_target
             Hst Hin).
  - cbn [world_of CombatSystem.log CombatSystem.player CombatSystem.enemies
         CombatSystem.rng].
    destruct (GameInstance.enemy_turns _ _ _ _ _)
      as [[[[log' p'] reports] defeated] g'].
    destruct defeated; reflexivity.
  - apply invalid_target_turn. exact Hout.
  - reflexivity.
Qed.

Lemma invalid_target_costs_the_round_witness :
  GameInstance.handle_combat_turn fields_only
    (encounter fresh_character [goblin]) COMBAT 0 7 fixed_rng
  = let '(log, player, enemy_results, defeated, g) :=
      GameInstance.enemy_turns
        (GameInstance.log (encounter fresh_character [goblin]))
        fresh_character [goblin] fixed_rng [] in
    Ok ({| GameInstance.state :=
             Some {| GameInstance.player := player;
                     GameInstance.gold := 40;
                     GameInstance.in_combat := negb defeated;
                     GameInstance.combat_enemies := [goblin];
                     GameInstance.game_over := defeated || false |};
           GameInstance.log := log |},
        if defeated
        then GameInstance.PlayerDefeated "Invalid target!" enemy_results
        else GameInstance.TurnDone false "Invalid target!" 0 0 enemy_results
               (CombatSystem.get_last_entries log 5),
        g).
Proof.
  apply (invalid_target_costs_the_round fields_only
           (encounter fresh_character [goblin])
           {| GameInstance.player := fresh_character;
              GameInstance.gold := 40; GameInstance.in_combat := true;
              GameInstance.combat_enemies := [goblin];
              GameInstance.game_over := false |}
           COMBAT 0 7 fixed_rng).
  - reflexivity.
  - reflexivity.
  - unfold Py.len. simpl. lia.
Defined.

Lemma player_turn_length (other_attribute : string -> bool)
    (w w' : CombatSystem.world) (dice_type : DiceType)
    (dice_index target_index : Z) (r : CombatSystem.CombatResult) :
  CombatSystem.player_turn other_attribute w dice_type dice_index target_index
  = Ok (w', r) ->
  length (CombatSystem.enemies w') = length (CombatSystem.enemies w)
  /\ (CombatSystem.target_defeated r = true ->
      0 <= target_index
      /\ exists target target',
           CombatSystem.enemies w !! Z.to_nat target_index = Some target
           /\ CombatSystem.enemies w' !! Z.to_nat target_index = Some target'
           /\ Enemy.gold_reward target' = Enemy.gold_reward target
           /\ Enemy.xp_reward target' = Enemy.xp_reward target).
Proof.
  intros H.
  apply player_turn_cases in H
    as [(Hout & -> & ->) | [(Hin & p' & msg & g1 & _ & -> & ->)
       | (Hin & target & p' & rr & msg & g1 & log2 & p2 & t2 & g2
          & Hl & _ & Hp & ->)]].
  - split; [reflexivity|discriminate].
  - split; [reflexivity|discriminate].
  - simpl. split; [apply length_insert|].
    intros _. split; [lia|]. exists target, t2.
    split; [exact Hl|]. split.
    + apply list_lookup_insert_eq. eapply lookup_lt_Some. exact Hl.
    + apply process_action_frame in Hp as (_ & -> & _). split; reflexivity.
Qed.

Lemma handle_combat_turn_round (other_attribute : string -> bool)
    (self : GameInstance.t) (st : GameInstance.GameState)
    (dice_type : DiceType) (dice_index target_index : Z) (g : Rng)
    (w : CombatSystem.world) (outcome : CombatSystem.CombatResult) :
  GameInstance.state self = Some st ->
  GameInstance.in_combat st = true ->
  CombatSystem.player_turn other_attribute (world_of self st g) dice_type
    dice_index target_index = Ok (w, outcome) ->
  GameInstance.handle_combat_turn other_attribute self dice_type dice_index
    target_index g
  = if CombatSystem.target_defeated outcome then
      defeated_enemy ← Py.getitem (CombatSystem.enemies w) target_index;
      let enemies :=
        delete (Z.to_nat target_index) (CombatSystem.enemies w) in
      let gold := GameInstance.gold st + Enemy.gold_reward defeated_enemy in
      let player :=
        (Character.add_xp (CombatSystem.player w)
           (Enemy.xp_reward defeated_enemy)).1 in
      match enemies with
      | [] =>
        Ok ({| GameInstance.state :=
                 Some {| GameInstance.player := player;
                         GameInstance.gold := gold;
                         GameInstance.in_combat := false;
                         GameInstance.combat_enemies := [];
                         GameInstance.game_over :=
                           GameInstance.game_over st |};
               GameInstance.log := CombatSystem.log w |},
            GameInstance.CombatOver (CombatSystem.message outcome)
              (Enemy.gold_reward defeated_enemy)
              (Enemy.xp_reward defeated_enemy), CombatSystem.rng w)
      | _ :: _ =>
        enemy_round st outcome (CombatSystem.log w) player gold enemies
          (CombatSystem.rng w)
      end
    else
      enemy_round st outcome (CombatSystem.log w) (CombatSystem.player w)
        (GameInstance.gold st) (CombatSystem.enemies w) (CombatSystem.rng w).
Proof.
  intros Hst Hin Hturn. unfold GameInstance.handle_combat_turn.
  rewrite Hst. destruct (GameInstance.in_combat st) eqn:Ei; [|discriminate].
  cbn [negb]. unfold world_of in Hturn. rewrite Hturn.
  cbn [mbind result_bind]. unfold enemy_round. rewrite Ei.
  destruct (CombatSystem.target_defeated outcome); [|reflexivity].
  destruct (Py.getitem _ _) as [defeated_enemy|e]; [|reflexivity].
  cbn [mbind result_bind].
  destruct (Character.add_xp _ _) as [player' leveled].
  destruct (delete _ _); reflexivity.
Qed.

Lemma enemy_round_spec (st : GameInstance.GameState)
    (outcome : CombatSystem.CombatResult) (w : CombatSystem.world)
    (player : Character.t) (gold : Z) (enemies : list Enemy.t) :
  GameInstance.in_combat st = true ->
  enemies <> [] ->
  exists self' st' rep g',
    enemy_round st outcome (CombatSystem.log w) player gold enemies
      (CombatSystem.rng w)
    = Ok (self', rep, g')
    /\ GameInstance.state self' = Some st'
    /\ CombatSystem.log w `prefix_of` GameInstance.log self'
    /\ GameInstance.combat_enemies st' = enemies
    /\ GameInstance.gold st' = gold
    /\ report_holds st st' w self' g' rep.
Proof.
  intros Hin Hne. unfold enemy_round.
  destruct (GameInstance.enemy_turns _ _ _ _ _)
    as [[[[log' p'] reports] defeated] g'] eqn:Ee.
  apply enemy_turns_spec in Ee as (acted & -> & Hn & -> & Hg & Hend).
  destruct defeated.
  - eexists. eexists. eexists. eexists.
    split; [reflexivity|]. split; [reflexivity|].
    split; [apply prefix_app_r; reflexivity|]. split; [reflexivity|].
    split; [reflexivity|].
    simpl. split; [exact Hne|]. split; [reflexivity|].
    split; [reflexivity|]. apply Hend.
  - eexists. eexists. eexists. eexists.
    split; [reflexivity|]. split; [reflexivity|].
    split; [apply prefix_app_r; reflexivity|]. split; [reflexivity|].
    split; [reflexivity|].
    simpl. split; [exact Hne|]. split; [exact Hin|].
    split; [reflexivity|].
    rewrite Hn, Hend, firstn_all. reflexivity.
Qed.

(** X30. A combat turn in which the player's action returns never
    fails itself (the defeated target is always there to be removed),
    only adds to the log, and ends in one of three ways.  Victory: the
    target was the last enemy; combat ends, the gold reward is credited
    and no enemy acts.  Defeat: an enemy's attack brought the player to
    0 health; the game is over and combat ends.  Otherwise combat goes
    on and every enemy left has attacked once, in order.  The number of
    enemies drops by one exactly when the target was defeated, and the
    gold grows by the gold reward of the target exactly then. *)
Theorem combat_turn_outcomes (other_attribute : string -> bool)
    (self : GameInstance.t) (st : GameInstance.GameState)
    (dice_type : DiceType) (dice_index target_index : Z) (g : Rng)
    (w : CombatSystem.world) (outcome : CombatSystem.CombatResult) :
  GameInstance.state self = Some st ->
  GameInstance.in_combat st = true ->
  GameInstance.combat_enemies st <> [] ->
  CombatSystem.player_turn other_attribute (world_of self st g) dice_type
    dice_index target_index = Ok (w, outcome) ->
  exists self' st' rep g',
    GameInstance.handle_combat_turn other_attribute self dice_type dice_index
      target_index g
    = Ok (self', rep, g')
    /\ GameInstance.state self' = Some st'
    /\ GameInstance.log self `prefix_of` GameInstance.log self'
    /\ length (GameInstance.combat_enemies st')
       = (length (GameInstance.combat_enemies st)
          - (if CombatSystem.target_defeated outcome then 1 else 0))%nat
    /\ GameInstance.gold st'
       = GameInstance.gold st
         + (if CombatSystem.target_defeated outcome
            then default 0 (Enemy.gold_reward
                              <$> GameInstance.combat_enemies st
                                  !! Z.to_nat target_index)
            else 0)
    /\ report_holds st st' w self' g' rep.
Proof.
  intros Hst Hin Hne Hturn.
  rewrite (handle_combat_turn_round other_attribute self st dice_type
             dice_index target_index g w outcome Hst Hin Hturn).
  pose proof (player_turn_length _ _ _ _ _ _ _ Hturn) as [Hlen Hrange].
  assert (Hlog : GameInstance.log self `prefix_of` CombatSystem.log w).
  { pose proof Hturn as Hc.
    apply player_turn_cases in Hc
      as [(Hout & -> & ->) | [(Hi & p' & msg & g1 & _ & -> & ->)
         | (Hi & target & p' & rr & msg & g1 & log2 & p2 & t2 & g2
            & Hl & _ & Hp & ->)]]; simpl.
    - reflexivity.
    - apply prefix_app_r. reflexivity.
    - apply process_action_frame in Hp as ([entry ->] & _).
      apply prefix_app_r. reflexivity. }
  cbn [world_of CombatSystem.enemies] in Hlen.
  destruct (CombatSystem.target_defeated outcome) eqn:Hdef.
  - destruct (Hrange eq_refl)
      as (H0 & target & defeated_enemy & Ht & Hl & Hgold & Hxp).
    cbn [world_of CombatSystem.enemies] in Ht.
    pose proof (lookup_lt_Some _ _ _ Hl) as Hlt.
    assert (Hcredit :
      GameInstance.gold st + Enemy.gold_reward defeated_enemy
      = GameInstance.gold st
        + default 0 (Enemy.gold_reward
                       <$> GameInstance.combat_enemies st
                           !! Z.to_nat target_index)).
    { rewrite Ht. simpl. rewrite Hgold. reflexivity. }
    unfold Py.getitem. rewrite in_range_decide.
    rewrite bool_decide_eq_true_2 by (unfold Py.len; lia).
    rewrite Hl. cbn [mbind result_bind]. cbv zeta.
    assert (Hdel :
      length (delete (Z.to_nat target_index) (CombatSystem.enemies w))
      = (length (GameInstance.combat_enemies st) - 1)%nat).
    { rewrite length_delete by eauto. lia. }
    destruct (delete (Z.to_nat target_index) (CombatSystem.enemies w))
      as [|e0 es] eqn:Ed.
    + eexists. eexists. eexists. eexists.
      split; [reflexivity|]. split; [reflexivity|].
      split; [exact Hlog|]. split; [exact Hdel|].
      split; [exact Hcredit|].
      simpl. repeat split; reflexivity.
    + destruct (enemy_round_spec st outcome w
                  (Character.add_xp (CombatSystem.player w)
                     (Enemy.xp_reward defeated_enemy)).1
                  (GameInstance.gold st + Enemy.gold_reward defeated_enemy)
                  (e0 :: es) Hin)
        as (self' & st' & rep & g' & He & Hs & Hp & Hen & Hg & Hrep);
        [discriminate|].
      exists self', st', rep, g'.
      split; [exact He|]. split; [exact Hs|].
      split; [etrans; [exact Hlog|exact Hp]|].
      split; [rewrite Hen; exact Hdel|].
      split; [rewrite Hg; exact Hcredit|exact Hrep].
  - assert (Hne' : CombatSystem.enemies w <> []).
    { intros E. rewrite E in Hlen. simpl in Hlen.
      destruct (GameInstance.combat_enemies st); [congruence|discriminate]. }
    destruct (enemy_round_spec st outcome w (CombatSystem.player w)
                (GameInstance.gold st) (CombatSystem.enemies w) Hin Hne')
      as (self' & st' & rep & g' & He & Hs & Hp & Hen & Hg & Hrep).
    exists self', st', rep, g'.
    split; [exact He|]. split; [exact Hs|].
    split; [etrans; [exact Hlog|exact Hp]|].
    split; [rewrite Hen; lia|].
    split; [rewrite Hg; lia|exact Hrep].
Qed.

Lemma combat_turn_outcomes_witness :
  exists w outcome,
    CombatSystem.player_turn fields_only
      (world_of (encounter (CombatSystem.player (duel heavy_strike)) [goblin])
         {| GameInstance.player := CombatSystem.player (duel heavy_strike);
            GameInstance.gold := 40; GameInstance.in_combat := true;
            GameInstance.combat_enemies := [goblin];
            GameInstance.game_over := false |}
         fixed_rng)
      COMBAT 0 0
    = Ok (w, outcome)
    /\ exists self' st' rep g',
         GameInstance.handle_combat_turn fields_only
           (encounter (CombatSystem.player (duel heavy_strike)) [goblin])
           COMBAT 0 0 fixed_rng
         = Ok (self', rep, g')
         /\ GameInstance.state self' = Some st'
         /\ GameInstance.log
              (encounter (CombatSystem.player (duel heavy_strike)) [goblin])
            `prefix_of` GameInstance.log self'
         /\ length (GameInstance.combat_enemies st')
            = (length [goblin]
               - (if CombatSystem.target_defeated outcome then 1 else 0))%nat
         /\ GameInstance.gold st'
            = 40 + (if CombatSystem.target_defeated outcome
                    then default 0 (Enemy.gold_reward
                                      <$> [goblin] !! Z.to_nat 0)
                    else 0)
         /\ report_holds
              {| GameInstance.player :=
                   CombatSystem.player (duel heavy_strike);
                 GameInstance.gold := 40; GameInstance.in_combat := true;
                 GameInstance.combat_enemies := [goblin];
                 GameInstance.game_over := false |}
              st' w self' g' rep.
Proof.
  eexists. eexists. split; [vm_compute; reflexivity|].
  apply (combat_turn_outcomes fields_only
           (encounter (CombatSystem.player (duel heavy_strike)) [goblin])
           {| GameInstance.player := CombatSystem.player (duel heavy_strike);
              GameInstance.gold := 40; GameInstance.in_combat := true;
              GameInstance.combat_enemies := [goblin];
              GameInstance.game_over := false |}
           COMBAT 0 0 fixed_rng).
  - reflexivity.
  - reflexivity.
  - discriminate.
  - vm_compute. reflexivity.
Defined.

Example victory_over_the_goblin :
  exists self' g',
    GameInstance.handle_combat_turn fields_only
      (encounter (CombatSystem.player (duel heavy_strike)) [goblin])
      COMBAT 0 0 fixed_rng
    = Ok (self', GameInstance.CombatOver
                   "Heavy Strike deals 17 damage to Goblin! Goblin is defeated!"
                   5 10, g').
Proof. eexists. eexists. vm_compute. reflexivity. Qed.
